(** * The React reconciler of Prepack (src/react/reconcilation.js)

    A shallow embedding of the [Reconciler] class: the tree-folding partial
    evaluator that renders a React component tree ahead of time.

    The reconciler's own fields (component tree state, memoization tables,
    queues, statistics, report nodes) are an explicit record that is threaded
    through every method.  A [throw] is an outcome that keeps the state reached
    so far, since JavaScript does not roll back the fields of [this].  The
    evaluator underneath (property access, calls of user code, creation of
    values) is not part of this file: it is a record of operations, [Host],
    that every definition and theorem is parametric in. *)

From Stdlib Require Import ZArith Lia.
From stdpp Require Import gmap strings list fin_maps.

Local Open Scope string_scope.
Local Open Scope list_scope.
Local Open Scope Z_scope.

(** ** Values of the evaluator *)

(** Modelled from the spec: the classes of values/index.js (imported at lines
    13-28, declared elsewhere).  A value carries its most specific class;
    [instanceof] follows the subclass relation: arrays and functions are
    objects, source and bound functions are functions, and an abstract object
    is an abstract value (and not an [ObjectValue], as the union types
    [ObjectValue | AbstractObjectValue] of this file show). *)
Inductive ValueClass :=
  | StringValue | NumberValue | BooleanValue | NullValue | UndefinedValue
  | SymbolValue
  | AbstractValue | AbstractObjectValue
  | ObjectValue | ArrayValue
  | FunctionValue | ECMAScriptSourceFunctionValue | BoundFunctionValue.

#[global] Instance ValueClass_eq_dec : EqDecision ValueClass.
Proof. solve_decision. Defined.

Definition ValueClass_code (c : ValueClass) : nat :=
  match c with
  | StringValue => 0 | NumberValue => 1 | BooleanValue => 2 | NullValue => 3
  | UndefinedValue => 4 | SymbolValue => 5 | AbstractValue => 6
  | AbstractObjectValue => 7 | ObjectValue => 8 | ArrayValue => 9
  | FunctionValue => 10 | ECMAScriptSourceFunctionValue => 11
  | BoundFunctionValue => 12
  end%nat.

Definition ValueClass_decode (n : nat) : ValueClass :=
  match n with
  | 0 => StringValue | 1 => NumberValue | 2 => BooleanValue | 3 => NullValue
  | 4 => UndefinedValue | 5 => SymbolValue | 6 => AbstractValue
  | 7 => AbstractObjectValue | 8 => ObjectValue | 9 => ArrayValue
  | 10 => FunctionValue | 11 => ECMAScriptSourceFunctionValue
  | _ => BoundFunctionValue
  end%nat.

#[global] Instance ValueClass_countable : Countable ValueClass.
Proof.
  apply (inj_countable' ValueClass_code ValueClass_decode).
  intros []; reflexivity.
Defined.

(** A value is a reference: its class and its identity.  [===] on values is
    equality of these handles. *)
Record Value := mkValue { vclass : ValueClass; vid : nat }.

#[global] Instance Value_eq_dec : EqDecision Value.
Proof. solve_decision. Defined.

#[global] Instance Value_countable : Countable Value.
Proof.
  apply (inj_countable' (fun v => (vclass v, vid v))
                        (fun p => mkValue (fst p) (snd p))).
  intros []; reflexivity.
Defined.

Definition subclass (c C : ValueClass) : bool :=
  match C, c with
  | ObjectValue, (ObjectValue | ArrayValue | FunctionValue
                 | ECMAScriptSourceFunctionValue | BoundFunctionValue) => true
  | FunctionValue, (FunctionValue | ECMAScriptSourceFunctionValue
                   | BoundFunctionValue) => true
  | AbstractValue, (AbstractValue | AbstractObjectValue) => true
  | _, _ => bool_decide (c = C)
  end.

Definition instanceof (v : Value) (C : ValueClass) : bool :=
  subclass (vclass v) C.
Arguments instanceof : simpl never.

(** ** Errors and control signals (./errors.js, ../errors.js, completions) *)

Definition NodeRef := nat.

Inductive Error :=
  | InvariantViolation (message : string)
  | ReconcilerFatalError (message : string) (evaluatedNode : NodeRef)
  | UnsupportedSideEffect (message : string)
  | DoNotOptimize (message : string)
  | ExpectedBailOut (message : string)
  | NewComponentTreeBranch (evaluatedNode : NodeRef)
  | SimpleClassBailOut (message : string)
  | FatalError (message : string)
  | Completion (value : Value)
  | OtherError (message : string).

(** [error.message] *)
Definition error_message (e : Error) : string :=
  match e with
  | InvariantViolation m | ReconcilerFatalError m _ | UnsupportedSideEffect m
  | DoNotOptimize m | ExpectedBailOut m | SimpleClassBailOut m
  | FatalError m | OtherError m => m
  | NewComponentTreeBranch _ | Completion _ => EmptyString
  end.

(** ** Enumerations of the reconciler *)

Inductive BranchStatusEnum := ROOT | NO_BRANCH | NEW_BRANCH | BRANCH.

Inductive ComponentResolutionStrategy :=
  | NORMAL | FRAGMENT | RELAY_QUERY_RENDERER
  | CONTEXT_PROVIDER | CONTEXT_CONSUMER | FORWARD_REF.

Inductive TreeStatus := SIMPLE | COMPLEX.

Inductive NodeStatus :=
  | NODE_NORMAL | NODE_NEW_TREE | NODE_INLINED | NODE_BAIL_OUT
  | NODE_RENDER_PROPS | NODE_FORWARD_REF | NODE_FATAL.

Inductive TreatFunctionsAs :=
  | NORMAL_FUNCTIONS | NESTED_CLOSURES | FUNCTIONAL_COMPONENTS.

#[global] Instance BranchStatusEnum_eq_dec : EqDecision BranchStatusEnum.
Proof. solve_decision. Defined.
#[global] Instance Strategy_eq_dec : EqDecision ComponentResolutionStrategy.
Proof. solve_decision. Defined.
#[global] Instance TreeStatus_eq_dec : EqDecision TreeStatus.
Proof. solve_decision. Defined.
#[global] Instance NodeStatus_eq_dec : EqDecision NodeStatus.
Proof. solve_decision. Defined.
#[global] Instance TreatFunctionsAs_eq_dec : EqDecision TreatFunctionsAs.
Proof. solve_decision. Defined.

(** ** Report nodes

    Modelled from the spec: a [ReactEvaluatedNode] (serializer/types.js) has a
    status tag, a display name, an optional message and an ordered list of
    child nodes.  Nodes are JavaScript objects that the reconciler mutates
    after it has stored them, and [children] is an array that two nodes can
    share ([hasEvaluatedRootNode] assigns one node's array to another).  So
    nodes live in a store, and so do the arrays of children. *)
Definition ArrayRef := nat.

Record ReactEvaluatedNode := mkNode {
  children : ArrayRef;
  message : option string;
  name : string;
  status : NodeStatus
}.

(** ** Records queued for the driver *)

Definition Effects := nat.

Record OptimizedClosure := mkOptimizedClosure {
  oc_evaluatedNode : NodeRef;
  oc_func : Value;
  oc_nestedEffects : list Effects;
  oc_componentType : option Value;
  oc_context : option Value
}.

Record BranchReactComponentTree := mkBranch {
  br_context : option Value;
  br_evaluatedNode : NodeRef;
  br_props : option Value;
  br_rootValue : Value
}.

Record ComponentTreeState := mkComponentTreeState {
  componentType : option Value;
  contextTypes : gset string;
  deadEnds : Z;
  treeStatus : TreeStatus;
  contextNodeReferences : gmap Value Z
}.

Record ReactStatistics := mkStatistics {
  optimizedTrees : Z;
  componentsEvaluated : Z;
  inlinedComponents : Z;
  optimizedNestedClosures : Z
}.

Record ReactComponentTreeConfig := mkConfig {
  firstRenderOnly : bool
}.

(** ** The realm: the part of the evaluator's state that this file reads or
    writes field by field, and the rest of it, opaque. *)

Record Descriptor := mkDescriptor {
  d_value : option Value;
  d_enumerable : bool
}.

Record PropertyBinding := mkBinding {
  descriptor : option Descriptor
}.

Record ClassComponentMetadata := mkMetadata {
  instanceProperties : gset string;
  instanceSymbols : gset nat
}.

(** An entry of [realm.react.abstractHints]: the reconciler tests
    [typeof reactHint !== "string"], so an entry is a string or a record.  The
    accessors give [None] where JavaScript gives [undefined]. *)
Record ReactHintRecord := mkHint {
  hint_object : Value;
  hint_propertyName : option string;
  hint_args : list Value;
  hint_firstRenderValue : option Value
}.

Inductive ReactHint :=
  | HintString (s : string)
  | HintRecord (h : ReactHintRecord).

Definition reactHint_object (h : ReactHint) : option Value :=
  match h with HintString _ => None | HintRecord r => Some (hint_object r) end.

Definition reactHint_propertyName (h : ReactHint) : option string :=
  match h with HintString _ => None | HintRecord r => hint_propertyName r end.

Definition reactHint_args (h : ReactHint) : option (list Value) :=
  match h with HintString _ => None | HintRecord r => Some (hint_args r) end.

Definition reactHint_firstRenderValue (h : ReactHint) : option Value :=
  match h with HintString _ => None | HintRecord r => hint_firstRenderValue r end.

Definition reactHint_isString (h : ReactHint) : bool :=
  match h with HintString _ => true | HintRecord _ => false end.

Record ArrayHint := mkArrayHint {
  ah_func : Value;
  ah_thisVal : option Value
}.

Record BabelParameter := mkParameter {
  isIdentifier : bool;
  parameter_name : string
}.

Definition Location := option nat.

(** ** Outcomes: a result, a thrown error, or no result within the fuel *)

Inductive Res (A : Type) :=
  | Ok (a : A)
  | Throw (e : Error)
  | Diverge.
Arguments Ok {A} a.
Arguments Throw {A} e.
Arguments Diverge {A}.

Section Model.

Context {HostState : Type}.

Record Realm := mkRealm {
  intrinsics_undefined : Value;
  intrinsics_ObjectPrototype : Value;
  fbLibraries_react : option Value;
  fbLibraries_reactRelay : option Value;
  fbLibraries_reactDom : option Value;
  react_optimizeNestedFunctions : bool;
  react_verbose : bool;
  react_classComponentMetadata : gmap Value ClassComponentMetadata;
  react_abstractHints : gmap Value ReactHint;
  react_arrayHints : gmap Value ArrayHint;
  react_propsWithNoPartialKeyOrRef : gset Value;
  generator : bool;
  (** [object.properties], a JavaScript [Map] in insertion order *)
  properties : gmap Value (list (string * PropertyBinding));
  (** [object.$BailOutReason] *)
  BailOutReason : gmap Value string;
  hostState : HostState
}.

(** An operation of the evaluator that can change the realm or throw. *)
Definition HostM (A : Type) : Type := Realm -> Res A * Realm.

(** The evaluator's interface.  Lookups read the realm; the other operations
    run evaluator or user code, so they can change the realm and throw. *)
Record Host := mkHost {
  (* ./utils *)
  getProperty : Realm -> Value -> string -> Value;
  getReactSymbol : Realm -> string -> Value;
  getComponentName : Realm -> Value -> string;
  getComponentTypeFromRootValue : Realm -> Value -> option Value;
  getLocationFromValue : Location -> string;
  doNotOptimizeComponent : Realm -> Value -> bool;
  isReactElement : Realm -> Value -> bool;
  valueIsClassComponent : Realm -> Value -> bool;
  valueIsFactoryClassComponent : Realm -> Value -> bool;
  valueIsKnownReactAbstraction : Realm -> Value -> bool;
  valueIsLegacyCreateClassComponent : Realm -> Value -> bool;
  createInternalReactElement : Value -> Value -> Value -> Value -> HostM Value;
  flagPropsWithNoPartialKeyOrRef : Value -> HostM unit;
  flattenChildren : Value -> HostM Value;
  getValueFromFunctionCall : Value -> Value -> list Value -> HostM Value;
  (* gives a copy of the element, a new object; props that are not an
     ObjectValue break an invariant *)
  sanitizeReactElementForFirstRenderOnly : Value -> HostM Value;
  (* fields and methods of values *)
  kind : Realm -> Value -> option string;
  args : Realm -> Value -> list Value;
  values_isTop : Realm -> Value -> bool;
  values_getElements : Realm -> Value -> option (list Value);
  isFinal_defined : Realm -> Value -> bool;
  intrinsicName : Realm -> Value -> option string;
  expressionLocation : Realm -> Value -> Location;
  isSimpleObject : Realm -> Value -> bool;
  isPartialObject : Realm -> Value -> bool;
  isIntrinsicAndHasWidenedNumericProperty : Realm -> Value -> bool;
  arrayElements : Realm -> Value -> list Value;
  BoundThis : Realm -> Value -> Value;
  BoundTargetFunction : Realm -> Value -> Value;
  getLength : Realm -> Value -> option Z;
  FormalParameters : Realm -> Value -> option (list BabelParameter);
  hasCall : Realm -> Value -> bool;
  stringValue : Realm -> Value -> string;
  WithBaseObject : Realm -> Value;
  Call : Value -> Value -> list Value -> HostM unit;
  newObjectValue : Value -> HostM Value;
  newArrayValue : list Value -> HostM Value;
  makeSimple : Value -> HostM unit;
  makePartial : Value -> HostM unit;
  makeFinal : Value -> HostM unit;
  createAbstractArgument : string -> Location -> HostM Value;
  createAbstractObject : string -> HostM Value;
  createTemporalFromBuildFunction : list Value -> HostM Value;
  (* ../methods, ../singletons *)
  Get : Value -> string -> HostM Value;
  Properties_Set : Value -> string -> Value -> HostM unit;
  (* ./branching *)
  getValueWithBranchingLogicApplied : Value -> Value -> Value -> HostM Value;
  (* ./components *)
  getInitialProps : Value -> HostM Value;
  getInitialContext : Value -> HostM Value;
  createClassInstance :
    Value -> Value -> Value -> ClassComponentMetadata -> HostM Value;
  createSimpleClassInstance : Value -> Value -> Value -> HostM Value;
  evaluateClassConstructor :
    Value -> Value -> Value -> HostM ClassComponentMetadata;
  createClassInstanceForFirstRenderOnly :
    Value -> Value -> Value -> NodeRef -> HostM Value;
  applyGetDerivedStateFromProps : Value -> Value -> Value -> HostM unit;
  (* ../realm *)
  handleError : string -> Location -> HostM unit;
  enterGlobalEnv : Realm -> Realm;
  leaveGlobalEnv : Realm -> Realm;
  enterPure : Realm -> Realm;
  leavePure : Realm -> Realm;
  beginEffects : Realm -> Realm;
  captureEffects : Value -> HostM Effects;
  abortEffects : Realm -> Realm;
  joinConditional : Value -> Effects -> Effects -> HostM Value;
  applyNestedEffects : list Effects -> Realm -> Realm;
  undoNestedEffects : list Effects -> Realm -> Realm
}.

(** ** The reconciler: the fields of [this] and the store of report nodes *)

Record Reconciler := mkReconciler {
  realm : Realm;
  statistics : ReactStatistics;
  (** the lines logged so far, when a logger was given *)
  logger : option (list string);
  componentTreeState : ComponentTreeState;
  alreadyEvaluatedRootNodes : gmap Value NodeRef;
  alreadyEvaluatedNestedClosures : gset Value;
  componentTreeConfig : ReactComponentTreeConfig;
  nestedOptimizedClosures : list OptimizedClosure;
  branchedComponentTrees : list BranchReactComponentTree;
  nodes : gmap NodeRef ReactEvaluatedNode;
  arrays : gmap ArrayRef (list NodeRef)
}.

Definition set_realm (f : Realm -> Realm) (s : Reconciler) : Reconciler :=
  mkReconciler (f (realm s)) (statistics s) (logger s) (componentTreeState s)
    (alreadyEvaluatedRootNodes s) (alreadyEvaluatedNestedClosures s)
    (componentTreeConfig s) (nestedOptimizedClosures s)
    (branchedComponentTrees s) (nodes s) (arrays s).

Definition set_statistics (f : ReactStatistics -> ReactStatistics)
    (s : Reconciler) : Reconciler :=
  mkReconciler (realm s) (f (statistics s)) (logger s) (componentTreeState s)
    (alreadyEvaluatedRootNodes s) (alreadyEvaluatedNestedClosures s)
    (componentTreeConfig s) (nestedOptimizedClosures s)
    (branchedComponentTrees s) (nodes s) (arrays s).

Definition set_logger (f : option (list string) -> option (list string))
    (s : Reconciler) : Reconciler :=
  mkReconciler (realm s) (statistics s) (f (logger s)) (componentTreeState s)
    (alreadyEvaluatedRootNodes s) (alreadyEvaluatedNestedClosures s)
    (componentTreeConfig s) (nestedOptimizedClosures s)
    (branchedComponentTrees s) (nodes s) (arrays s).

Definition set_componentTreeState
    (f : ComponentTreeState -> ComponentTreeState) (s : Reconciler)
    : Reconciler :=
  mkReconciler (realm s) (statistics s) (logger s) (f (componentTreeState s))
    (alreadyEvaluatedRootNodes s) (alreadyEvaluatedNestedClosures s)
    (componentTreeConfig s) (nestedOptimizedClosures s)
    (branchedComponentTrees s) (nodes s) (arrays s).

Definition set_alreadyEvaluatedRootNodes
    (f : gmap Value NodeRef -> gmap Value NodeRef) (s : Reconciler)
    : Reconciler :=
  mkReconciler (realm s) (statistics s) (logger s) (componentTreeState s)
    (f (alreadyEvaluatedRootNodes s)) (alreadyEvaluatedNestedClosures s)
    (componentTreeConfig s) (nestedOptimizedClosures s)
    (branchedComponentTrees s) (nodes s) (arrays s).

Definition set_alreadyEvaluatedNestedClosures
    (f : gset Value -> gset Value) (s : Reconciler) : Reconciler :=
  mkReconciler (realm s) (statistics s) (logger s) (componentTreeState s)
    (alreadyEvaluatedRootNodes s) (f (alreadyEvaluatedNestedClosures s))
    (componentTreeConfig s) (nestedOptimizedClosures s)
    (branchedComponentTrees s) (nodes s) (arrays s).

Definition set_nestedOptimizedClosures
    (f : list OptimizedClosure -> list OptimizedClosure) (s : Reconciler)
    : Reconciler :=
  mkReconciler (realm s) (statistics s) (logger s) (componentTreeState s)
    (alreadyEvaluatedRootNodes s) (alreadyEvaluatedNestedClosures s)
    (componentTreeConfig s) (f (nestedOptimizedClosures s))
    (branchedComponentTrees s) (nodes s) (arrays s).

Definition set_branchedComponentTrees
    (f : list BranchReactComponentTree -> list BranchReactComponentTree)
    (s : Reconciler) : Reconciler :=
  mkReconciler (realm s) (statistics s) (logger s) (componentTreeState s)
    (alreadyEvaluatedRootNodes s) (alreadyEvaluatedNestedClosures s)
    (componentTreeConfig s) (nestedOptimizedClosures s)
    (f (branchedComponentTrees s)) (nodes s) (arrays s).

Definition set_nodes
    (f : gmap NodeRef ReactEvaluatedNode -> gmap NodeRef ReactEvaluatedNode)
    (s : Reconciler) : Reconciler :=
  mkReconciler (realm s) (statistics s) (logger s) (componentTreeState s)
    (alreadyEvaluatedRootNodes s) (alreadyEvaluatedNestedClosures s)
    (componentTreeConfig s) (nestedOptimizedClosures s)
    (branchedComponentTrees s) (f (nodes s)) (arrays s).

Definition set_arrays
    (f : gmap ArrayRef (list NodeRef) -> gmap ArrayRef (list NodeRef))
    (s : Reconciler) : Reconciler :=
  mkReconciler (realm s) (statistics s) (logger s) (componentTreeState s)
    (alreadyEvaluatedRootNodes s) (alreadyEvaluatedNestedClosures s)
    (componentTreeConfig s) (nestedOptimizedClosures s)
    (branchedComponentTrees s) (nodes s) (f (arrays s)).

(** ** The monad of the methods: state passing with thrown errors *)

Definition M (A : Type) : Type := Reconciler -> Res A * Reconciler.

Definition ret {A} (a : A) : M A := fun s => (Ok a, s).

Definition bind {A B} (m : M A) (k : A -> M B) : M B :=
  fun s =>
    match m s with
    | (Ok a, s') => k a s'
    | (Throw e, s') => (Throw e, s')
    | (Diverge, s') => (Diverge, s')
    end.

Definition throw {A} (e : Error) : M A := fun s => (Throw e, s).

Definition diverge {A} : M A := fun s => (Diverge, s).

(** [try { m } catch (error) { handler error }] *)
Definition tryCatch {A} (m : M A) (handler : Error -> M A) : M A :=
  fun s =>
    match m s with
    | (Throw e, s') => handler e s'
    | r => r
    end.

(** [try { m } finally { cleanup }], for the evaluator's scoped operations *)
Definition tryFinally {A} (m : M A) (cleanup : Reconciler -> Reconciler)
    : M A :=
  fun s => let '(r, s') := m s in (r, cleanup s').

Definition gets {A} (f : Reconciler -> A) : M A := fun s => (Ok (f s), s).

Definition modify (f : Reconciler -> Reconciler) : M unit :=
  fun s => (Ok tt, f s).

Definition readHost {A} (f : Realm -> A) : M A := fun s => (Ok (f (realm s)), s).

Definition liftHost {A} (h : HostM A) : M A :=
  fun s => let '(r, rl) := h (realm s) in (r, set_realm (fun _ => rl) s).

Definition modifyRealm (f : Realm -> Realm) : M unit := modify (set_realm f).

(** [invariant(condition, message)] of ../invariant.js: an error whose name is
    "Invariant Violation". *)
Definition invariant (condition : bool) (message : string) : M unit :=
  if condition then ret tt else throw (InvariantViolation message).

Notation "'let!' x ':=' m 'in' k" := (bind m (fun x => k))
  (at level 10, x pattern, m at level 100, k at level 200).
Notation "m ';!' k" := (bind m (fun _ => k))
  (at level 100, right associativity).

Fixpoint forEach {A} (l : list A) (body : A -> M unit) : M unit :=
  match l with
  | [] => ret tt
  | x :: l' => body x ;! forEach l' body
  end.

Fixpoint mapM {A B} (f : A -> M B) (l : list A) : M (list B) :=
  match l with
  | [] => ret []
  | x :: l' => let! y := f x in let! ys := mapM f l' in ret (y :: ys)
  end.

Variable host : Host.

(** ** Stores *)

Definition emptyNode : ReactEvaluatedNode := mkNode 0%nat None EmptyString NODE_NORMAL.

Definition node_at (s : Reconciler) (n : NodeRef) : ReactEvaluatedNode :=
  default emptyNode (nodes s !! n).

Definition array_at (s : Reconciler) (a : ArrayRef) : list NodeRef :=
  default [] (arrays s !! a).

(** the children of a node, through its array *)
Definition children_of (s : Reconciler) (n : NodeRef) : list NodeRef :=
  array_at s (children (node_at s n)).

Definition update_node (n : NodeRef)
    (f : ReactEvaluatedNode -> ReactEvaluatedNode) : M unit :=
  modify (fun s => set_nodes (fun m => <[n := f (node_at s n)]> m) s).

(** [node.status = st] *)
Definition assign_status (n : NodeRef) (st : NodeStatus) : M unit :=
  update_node n (fun nd => mkNode (children nd) (message nd) (name nd) st).

(** [node.message = msg] *)
Definition assign_message (n : NodeRef) (msg : string) : M unit :=
  update_node n (fun nd => mkNode (children nd) (Some msg) (name nd) (status nd)).

(** [node.name = nm] *)
Definition assign_name (n : NodeRef) (nm : string) : M unit :=
  update_node n (fun nd => mkNode (children nd) (message nd) nm (status nd)).

(** [node.children = a]: the node now shares the array [a] *)
Definition assign_children (n : NodeRef) (a : ArrayRef) : M unit :=
  update_node n (fun nd => mkNode a (message nd) (name nd) (status nd)).

(** [node.children.push(child)] *)
Definition children_push (n child : NodeRef) : M unit :=
  modify (fun s =>
    let a := children (node_at s n) in
    set_arrays (fun m => <[a := array_at s a ++ [child]]> m) s).

(** Modelled from the spec: [createReactEvaluatedNode] of ./utils makes a new
    node with the given status and name, no message and no children. *)
Definition createReactEvaluatedNode (st : NodeStatus) (nm : string)
    : M NodeRef :=
  fun s =>
    let a := fresh (dom (arrays s)) in
    let n := fresh (dom (nodes s)) in
    (Ok n, set_nodes (fun m => <[n := mkNode a None nm st]> m)
             (set_arrays (fun m => <[a := []]> m) s)).

(** Modelled from the spec: [new ReconcilerFatalError(message, evaluatedNode)]
    of ./errors.js.  The error carries the offending report node, and its
    constructor marks that node: [evaluatedNode.status = "FATAL"] and
    [evaluatedNode.message = message]. *)
Definition newReconcilerFatalError (message : string)
    (evaluatedNode : NodeRef) : M Error :=
  assign_status evaluatedNode NODE_FATAL ;!
  assign_message evaluatedNode message ;!
  ret (ReconcilerFatalError message evaluatedNode).

(** [this.logger.logInformation(line)] *)
Definition logInformation (line : string) : M unit :=
  modify (set_logger (fun l => (fun lines => lines ++ [line]) <$> l)).

(** [object.properties] *)
Definition properties_of (r : Realm) (o : Value)
    : list (string * PropertyBinding) :=
  default [] (properties r !! o).

Fixpoint assoc_get {A} (k : string) (l : list (string * A)) : option A :=
  match l with
  | [] => None
  | (k', a) :: l' => if decide (k = k') then Some a else assoc_get k l'
  end.

Fixpoint assoc_update {A} (k : string) (f : A -> A) (l : list (string * A))
    : list (string * A) :=
  match l with
  | [] => []
  | (k', a) :: l' =>
      if decide (k = k') then (k', f a) :: l'
      else (k', a) :: assoc_update k f l'
  end.

Definition properties_get (r : Realm) (o : Value) (k : string)
    : option PropertyBinding :=
  assoc_get k (properties_of r o).

Definition properties_has (r : Realm) (o : Value) (k : string) : bool :=
  bool_decide (is_Some (properties_get r o k)).

Definition set_properties
    (f : gmap Value (list (string * PropertyBinding))
         -> gmap Value (list (string * PropertyBinding)))
    (r : Realm) : Realm :=
  mkRealm (intrinsics_undefined r) (intrinsics_ObjectPrototype r)
    (fbLibraries_react r) (fbLibraries_reactRelay r) (fbLibraries_reactDom r)
    (react_optimizeNestedFunctions r) (react_verbose r)
    (react_classComponentMetadata r) (react_abstractHints r)
    (react_arrayHints r) (react_propsWithNoPartialKeyOrRef r) (generator r)
    (f (properties r)) (BailOutReason r) (hostState r).

Definition set_BailOutReason (f : gmap Value string -> gmap Value string)
    (r : Realm) : Realm :=
  mkRealm (intrinsics_undefined r) (intrinsics_ObjectPrototype r)
    (fbLibraries_react r) (fbLibraries_reactRelay r) (fbLibraries_reactDom r)
    (react_optimizeNestedFunctions r) (react_verbose r)
    (react_classComponentMetadata r) (react_abstractHints r)
    (react_arrayHints r) (react_propsWithNoPartialKeyOrRef r) (generator r)
    (properties r) (f (BailOutReason r)) (hostState r).

Definition set_classComponentMetadata
    (f : gmap Value ClassComponentMetadata -> gmap Value ClassComponentMetadata)
    (r : Realm) : Realm :=
  mkRealm (intrinsics_undefined r) (intrinsics_ObjectPrototype r)
    (fbLibraries_react r) (fbLibraries_reactRelay r) (fbLibraries_reactDom r)
    (react_optimizeNestedFunctions r) (react_verbose r)
    (f (react_classComponentMetadata r)) (react_abstractHints r)
    (react_arrayHints r) (react_propsWithNoPartialKeyOrRef r) (generator r)
    (properties r) (BailOutReason r) (hostState r).

(** [binding.descriptor.value = value] on the binding [k] of [o] *)
Definition assign_descriptor_value (o : Value) (k : string) (v : Value)
    (r : Realm) : Realm :=
  set_properties (fun m =>
    <[o := assoc_update k (fun b =>
             mkBinding ((fun d => mkDescriptor (Some v) (d_enumerable d))
                        <$> descriptor b))
           (properties_of r o)]> m) r.

(** The double quote character of the messages. *)
Definition dq : string := String (Ascii.ascii_of_nat 34) EmptyString.

(** ** setContextCurrentValue (lines 110-130) *)

Definition setContextCurrentValue (contextObject value : Value) : M unit :=
  let! isTop := readHost (fun r => values_isTop host r contextObject) in
  let! contextObject :=
    if instanceof contextObject AbstractObjectValue && negb isTop then
      let! elements :=
        readHost (fun r => values_getElements host r contextObject) in
      match elements with
      | Some (first :: _) => ret first
      | _ => throw (InvariantViolation "TODO: should we hit this?")
      end
    else ret contextObject in
  if negb (instanceof contextObject ObjectValue) then
    throw (ExpectedBailOut
             "cannot set currentValue on an abstract context consumer")
  else
    let! binding :=
      readHost (fun r => properties_get r contextObject "currentValue") in
    match binding with
    | Some (mkBinding (Some _)) =>
        modifyRealm (assign_descriptor_value contextObject "currentValue" value)
    | _ =>
        throw (InvariantViolation
                 "setContextCurrentValue failed to set the currentValue")
    end.

(** ** The component tree state *)

Definition set_componentType (v : option Value) (c : ComponentTreeState)
    : ComponentTreeState :=
  mkComponentTreeState v (contextTypes c) (deadEnds c) (treeStatus c)
    (contextNodeReferences c).

Definition set_contextTypes (f : gset string -> gset string)
    (c : ComponentTreeState) : ComponentTreeState :=
  mkComponentTreeState (componentType c) (f (contextTypes c)) (deadEnds c)
    (treeStatus c) (contextNodeReferences c).

Definition set_deadEnds (f : Z -> Z) (c : ComponentTreeState)
    : ComponentTreeState :=
  mkComponentTreeState (componentType c) (contextTypes c) (f (deadEnds c))
    (treeStatus c) (contextNodeReferences c).

Definition set_treeStatus (t : TreeStatus) (c : ComponentTreeState)
    : ComponentTreeState :=
  mkComponentTreeState (componentType c) (contextTypes c) (deadEnds c) t
    (contextNodeReferences c).

Definition set_contextNodeReferences (f : gmap Value Z -> gmap Value Z)
    (c : ComponentTreeState) : ComponentTreeState :=
  mkComponentTreeState (componentType c) (contextTypes c) (deadEnds c)
    (treeStatus c) (f (contextNodeReferences c)).

(** [this.componentTreeState.deadEnds++] *)
Definition deadEnds_increment : M unit :=
  modify (set_componentTreeState (set_deadEnds (fun n => n + 1))).

(** lines 799-807 *)
Definition _createComponentTreeState : ComponentTreeState :=
  mkComponentTreeState None ∅ 0 SIMPLE ∅.

(** The constructor (lines 133-148); the report nodes that the driver has
    made so far are given with it. *)
Definition new_Reconciler (r : Realm)
    (componentTreeConfig : ReactComponentTreeConfig)
    (statistics : ReactStatistics) (logger : option (list string))
    (nodes : gmap NodeRef ReactEvaluatedNode)
    (arrays : gmap ArrayRef (list NodeRef)) : Reconciler :=
  mkReconciler r statistics logger _createComponentTreeState ∅ ∅
    componentTreeConfig [] [] nodes arrays.

(** lines 285-287 *)
Definition clearComponentTreeState : M unit :=
  modify (set_componentTreeState (fun _ => _createComponentTreeState)).

(** ** Statistics *)

Definition optimizedTrees_increment : M unit :=
  modify (set_statistics (fun st =>
    mkStatistics (optimizedTrees st + 1) (componentsEvaluated st)
      (inlinedComponents st) (optimizedNestedClosures st))).

Definition componentsEvaluated_increment : M unit :=
  modify (set_statistics (fun st =>
    mkStatistics (optimizedTrees st) (componentsEvaluated st + 1)
      (inlinedComponents st) (optimizedNestedClosures st))).

Definition inlinedComponents_increment : M unit :=
  modify (set_statistics (fun st =>
    mkStatistics (optimizedTrees st) (componentsEvaluated st)
      (inlinedComponents st + 1) (optimizedNestedClosures st))).

Definition optimizedNestedClosures_increment : M unit :=
  modify (set_statistics (fun st =>
    mkStatistics (optimizedTrees st) (componentsEvaluated st)
      (inlinedComponents st) (optimizedNestedClosures st + 1))).

(** ** Queues and memoization *)

(** lines 197-203: [nestedEffects.push(...nestedEffects, effects)] on every
    record whose list is still empty *)
Definition _handleNestedOptimizedClosuresFromEffects (effects : Effects)
    (evaluatedNode : NodeRef) : M unit :=
  modify (set_nestedOptimizedClosures (map (fun c =>
    if bool_decide (length (oc_nestedEffects c) = 0%nat) then
      mkOptimizedClosure (oc_evaluatedNode c) (oc_func c)
        (oc_nestedEffects c ++ (oc_nestedEffects c ++ [effects]))
        (oc_componentType c) (oc_context c)
    else c))).

(** lines 289-304 *)
Definition _queueOptimizedClosure (func : Value) (evaluatedNode : NodeRef)
    (componentType context : option Value) : M unit :=
  let! optimizeNestedFunctions := readHost react_optimizeNestedFunctions in
  if optimizeNestedFunctions then
    modify (set_nestedOptimizedClosures (fun l =>
      l ++ [mkOptimizedClosure evaluatedNode func [] componentType context]))
  else ret tt.

(** lines 1368-1378 *)
Definition hasEvaluatedRootNode (componentType : Value)
    (evaluateNode : NodeRef) : M bool :=
  let! entry := gets (fun s => alreadyEvaluatedRootNodes s !! componentType) in
  match entry with
  | Some alreadyEvaluatedNode =>
      let! c := gets (fun s => children (node_at s alreadyEvaluatedNode)) in
      assign_children evaluateNode c ;!
      let! st := gets (fun s => status (node_at s alreadyEvaluatedNode)) in
      assign_status evaluateNode st ;!
      let! nm := gets (fun s => name (node_at s alreadyEvaluatedNode)) in
      assign_name evaluateNode nm ;!
      ret true
  | None => ret false
  end.

(** lines 1380-1382 *)
Definition hasEvaluatedNestedClosure (func : Value) : M bool :=
  gets (fun s => bool_decide (func ∈ alreadyEvaluatedNestedClosures s)).

(** lines 306-326; [props] and [context] default to [null] *)
Definition _queueNewComponentTree (rootValue : Value) (evaluatedNode : NodeRef)
    (props context : option Value) : M unit :=
  if instanceof rootValue SymbolValue then ret tt
  else
    invariant (instanceof rootValue ECMAScriptSourceFunctionValue
               || instanceof rootValue AbstractValue) EmptyString ;!
    deadEnds_increment ;!
    let! componentType :=
      readHost (fun r => getComponentTypeFromRootValue host r rootValue) in
    match componentType with
    | Some componentType =>
        let! evaluated := hasEvaluatedRootNode componentType evaluatedNode in
        if negb evaluated then
          modify (set_branchedComponentTrees (fun l =>
            l ++ [mkBranch context evaluatedNode props rootValue]))
        else ret tt
    | None => ret tt
    end.

(** ** The context reference tracker (lines 464-493) *)

Definition _decremementReferenceForContextNode (contextNode : Value) : M unit :=
  let! references :=
    gets (fun s => contextNodeReferences (componentTreeState s) !! contextNode) in
  let references :=
    match references with
    | None | Some 0 => 0
    | Some n => n - 1
    end in
  modify (set_componentTreeState
            (set_contextNodeReferences (fun m => <[contextNode := references]> m))).

Definition _incremementReferenceForContextNode (contextNode : Value) : M unit :=
  let! references :=
    gets (fun s => contextNodeReferences (componentTreeState s) !! contextNode) in
  let references :=
    match references with
    | None | Some 0 => 1
    | Some n => n + 1
    end in
  modify (set_componentTreeState
            (set_contextNodeReferences (fun m => <[contextNode := references]> m))).

Definition _hasReferenceForContextNode (contextNode : Value) : M bool :=
  let! references :=
    gets (fun s => contextNodeReferences (componentTreeState s) !! contextNode) in
  match references with
  | Some 0 => ret false
  | Some n => ret (0 <? n)
  | None => ret false
  end.

(** ** Bail-out messages (lines 1330-1340) *)

Definition _assignBailOutMessage (reactElement : Value) (message : string)
    : M unit :=
  let message := "Bail-out: " +:+ message in
  modifyRealm (fun r =>
    set_BailOutReason (fun m =>
      <[reactElement :=
          match BailOutReason r !! reactElement with
          | Some reason => reason +:+ ", " +:+ message
          | None => message
          end]> m) r).

(** ** Searching a value for nested component trees (lines 1384-1439) *)

Fixpoint _findReactComponentTrees (fuel : nat) (value : Value)
    (evaluatedNode : NodeRef) (treatFunctionsAs : TreatFunctionsAs)
    (componentType context : option Value) {struct fuel} : M unit :=
  match fuel with
  | O => diverge
  | S fuel =>
    if instanceof value AbstractValue then
      let! value_args := readHost (fun r => args host r value) in
      if (0 <? length value_args)%nat then
        forEach value_args (fun arg =>
          _findReactComponentTrees fuel arg evaluatedNode treatFunctionsAs
            componentType context)
      else deadEnds_increment
    else
      let! known := readHost (fun r => valueIsKnownReactAbstraction host r value) in
      if known then
        let! nm := readHost (fun r => getComponentName host r value) in
        let! evaluatedChildNode := createReactEvaluatedNode NODE_NEW_TREE nm in
        children_push evaluatedNode evaluatedChildNode ;!
        _queueNewComponentTree value evaluatedChildNode None None
      else if instanceof value ECMAScriptSourceFunctionValue
              || instanceof value BoundFunctionValue then
        let! isClass := readHost (fun r => valueIsClassComponent host r value) in
        if isClass || bool_decide (treatFunctionsAs = FUNCTIONAL_COMPONENTS) then
          let! nm := readHost (fun r => getComponentName host r value) in
          let! evaluatedChildNode := createReactEvaluatedNode NODE_NEW_TREE nm in
          children_push evaluatedNode evaluatedChildNode ;!
          _queueNewComponentTree value evaluatedChildNode None None
        else if bool_decide (treatFunctionsAs = NESTED_CLOSURES) then
          invariant (bool_decide (is_Some componentType)
                     && bool_decide (is_Some context)) EmptyString ;!
          _queueOptimizedClosure value evaluatedNode componentType context
        else ret tt
      else if instanceof value ObjectValue then
        let! isElement := readHost (fun r => isReactElement host r value) in
        if isElement then
          let! typeValue := readHost (fun r => getProperty host r value "type") in
          let! ref := readHost (fun r => getProperty host r value "ref") in
          let! props := readHost (fun r => getProperty host r value "props") in
          let! known :=
            readHost (fun r => valueIsKnownReactAbstraction host r typeValue) in
          (if known || instanceof typeValue ECMAScriptSourceFunctionValue then
             let! nm := readHost (fun r => getComponentName host r typeValue) in
             let! evaluatedChildNode :=
               createReactEvaluatedNode NODE_NEW_TREE nm in
             children_push evaluatedNode evaluatedChildNode ;!
             _queueNewComponentTree typeValue evaluatedChildNode None None
           else ret tt) ;!
          _findReactComponentTrees fuel ref evaluatedNode treatFunctionsAs
            componentType context ;!
          _findReactComponentTrees fuel props evaluatedNode treatFunctionsAs
            componentType context
        else
          let! value_properties := readHost (fun r => properties_of r value) in
          forEach value_properties (fun '(propName, binding) =>
            match descriptor binding with
            | Some d =>
                if d_enumerable d then
                  let! propValue :=
                    readHost (fun r => getProperty host r value propName) in
                  _findReactComponentTrees fuel propValue evaluatedNode
                    treatFunctionsAs componentType context
                else ret tt
            | None => ret tt
            end)
      else ret tt
  end.

(** ** Failures (lines 1194-1292, 1441-1465) *)

Definition nl : string := String (Ascii.ascii_of_nat 10) EmptyString.

Inductive SideEffectType :=
  | MODIFIED_BINDING | MODIFIED_PROPERTY | MODIFIED_GLOBAL | EXCEPTION_THROWN.

(** The callback given to [evaluatePure].  [binding] is the name of the
    binding, or the key of the property binding when it is a string. *)
Definition _handleReportedSideEffect (sideEffectType : SideEffectType)
    (binding : option string) (expressionLocation : Location) : M unit :=
  let location := getLocationFromValue host expressionLocation in
  match sideEffectType with
  | MODIFIED_BINDING =>
      let name :=
        match binding with Some n => dq +:+ n +:+ dq | None => "unknown" end in
      throw (UnsupportedSideEffect
        ("side-effects from mutating the binding " +:+ name +:+ location))
  | MODIFIED_PROPERTY =>
      let name :=
        match binding with Some k => dq +:+ k +:+ dq | None => EmptyString end in
      throw (UnsupportedSideEffect
        ("side-effects from mutating a property " +:+ name +:+ location))
  | MODIFIED_GLOBAL =>
      let name :=
        match binding with Some k => dq +:+ k +:+ dq | None => EmptyString end in
      throw (UnsupportedSideEffect
        ("side-effects from mutating the global object property "
         +:+ name +:+ location))
  | EXCEPTION_THROWN =>
      throw (UnsupportedSideEffect
        ("side-effects from throwing exception" +:+ location))
  end.

(** [error.value] of a completion: its message and stack *)
Definition completion_message_stack (value : Value) : M (string * string) :=
  invariant (instanceof value ObjectValue) EmptyString ;!
  let! message := readHost (fun r => getProperty host r value "message") in
  let! stack := readHost (fun r => getProperty host r value "stack") in
  invariant (instanceof message StringValue) EmptyString ;!
  invariant (instanceof stack StringValue) EmptyString ;!
  let! m := readHost (fun r => stringValue host r message) in
  let! st := readHost (fun r => stringValue host r stack) in
  ret (m, st).

(** lines 1194-1232: never returns *)
Definition _handleComponentTreeRootFailure (error : Error)
    (evaluatedRootNode : NodeRef) : M unit :=
  let! rootName := gets (fun s => name (node_at s evaluatedRootNode)) in
  let fatal (message : string) : M unit :=
    let! fatalError := newReconcilerFatalError message evaluatedRootNode in
    throw fatalError in
  match error with
  | InvariantViolation _ => throw error
  | ReconcilerFatalError m _ => fatal m
  | UnsupportedSideEffect m | DoNotOptimize m =>
      fatal ("Failed to render React component root " +:+ dq +:+ rootName
             +:+ dq +:+ " due to " +:+ m)
  | Completion value =>
      let! ms := completion_message_stack value in
      fatal ("Failed to render React component " +:+ dq +:+ rootName +:+ dq
             +:+ " due to a JS error: " +:+ fst ms +:+ nl +:+ snd ms)
  | ExpectedBailOut m =>
      fatal ("Failed to optimize React component tree for " +:+ dq +:+ rootName
             +:+ dq +:+ " due to an expected bail-out: " +:+ m)
  | FatalError m =>
      fatal ("Failed to optimize React component tree for " +:+ dq +:+ rootName
             +:+ dq +:+ " due to a fatal error during evaluation: " +:+ m)
  | NewComponentTreeBranch _ | SimpleClassBailOut _ | OtherError _ =>
      (* if we don't know what the error is, then best to rethrow *)
      throw error
  end.

Section Resolution.

(** The fuel left for the search of nested trees, and the two methods that
    the resolution recurses through. *)
Variable fuel : nat.
Variable _resolveDeeply :
  Value -> Value -> Value -> BranchStatusEnum -> NodeRef -> M Value.
Variable _resolveComponent :
  Value -> Value -> Value -> BranchStatusEnum -> NodeRef -> M (Value * Value).

(** lines 1234-1292 *)
Definition _resolveComponentResolutionFailure (error : Error)
    (reactElement : Value) (evaluatedNode : NodeRef)
    (branchStatus : BranchStatusEnum) : M Value :=
  match error with
  | InvariantViolation _ => throw error
  | ReconcilerFatalError _ _ => throw error
  | UnsupportedSideEffect m =>
      let! nodeName := gets (fun s => name (node_at s evaluatedNode)) in
      let! fatalError :=
        newReconcilerFatalError
          ("Failed to render React component " +:+ dq +:+ nodeName +:+ dq
           +:+ " due to " +:+ m) evaluatedNode in
      throw fatalError
  | DoNotOptimize _ => ret reactElement
  | Completion value =>
      let! ms := completion_message_stack value in
      let! nodeName := gets (fun s => name (node_at s evaluatedNode)) in
      let! fatalError :=
        newReconcilerFatalError
          ("Failed to render React component " +:+ dq +:+ nodeName +:+ dq
           +:+ " due to a JS error: " +:+ fst ms +:+ nl +:+ snd ms)
          evaluatedNode in
      throw fatalError
  | _ =>
      let! typeValue := readHost (fun r => getProperty host r reactElement "type") in
      let! propsValue := readHost (fun r => getProperty host r reactElement "props") in
      match error with
      | NewComponentTreeBranch errorNode =>
          _findReactComponentTrees fuel propsValue evaluatedNode
            NORMAL_FUNCTIONS None None ;!
          children_push evaluatedNode errorNode ;!
          (* we don't queue a newComponentTree as this was already done *)
          ret reactElement
      | _ =>
          let! nm := readHost (fun r => getComponentName host r typeValue) in
          let! evaluatedChildNode := createReactEvaluatedNode NODE_BAIL_OUT nm in
          let! lg := gets logger in
          let! verbose := readHost react_verbose in
          (if bool_decide (is_Some lg) && verbose then
             let! childName := gets (fun s => name (node_at s evaluatedChildNode)) in
             logInformation ("    ✖ " +:+ childName +:+ " (bail-out)")
           else ret tt) ;!
          children_push evaluatedNode evaluatedChildNode ;!
          _queueNewComponentTree typeValue evaluatedChildNode None None ;!
          _findReactComponentTrees fuel propsValue evaluatedNode
            NORMAL_FUNCTIONS None None ;!
          match error with
          | ExpectedBailOut m =>
              assign_message evaluatedChildNode m ;!
              _assignBailOutMessage reactElement m ;!
              ret reactElement
          | FatalError _ =>
              let message := "evaluation failed" in
              assign_message evaluatedChildNode message ;!
              _assignBailOutMessage reactElement message ;!
              ret reactElement
          | _ =>
              assign_message evaluatedChildNode "unknown error" ;!
              throw error
          end
      end
  end.

(** lines 328-361 *)
Definition _resolveComplexClassComponent (componentType props context : Value)
    (classMetadata : ClassComponentMetadata) (branchStatus : BranchStatusEnum)
    (evaluatedNode : NodeRef) : M Value :=
  (if negb (bool_decide (branchStatus = ROOT)) then
     (* if the tree is simple and we're not in a branch, we can make this tree
        complex and make this complex component the root *)
     let! evaluatedComplexNode :=
       gets (fun s => alreadyEvaluatedRootNodes s !! componentType) in
     let! treeSt := gets (fun s => treeStatus (componentTreeState s)) in
     let! notRenderProps :=
       gets (fun s =>
         match evaluatedComplexNode with
         | Some n => negb (bool_decide (status (node_at s n) = NODE_RENDER_PROPS))
         | None => false
         end) in
     if bool_decide (branchStatus = NO_BRANCH)
        && bool_decide (treeSt = SIMPLE)
        && notRenderProps then
       modify (set_componentTreeState (set_componentType (Some componentType)))
     else
       _queueNewComponentTree componentType evaluatedNode None None ;!
       assign_status evaluatedNode NODE_NEW_TREE ;!
       throw (NewComponentTreeBranch evaluatedNode)
   else ret tt) ;!
  modify (set_componentTreeState (set_treeStatus COMPLEX)) ;!
  (* create a new instance of this React class component *)
  let! instance :=
    liftHost (createClassInstance host componentType props context classMetadata) in
  (* get the "render" method off the instance *)
  let! renderMethod := liftHost (Get host instance "render") in
  invariant (instanceof renderMethod ECMAScriptSourceFunctionValue) EmptyString ;!
  liftHost (getValueFromFunctionCall host renderMethod instance []).

(** lines 363-377 *)
Definition _resolveSimpleClassComponent (componentType props context : Value)
    (branchStatus : BranchStatusEnum) (evaluatedNode : NodeRef) : M Value :=
  let! instance :=
    liftHost (createSimpleClassInstance host componentType props context) in
  let! renderMethod := liftHost (Get host instance "render") in
  invariant (instanceof renderMethod ECMAScriptSourceFunctionValue) EmptyString ;!
  liftHost (getValueFromFunctionCall host renderMethod instance []).

(** lines 379-386 *)
Definition _resolveFunctionalComponent (componentType props context : Value)
    (evaluatedNode : NodeRef) : M Value :=
  let! undefined := readHost intrinsics_undefined in
  liftHost (getValueFromFunctionCall host componentType undefined [props; context]).

(** lines 388-402 *)
Definition _getClassComponentMetadata (componentType props context : Value)
    : M ClassComponentMetadata :=
  let! known := readHost (fun r => react_classComponentMetadata r !! componentType) in
  match known with
  | Some classMetadata => ret classMetadata
  | None =>
      (* get all this assignments in the constructor *)
      let! classMetadata :=
        liftHost (evaluateClassConstructor host componentType props context) in
      modifyRealm (set_classComponentMetadata
                     (fun m => <[componentType := classMetadata]> m)) ;!
      ret classMetadata
  end.

(** lines 1000-1045 *)
Definition _resolveReactElementHostChildren (componentType reactElement
    context : Value) (branchStatus : BranchStatusEnum) (evaluatedNode : NodeRef)
    : M Value :=
  let! typeValue := readHost (fun r => getProperty host r reactElement "type") in
  let! propsValue := readHost (fun r => getProperty host r reactElement "props") in
  let! keyValue := readHost (fun r => getProperty host r reactElement "key") in
  let! refValue := readHost (fun r => getProperty host r reactElement "ref") in
  let! hasChildren := readHost (fun r => properties_has r propsValue "children") in
  (* terminal host component. Start evaluating its children. *)
  if instanceof propsValue ObjectValue && hasChildren then
    let! childrenValue := liftHost (Get host propsValue "children") in
    let! resolvedChildren :=
      _resolveDeeply componentType childrenValue context branchStatus
        evaluatedNode in
    (* we can optimize further and flatten arrays on non-composite components *)
    let! intrinsic := readHost (fun r => intrinsicName host r resolvedChildren) in
    let! resolvedChildren :=
      if instanceof resolvedChildren ArrayValue
         && bool_decide (intrinsic = None \/ intrinsic = Some EmptyString) then
        liftHost (flattenChildren host resolvedChildren)
      else ret resolvedChildren in
    if negb (bool_decide (resolvedChildren = childrenValue)) then
      let! objectPrototype := readHost intrinsics_ObjectPrototype in
      let! newProps := liftHost (newObjectValue host objectPrototype) in
      let! props_properties := readHost (fun r => properties_of r propsValue) in
      forEach props_properties (fun '(key, binding) =>
        match descriptor binding with
        | Some d =>
            if d_enumerable d && negb (bool_decide (key = "children")) then
              let! v := readHost (fun r => getProperty host r propsValue key) in
              liftHost (Properties_Set host newProps key v)
            else ret tt
        | None => ret tt
        end) ;!
      liftHost (Properties_Set host newProps "children" resolvedChildren) ;!
      let! simple := readHost (fun r => isSimpleObject host r propsValue) in
      (if simple then liftHost (makeSimple host newProps) else ret tt) ;!
      let! partial := readHost (fun r => isPartialObject host r propsValue) in
      (if partial then liftHost (makePartial host newProps) else ret tt) ;!
      let! flagged :=
        readHost (fun r =>
          bool_decide (propsValue ∈ react_propsWithNoPartialKeyOrRef r)) in
      (if flagged then liftHost (flagPropsWithNoPartialKeyOrRef host newProps)
       else ret tt) ;!
      liftHost (makeFinal host newProps) ;!
      liftHost (createInternalReactElement host typeValue keyValue refValue newProps)
    else ret reactElement
  else ret reactElement.

(** lines 404-462 *)
Definition _resolveContextProviderComponent (componentType reactElement
    context : Value) (branchStatus : BranchStatusEnum) (evaluatedNode : NodeRef)
    : M Value :=
  let! typeValue := readHost (fun r => getProperty host r reactElement "type") in
  let! propsValue := readHost (fun r => getProperty host r reactElement "props") in
  let! evaluatedChildNode :=
    createReactEvaluatedNode NODE_NORMAL "Context.Provider" in
  children_push evaluatedNode evaluatedChildNode ;!
  componentsEvaluated_increment ;!
  invariant (instanceof typeValue ObjectValue
             || instanceof typeValue AbstractObjectValue) EmptyString ;!
  let! contextConsumer :=
    readHost (fun r => getProperty host r typeValue "context") in
  invariant (instanceof contextConsumer ObjectValue
             || instanceof contextConsumer AbstractObjectValue) EmptyString ;!
  let! lastValueProp :=
    readHost (fun r => getProperty host r contextConsumer "currentValue") in
  _incremementReferenceForContextNode contextConsumer ;!
  (* if we have a value prop, set it *)
  (if instanceof propsValue ObjectValue
      || instanceof propsValue AbstractObjectValue then
     let! valueProp := liftHost (Get host propsValue "value") in
     setContextCurrentValue contextConsumer valueProp
   else ret tt) ;!
  let! config := gets componentTreeConfig in
  if firstRenderOnly config && instanceof propsValue ObjectValue then
    let! resolvedReactElement :=
      _resolveReactElementHostChildren componentType reactElement context
        branchStatus evaluatedChildNode in
    let! resolvedPropsValue :=
      readHost (fun r => getProperty host r resolvedReactElement "props") in
    invariant (instanceof resolvedPropsValue ObjectValue
               || instanceof resolvedPropsValue AbstractObjectValue)
      EmptyString ;!
    setContextCurrentValue contextConsumer lastValueProp ;!
    _decremementReferenceForContextNode contextConsumer ;!
    (* if we no dead ends, we know the rest of the tree and can safely remove
       the provider *)
    let! dead := gets (fun s => deadEnds (componentTreeState s)) in
    if bool_decide (dead = 0) then
      let! childrenValue := liftHost (Get host resolvedPropsValue "children") in
      assign_status evaluatedChildNode NODE_INLINED ;!
      inlinedComponents_increment ;!
      ret childrenValue
    else ret resolvedReactElement
  else
    let! children :=
      _resolveReactElementHostChildren componentType reactElement context
        branchStatus evaluatedChildNode in
    setContextCurrentValue contextConsumer lastValueProp ;!
    _decremementReferenceForContextNode contextConsumer ;!
    ret children.

(** lines 495-537; [None] is the [undefined] of a [return;] *)
Definition _resolveContextConsumerComponent (componentType reactElement
    context : Value) (evaluatedNode : NodeRef) : M (option Value) :=
  let! typeValue := readHost (fun r => getProperty host r reactElement "type") in
  let! propsValue := readHost (fun r => getProperty host r reactElement "props") in
  let! evaluatedChildNode :=
    createReactEvaluatedNode NODE_RENDER_PROPS "Context.Consumer" in
  children_push evaluatedNode evaluatedChildNode ;!
  let! hasChildren := readHost (fun r => properties_has r propsValue "children") in
  let deadEnd : M (option Value) := deadEnds_increment ;! ret None in
  if instanceof propsValue ObjectValue && hasChildren then
    (* get the "render" prop child off the instance *)
    let! renderProp := readHost (fun r => getProperty host r propsValue "children") in
    _findReactComponentTrees fuel propsValue evaluatedChildNode
      NORMAL_FUNCTIONS None None ;!
    if instanceof renderProp ECMAScriptSourceFunctionValue then
      let queue : M (option Value) :=
        _queueOptimizedClosure renderProp evaluatedChildNode
          (Some componentType) (Some context) ;!
        ret None in
      let! config := gets componentTreeConfig in
      if firstRenderOnly config
         && (instanceof typeValue ObjectValue
             || instanceof typeValue AbstractObjectValue) then
        (* make sure this context is in our tree *)
        let! inTree := _hasReferenceForContextNode typeValue in
        if inTree then
          let! valueProp := liftHost (Get host typeValue "currentValue") in
          let! undefined := readHost intrinsics_undefined in
          let! result :=
            liftHost (getValueFromFunctionCall host renderProp undefined
                        [valueProp]) in
          inlinedComponents_increment ;!
          componentsEvaluated_increment ;!
          assign_status evaluatedChildNode NODE_INLINED ;!
          ret (Some result)
        else queue
      else queue
    else
      _findReactComponentTrees fuel renderProp evaluatedChildNode
        NESTED_CLOSURES None None ;!
      deadEnd
  else deadEnd.

(** lines 539-565.  The hint of a [forwardRef] abstraction carries the
    forwarded component as its first argument. *)
Definition _resolveForwardRefComponent (componentType reactElement
    context : Value) (branchStatus : BranchStatusEnum) (evaluatedNode : NodeRef)
    : M Value :=
  let! typeValue := readHost (fun r => getProperty host r reactElement "type") in
  let! propsValue := readHost (fun r => getProperty host r reactElement "props") in
  let! refValue := readHost (fun r => getProperty host r reactElement "ref") in
  invariant (instanceof typeValue AbstractValue
             || instanceof typeValue ObjectValue) EmptyString ;!
  let! reactHint := readHost (fun r => react_abstractHints r !! typeValue) in
  match reactHint with
  | None => throw (InvariantViolation EmptyString)
  | Some reactHint =>
      match reactHint_args reactHint with
      | Some (forwardedComponent :: _) =>
          let! nm :=
            readHost (fun r => getComponentName host r forwardedComponent) in
          let! evaluatedChildNode :=
            createReactEvaluatedNode NODE_FORWARD_REF nm in
          children_push evaluatedNode evaluatedChildNode ;!
          invariant (instanceof forwardedComponent ECMAScriptSourceFunctionValue)
            "expect React.forwardRef() to be passed function value" ;!
          let! undefined := readHost intrinsics_undefined in
          let! value :=
            liftHost (getValueFromFunctionCall host forwardedComponent undefined
                        [propsValue; refValue]) in
          _resolveDeeply componentType value context branchStatus
            evaluatedChildNode
      | Some [] =>
          throw (InvariantViolation
                   "expect React.forwardRef() to be passed function value")
      | None => throw (OtherError "TypeError: reactHint.args is not iterable")
      end
  end.

(** lines 567-597; returns nothing *)
Definition _resolveRelayQueryRendererComponent (componentType reactElement
    context : Value) (evaluatedNode : NodeRef) : M unit :=
  let! typeValue := readHost (fun r => getProperty host r reactElement "type") in
  let! propsValue := readHost (fun r => getProperty host r reactElement "props") in
  let! nm := readHost (fun r => getComponentName host r typeValue) in
  let! evaluatedChildNode := createReactEvaluatedNode NODE_RENDER_PROPS nm in
  children_push evaluatedNode evaluatedChildNode ;!
  if instanceof propsValue ObjectValue
     || instanceof propsValue AbstractObjectValue then
    (* get the "render" prop *)
    let! hasRender := readHost (fun r => properties_has r propsValue "render") in
    (if instanceof propsValue ObjectValue && hasRender then
       let! renderProp :=
         readHost (fun r => getProperty host r propsValue "render") in
       if instanceof renderProp ECMAScriptSourceFunctionValue then
         _queueOptimizedClosure renderProp evaluatedChildNode
           (Some componentType) (Some context)
       else if instanceof renderProp AbstractValue then
         _findReactComponentTrees fuel renderProp evaluatedChildNode
           NESTED_CLOSURES (Some componentType) (Some context)
       else ret tt
     else ret tt) ;!
    _findReactComponentTrees fuel propsValue evaluatedChildNode
      NORMAL_FUNCTIONS None None
  else
    (* this is the worst case, we were unable to find the render prop function
       and won't be able to find any further components to evaluate as trees
       because of that *)
    deadEnds_increment.

(** lines 599-655 *)
Definition _resolveClassComponent (componentType props context : Value)
    (branchStatus : BranchStatusEnum) (evaluatedNode : NodeRef) : M Value :=
  let! classMetadata := _getClassComponentMetadata componentType props context in
  (* if there were no this assignments we can try and render it as a simple
     class component *)
  let! value :=
    if bool_decide (instanceProperties classMetadata = ∅)
       && bool_decide (instanceSymbols classMetadata = ∅) then
      tryCatch
        (let! v :=
           _resolveSimpleClassComponent componentType props context
             branchStatus evaluatedNode in
         ret (Some v))
        (fun error =>
           (* if we get back a SimpleClassBailOut error, we know that this
              class component wasn't a simple one *)
           match error with
           | SimpleClassBailOut _ => ret None
           | _ => throw error
           end)
    else ret None in
  (* handle the complex class component if there is not value *)
  match value with
  | Some value => ret value
  | None =>
      _resolveComplexClassComponent componentType props context classMetadata
        branchStatus evaluatedNode
  end.

(** lines 657-695 *)
Definition _resolveClassComponentForFirstRenderOnly (componentType props
    context : Value) (branchStatus : BranchStatusEnum) (evaluatedNode : NodeRef)
    : M Value :=
  let! instance :=
    liftHost (createClassInstanceForFirstRenderOnly host componentType props
                context evaluatedNode) in
  let! getDerivedStateFromProps :=
    liftHost (Get host componentType "getDerivedStateFromProps") in
  let! getSnapshotBeforeUpdate :=
    liftHost (Get host instance "getSnapshotBeforeUpdate") in
  let! undefined := readHost intrinsics_undefined in
  (* if either getDerivedStateFromProps or getSnapshotBeforeUpdate exist, then
     we don't try and execute componentWillMount and UNSAFE_componentWillMount *)
  (if negb (bool_decide (getDerivedStateFromProps = undefined))
      || negb (bool_decide (getSnapshotBeforeUpdate = undefined)) then
     let! callable := readHost (fun r => hasCall host r getDerivedStateFromProps) in
     if instanceof getDerivedStateFromProps ECMAScriptSourceFunctionValue
        && callable then
       liftHost (applyGetDerivedStateFromProps host getDerivedStateFromProps
                   instance props)
     else ret tt
   else
     let! componentWillMount := liftHost (Get host instance "componentWillMount") in
     let! callable := readHost (fun r => hasCall host r componentWillMount) in
     (if instanceof componentWillMount ECMAScriptSourceFunctionValue && callable
      then liftHost (Call host componentWillMount instance [])
      else ret tt) ;!
     let! unsafeComponentWillMount :=
       liftHost (Get host instance "UNSAFE_componentWillMount") in
     let! callable := readHost (fun r => hasCall host r unsafeComponentWillMount) in
     if instanceof unsafeComponentWillMount ECMAScriptSourceFunctionValue
        && callable then
       liftHost (Call host unsafeComponentWillMount instance [])
     else ret tt) ;!
  let! renderMethod := liftHost (Get host instance "render") in
  invariant (instanceof renderMethod ECMAScriptSourceFunctionValue) EmptyString ;!
  liftHost (getValueFromFunctionCall host renderMethod instance []).

(** lines 697-722 *)
Definition _resolveRelayContainer (reactHint : ReactHintRecord) (props
    context : Value) (branchStatus : BranchStatusEnum) (evaluatedNode : NodeRef)
    : M (Value * Value) :=
  assign_status evaluatedNode NODE_INLINED ;!
  assign_message evaluatedNode "RelayContainer" ;!
  match hint_firstRenderValue reactHint with
  | None => throw (InvariantViolation EmptyString)
  | Some firstRenderValue =>
      (* for better serialization, ensure context has the right abstract
         properties defined *)
      let! relay := readHost (fun r => getProperty host r context "relay") in
      let! undefined := readHost intrinsics_undefined in
      (if bool_decide (relay = undefined) then
         let! abstractRelayContext :=
           liftHost (createAbstractObject host "context.relay") in
         let! abstractRelayEnvironment :=
           liftHost (createAbstractObject host "context.relay.environment") in
         let! abstractRelayInternal :=
           liftHost (createAbstractObject host
                       "context.relay.environment.unstable_internal") in
         liftHost (Properties_Set host context "relay" abstractRelayContext) ;!
         liftHost (Properties_Set host abstractRelayContext "environment"
                     abstractRelayEnvironment) ;!
         liftHost (Properties_Set host abstractRelayEnvironment
                     "unstable_internal" abstractRelayInternal)
       else ret tt) ;!
      (* add contextType to this component *)
      modify (set_componentTreeState
                (set_contextTypes (fun t => t ∪ {["relay"]}))) ;!
      _resolveComponent firstRenderValue props context branchStatus evaluatedNode
  end.

(** lines 724-797: the body of [_resolveComponent]; the result is the pair
    [{ result, childContext }] *)
Definition _resolveComponent_body (componentType props context : Value)
    (branchStatus : BranchStatusEnum) (evaluatedNode : NodeRef)
    : M (Value * Value) :=
  let! doNotOptimize :=
    readHost (fun r => doNotOptimizeComponent host r componentType) in
  if doNotOptimize then
    throw (DoNotOptimize "__reactCompilerDoNotOptimize flag detected")
  else
  componentsEvaluated_increment ;!
  let! known :=
    readHost (fun r => valueIsKnownReactAbstraction host r componentType) in
  if known then
    invariant (instanceof componentType AbstractValue) EmptyString ;!
    let! reactHint := readHost (fun r => react_abstractHints r !! componentType) in
    let! reactRelay := readHost fbLibraries_reactRelay in
    let! config := gets componentTreeConfig in
    let queue : M (Value * Value) :=
      _queueNewComponentTree componentType evaluatedNode None None ;!
      assign_status evaluatedNode NODE_NEW_TREE ;!
      assign_message evaluatedNode "RelayContainer" ;!
      throw (NewComponentTreeBranch evaluatedNode) in
    match reactHint with
    | None => throw (InvariantViolation EmptyString)
    | Some (HintRecord hint) =>
        if bool_decide (Some (hint_object hint) = reactRelay)
           && firstRenderOnly config then
          _resolveRelayContainer hint props context branchStatus evaluatedNode
        else queue
    | Some (HintString _) => queue
    end
  else
  invariant (instanceof componentType ECMAScriptSourceFunctionValue)
    EmptyString ;!
  let childContext := context in
  (* first we check if it's a legacy class component *)
  let! legacy :=
    readHost (fun r => valueIsLegacyCreateClassComponent host r componentType) in
  if legacy then
    throw (ExpectedBailOut
             "components created with create-react-class are not supported")
  else
  let resolveValue (value : Value) : M (Value * Value) :=
    let! result :=
      _resolveDeeply componentType value context
        (if bool_decide (branchStatus = ROOT) then NO_BRANCH else branchStatus)
        evaluatedNode in
    ret (result, childContext) in
  let! isClass := readHost (fun r => valueIsClassComponent host r componentType) in
  if isClass then
    let! config := gets componentTreeConfig in
    let! value :=
      if firstRenderOnly config then
        _resolveClassComponentForFirstRenderOnly componentType props context
          branchStatus evaluatedNode
      else
        _resolveClassComponent componentType props context branchStatus
          evaluatedNode in
    resolveValue value
  else
    let! value :=
      _resolveFunctionalComponent componentType props context evaluatedNode in
    let! factory :=
      readHost (fun r => valueIsFactoryClassComponent host r value) in
    if factory then
      invariant (instanceof value ObjectValue) EmptyString ;!
      if negb (bool_decide (branchStatus = ROOT)) then
        throw (ExpectedBailOut
                 "non-root factory class components are not suppoted")
      else ret (value, childContext)
    else resolveValue value.

(** lines 809-839 *)
Definition _getComponentResolutionStrategy (value : Value)
    : M ComponentResolutionStrategy :=
  readHost (fun r =>
    (* check if it's a ReactRelay.QueryRenderer *)
    if match fbLibraries_reactRelay r with
       | Some reactRelay =>
           bool_decide (value = getProperty host r reactRelay "QueryRenderer")
       | None => false
       end
    then RELAY_QUERY_RENDERER
    else if bool_decide (value = getReactSymbol host r "react.fragment")
    then FRAGMENT
    else if instanceof value AbstractValue
            && match react_abstractHints r !! value with
               | Some reactHint =>
                   bool_decide (reactHint_object reactHint = fbLibraries_react r)
                   && bool_decide (reactHint_propertyName reactHint
                                   = Some "forwardRef")
               | None => false
               end
    then FORWARD_REF
    else if (instanceof value ObjectValue
             || instanceof value AbstractObjectValue)
            && negb (bool_decide (kind host r value = Some "conditional"))
    then
      let typeof := getProperty host r value "$$typeof" in
      if bool_decide (typeof = getReactSymbol host r "react.context")
      then CONTEXT_CONSUMER
      else if bool_decide (typeof = getReactSymbol host r "react.provider")
      then CONTEXT_PROVIDER
      else NORMAL
    else NORMAL).

(** lines 841-874 *)
Definition _resolveReactDomPortal (createPortalNode : Value)
    (portal_args : list Value) (componentType context : Value)
    (branchStatus : BranchStatusEnum) (evaluatedNode : NodeRef) : M Value :=
  match portal_args with
  | reactPortalValue :: domNodeValue :: _ =>
      let! evaluatedChildNode :=
        createReactEvaluatedNode NODE_INLINED "ReactDOM.createPortal" in
      let! resolvedReactPortalValue :=
        _resolveDeeply componentType reactPortalValue context branchStatus
          evaluatedChildNode in
      children_push evaluatedNode evaluatedChildNode ;!
      if negb (bool_decide (resolvedReactPortalValue = reactPortalValue)) then
        inlinedComponents_increment ;!
        let! reactDomValue := readHost fbLibraries_reactDom in
        match reactDomValue with
        | Some reactDomValue =>
            invariant (instanceof reactDomValue ObjectValue) EmptyString ;!
            let! reactDomPortalFunc :=
              readHost (fun r => getProperty host r reactDomValue "createPortal") in
            liftHost (createTemporalFromBuildFunction host
                        [reactDomPortalFunc; resolvedReactPortalValue;
                         domNodeValue])
        | None => throw (InvariantViolation EmptyString)
        end
      else ret createPortalNode
  | _ => throw (OtherError "TypeError: missing createPortal argument")
  end.

(** Modelled from the spec: [realm.evaluateForEffects(thunk)] (section 6) runs
    the thunk in an effect-capturing scope and gives back the handle of the
    captured effects; an error of the thunk leaves the scope and goes on. *)
Definition evaluateForEffects (thunk : M Value) : M Effects :=
  modifyRealm (beginEffects host) ;!
  let! value :=
    tryCatch thunk
      (fun error => modifyRealm (abortEffects host) ;! throw error) in
  liftHost (captureEffects host value).

(** Modelled from the spec: [realm.evaluateWithAbstractConditional] (section
    4.6) evaluates the consequent, then the alternate, each once, and joins
    the two captured outcomes into one value. *)
Definition evaluateWithAbstractConditional (condValue : Value)
    (consequentEffectsFunc alternateEffectsFunc : M Effects) : M Value :=
  let! effects1 := consequentEffectsFunc in
  let! effects2 := alternateEffectsFunc in
  liftHost (joinConditional host condValue effects1 effects2).

(** lines 876-905 *)
Definition _resolveAbstractConditionalValue (componentType condValue
    consequentVal alternateVal context : Value) (evaluatedNode : NodeRef)
    : M Value :=
  let! value :=
    evaluateWithAbstractConditional condValue
      (evaluateForEffects
         (_resolveDeeply componentType consequentVal context NEW_BRANCH
            evaluatedNode))
      (evaluateForEffects
         (_resolveDeeply componentType alternateVal context NEW_BRANCH
            evaluatedNode)) in
  let! value_kind := readHost (fun r => kind host r value) in
  if instanceof value AbstractValue
     && bool_decide (value_kind = Some "conditional") then
    liftHost (getValueWithBranchingLogicApplied host consequentVal alternateVal
                value)
  else ret value.

(** lines 907-946.  A conditional value has its three arguments. *)
Definition _resolveAbstractValue (componentType value context : Value)
    (branchStatus : BranchStatusEnum) (evaluatedNode : NodeRef) : M Value :=
  let! gen := readHost generator in
  invariant gen EmptyString ;!
  let! value_kind := readHost (fun r => kind host r value) in
  if bool_decide (value_kind = Some "conditional") then
    let! value_args := readHost (fun r => args host r value) in
    match value_args with
    | condValue :: consequentVal :: alternateVal :: _ =>
        invariant (instanceof condValue AbstractValue) EmptyString ;!
        _resolveAbstractConditionalValue componentType condValue consequentVal
          alternateVal context evaluatedNode
    | condValue :: _ =>
        invariant (instanceof condValue AbstractValue) EmptyString ;!
        throw (OtherError "TypeError: missing branch of a conditional")
    | [] => throw (InvariantViolation EmptyString)
    end
  else
    let! reactHint := readHost (fun r => react_abstractHints r !! value) in
    let! reactDom := readHost fbLibraries_reactDom in
    match reactHint with
    | Some reactHint =>
        if bool_decide (reactHint_object reactHint = reactDom)
           && bool_decide (reactHint_propertyName reactHint = Some "createPortal")
        then
          _resolveReactDomPortal value (default [] (reactHint_args reactHint))
            componentType context branchStatus evaluatedNode
        else deadEnds_increment ;! ret value
    | None => deadEnds_increment ;! ret value
    end.

(** lines 948-965 *)
Definition _resolveUnknownComponentType (reactElement : Value)
    (evaluatedNode : NodeRef) : M Value :=
  let! typeValue := readHost (fun r => getProperty host r reactElement "type") in
  let! propsValue := readHost (fun r => getProperty host r reactElement "props") in
  _findReactComponentTrees fuel propsValue evaluatedNode NORMAL_FUNCTIONS
    None None ;!
  if instanceof typeValue AbstractValue then
    _findReactComponentTrees fuel typeValue evaluatedNode FUNCTIONAL_COMPONENTS
      None None ;!
    ret reactElement
  else
    let! nm := readHost (fun r => getComponentName host r typeValue) in
    let! evaluatedChildNode := createReactEvaluatedNode NODE_BAIL_OUT nm in
    children_push evaluatedNode evaluatedChildNode ;!
    let bailOutMessage :=
      "type on <Component /> was not a ECMAScriptSourceFunctionValue" in
    assign_message evaluatedChildNode bailOutMessage ;!
    _assignBailOutMessage reactElement bailOutMessage ;!
    deadEnds_increment ;!
    ret reactElement.

(** lines 967-980 *)
Definition _resolveReactElementBadRef (reactElement : Value)
    (evaluatedNode : NodeRef) : M Value :=
  let! typeValue := readHost (fun r => getProperty host r reactElement "type") in
  let! propsValue := readHost (fun r => getProperty host r reactElement "props") in
  let! nm := readHost (fun r => getComponentName host r typeValue) in
  let! evaluatedChildNode := createReactEvaluatedNode NODE_BAIL_OUT nm in
  children_push evaluatedNode evaluatedChildNode ;!
  let bailOutMessage := "refs are not supported on <Components />" in
  assign_message evaluatedChildNode bailOutMessage ;!
  _queueNewComponentTree typeValue evaluatedChildNode None None ;!
  _findReactComponentTrees fuel propsValue evaluatedNode NORMAL_FUNCTIONS
    None None ;!
  _assignBailOutMessage reactElement bailOutMessage ;!
  ret reactElement.

(** lines 982-998 *)
Definition _resolveReactElementUndefinedRender (reactElement : Value)
    (evaluatedNode : NodeRef) (branchStatus : BranchStatusEnum) : M Value :=
  let! typeValue := readHost (fun r => getProperty host r reactElement "type") in
  let! propsValue := readHost (fun r => getProperty host r reactElement "props") in
  let! nm := readHost (fun r => getComponentName host r typeValue) in
  let! evaluatedChildNode := createReactEvaluatedNode NODE_BAIL_OUT nm in
  children_push evaluatedNode evaluatedChildNode ;!
  let bailOutMessage := "undefined was returned from render" in
  assign_message evaluatedChildNode bailOutMessage ;!
  _assignBailOutMessage reactElement bailOutMessage ;!
  _findReactComponentTrees fuel propsValue evaluatedNode NORMAL_FUNCTIONS
    None None ;!
  ret reactElement.

(** lines 1047-1078 *)
Definition _resolveFragmentComponent (componentType reactElement
    context : Value) (branchStatus : BranchStatusEnum) (evaluatedNode : NodeRef)
    : M Value :=
  componentsEvaluated_increment ;!
  let! config := gets componentTreeConfig in
  if firstRenderOnly config then
    let! evaluatedChildNode :=
      createReactEvaluatedNode NODE_INLINED "React.Fragment" in
    children_push evaluatedNode evaluatedChildNode ;!
    inlinedComponents_increment ;!
    _resolveReactElementHostChildren componentType reactElement context
      branchStatus evaluatedChildNode
  else
    let! evaluatedChildNode :=
      createReactEvaluatedNode NODE_NORMAL "React.Fragment" in
    children_push evaluatedNode evaluatedChildNode ;!
    _resolveReactElementHostChildren componentType reactElement context
      branchStatus evaluatedChildNode.

(** lines 1080-1192 *)
Definition _resolveReactElement (componentType reactElement context : Value)
    (branchStatus : BranchStatusEnum) (evaluatedNode : NodeRef) : M Value :=
  let! config := gets componentTreeConfig in
  let! reactElement :=
    if firstRenderOnly config then
      liftHost (sanitizeReactElementForFirstRenderOnly host reactElement)
    else ret reactElement in
  let! typeValue := readHost (fun r => getProperty host r reactElement "type") in
  let! propsValue := readHost (fun r => getProperty host r reactElement "props") in
  let! refValue := readHost (fun r => getProperty host r reactElement "ref") in
  let! typeKind := readHost (fun r => kind host r typeValue) in
  let! propsKind := readHost (fun r => kind host r propsValue) in
  invariant (negb (instanceof typeValue AbstractValue
                   && bool_decide (typeKind = Some "conditional")))
    ("the reconciler should never encounter a ReactElement " +:+ dq +:+ "type"
     +:+ dq +:+ " that is conditional abstract value") ;!
  invariant (negb (instanceof propsValue AbstractValue
                   && bool_decide (propsKind = Some "conditional")))
    ("the reconciler should never encounter a ReactElement " +:+ dq +:+ "props"
     +:+ dq +:+ " that is conditional abstract value") ;!
  if instanceof typeValue StringValue then
    _resolveReactElementHostChildren componentType reactElement context
      branchStatus evaluatedNode
  else if negb (instanceof propsValue ObjectValue
                || instanceof propsValue AbstractObjectValue) then
    _assignBailOutMessage reactElement
      "props on <Component /> was not not an ObjectValue or an AbstractObjectValue" ;!
    ret reactElement
  else
  let! componentResolutionStrategy := _getComponentResolutionStrategy typeValue in
  (* We do not support "ref" on <Component /> ReactElements, unless it's a
     forwarded ref *)
  (if negb (instanceof refValue NullValue)
      && negb (bool_decide (componentResolutionStrategy = FORWARD_REF))
      && negb (instanceof refValue AbstractValue) then
     _resolveReactElementBadRef reactElement evaluatedNode ;! ret tt
   else ret tt) ;!
  tryCatch
    (let finish (result : option Value) : M Value :=
       let result := default reactElement result in
       if instanceof result UndefinedValue then
         _resolveReactElementUndefinedRender reactElement evaluatedNode
           branchStatus
       else ret result in
     match componentResolutionStrategy with
     | NORMAL =>
         let! known :=
           readHost (fun r => valueIsKnownReactAbstraction host r typeValue) in
         if negb (instanceof typeValue ECMAScriptSourceFunctionValue || known)
         then _resolveUnknownComponentType reactElement evaluatedNode
         else
           let! nm := readHost (fun r => getComponentName host r typeValue) in
           let! evaluatedChildNode := createReactEvaluatedNode NODE_INLINED nm in
           let! render :=
             _resolveComponent typeValue propsValue context
               (if bool_decide (branchStatus = NEW_BRANCH) then BRANCH
                else branchStatus)
               evaluatedChildNode in
           let! lg := gets logger in
           let! verbose := readHost react_verbose in
           let! child := gets (fun s => node_at s evaluatedChildNode) in
           (if bool_decide (is_Some lg) && verbose
               && bool_decide (status child = NODE_INLINED) then
              logInformation ("    ✔ " +:+ name child +:+ " (inlined)")
            else ret tt) ;!
           children_push evaluatedNode evaluatedChildNode ;!
           inlinedComponents_increment ;!
           finish (Some (fst render))
     | FRAGMENT =>
         _resolveFragmentComponent componentType reactElement context
           branchStatus evaluatedNode
     | RELAY_QUERY_RENDERER =>
         invariant (instanceof typeValue AbstractObjectValue) EmptyString ;!
         _resolveRelayQueryRendererComponent componentType reactElement context
           evaluatedNode ;!
         finish None
     | CONTEXT_PROVIDER =>
         _resolveContextProviderComponent componentType reactElement context
           branchStatus evaluatedNode
     | CONTEXT_CONSUMER =>
         let! result :=
           _resolveContextConsumerComponent componentType reactElement context
             evaluatedNode in
         finish result
     | FORWARD_REF =>
         let! result :=
           _resolveForwardRefComponent componentType reactElement context
             branchStatus evaluatedNode in
         finish (Some result)
     end)
    (fun error =>
       _resolveComponentResolutionFailure error reactElement evaluatedNode
         branchStatus).

(** Modelled from the spec: [mapArrayValue] of ./utils (section 4.1) resolves
    each element in order and gives a new array only if some element changed
    identity. *)
Definition mapArrayValue (arrayValue : Value) (mapFunc : Value -> M Value)
    : M Value :=
  let! elements := readHost (fun r => arrayElements host r arrayValue) in
  let! newElements := mapM mapFunc elements in
  if bool_decide (newElements = elements) then ret arrayValue
  else liftHost (newArrayValue host newElements).

(** lines 1342-1366 *)
Definition _resolveArray (componentType arrayValue context : Value)
    (branchStatus : BranchStatusEnum) (evaluatedNode : NodeRef) : M Value :=
  let! widened :=
    readHost (fun r => isIntrinsicAndHasWidenedNumericProperty host r arrayValue) in
  let! arrayHint := readHost (fun r => react_arrayHints r !! arrayValue) in
  let map : M Value :=
    mapArrayValue arrayValue (fun elementValue =>
      _resolveDeeply componentType elementValue context NEW_BRANCH
        evaluatedNode) in
  if widened then
    match arrayHint with
    | Some arrayHint =>
        let func := ah_func arrayHint in
        (if instanceof func ECMAScriptSourceFunctionValue
            || instanceof func BoundFunctionValue then
           let! undefined := readHost intrinsics_undefined in
           match ah_thisVal arrayHint with
           | Some thisVal =>
               if negb (bool_decide (thisVal = undefined)) then
                 throw (ExpectedBailOut
                   ("abstract mapped arrays with " +:+ dq +:+ "this" +:+ dq
                    +:+ " argument are not yet supported"))
               else ret tt
           | None => ret tt
           end ;!
           _queueOptimizedClosure func evaluatedNode (Some componentType)
             (Some context)
         else ret tt) ;!
        ret arrayValue
    | None => map
    end
  else map.

(** lines 1294-1328: the body of [_resolveDeeply] *)
Definition _resolveDeeply_body (componentType value context : Value)
    (branchStatus : BranchStatusEnum) (evaluatedNode : NodeRef) : M Value :=
  if instanceof value StringValue || instanceof value NumberValue
     || instanceof value BooleanValue || instanceof value NullValue
     || instanceof value UndefinedValue then
    (* terminal values *)
    ret value
  else
    let! final := readHost (fun r => isFinal_defined host r value) in
    invariant (negb (instanceof value ObjectValue) || final)
      "An object value was detected during React reconcilation without its bindings properly applied" ;!
    if instanceof value AbstractValue then
      _resolveAbstractValue componentType value context branchStatus
        evaluatedNode
    else if instanceof value ArrayValue then
      _resolveArray componentType value context branchStatus evaluatedNode
    else
      let! isElement := readHost (fun r => isReactElement host r value) in
      if instanceof value ObjectValue && isElement then
        _resolveReactElement componentType value context branchStatus
          evaluatedNode
      else
        let! location :=
          readHost (fun r =>
            getLocationFromValue host (expressionLocation host r value)) in
        throw (ExpectedBailOut ("invalid return value from render" +:+ location)).

End Resolution.

(** ** The recursion of the fold

    [_resolveDeeply] and [_resolveComponent] call each other through the
    methods above.  User code decides how deep the fold goes, so it is bounded
    by a fuel; running out of it is [Diverge]. *)
Fixpoint _resolveDeeply (fuel : nat) (componentType value context : Value)
    (branchStatus : BranchStatusEnum) (evaluatedNode : NodeRef) {struct fuel}
    : M Value :=
  match fuel with
  | O => diverge
  | S fuel =>
      _resolveDeeply_body fuel (_resolveDeeply fuel) (_resolveComponent fuel)
        componentType value context branchStatus evaluatedNode
  end
with _resolveComponent (fuel : nat) (componentType props context : Value)
    (branchStatus : BranchStatusEnum) (evaluatedNode : NodeRef) {struct fuel}
    : M (Value * Value) :=
  match fuel with
  | O => diverge
  | S fuel =>
      _resolveComponent_body (_resolveDeeply fuel) (_resolveComponent fuel)
        componentType props context branchStatus evaluatedNode
  end.

(** ** The entry points of the driver *)

(** Modelled from the spec: [wrapInGlobalEnv], [evaluatePure] and
    [evaluateWithNestedParentEffects] run their callback once inside a scope
    of the evaluator that is left on every exit. *)
Definition wrapInGlobalEnv {A} (callback : M A) : M A :=
  modifyRealm (enterGlobalEnv host) ;!
  tryFinally callback (set_realm (leaveGlobalEnv host)).

Definition evaluatePure {A} (callback : M A) : M A :=
  modifyRealm (enterPure host) ;!
  tryFinally callback (set_realm (leavePure host)).

Definition evaluateWithNestedParentEffects {A} (nestedEffects : list Effects)
    (callback : M A) : M A :=
  modifyRealm (applyNestedEffects host nestedEffects) ;!
  tryFinally callback (set_realm (undoNestedEffects host nestedEffects)).

(** lines 161-195 *)
Definition resolveReactComponentTree (fuel : nat) (componentType : Value)
    (props context : option Value) (evaluatedRootNode : NodeRef) : M Effects :=
  let resolveComponentTree : M Value :=
    tryCatch
      (let! initialProps :=
         match props with
         | Some props => ret props
         | None => liftHost (getInitialProps host componentType)
         end in
       let! initialContext :=
         match context with
         | Some context => ret context
         | None => liftHost (getInitialContext host componentType)
         end in
       modify (set_alreadyEvaluatedRootNodes
                 (fun m => <[componentType := evaluatedRootNode]> m)) ;!
       let! render :=
         _resolveComponent fuel componentType initialProps initialContext ROOT
           evaluatedRootNode in
       optimizedTrees_increment ;!
       ret (fst render))
      (fun error =>
         _handleComponentTreeRootFailure error evaluatedRootNode ;!
         (* flow belives we can get here, when it should never be possible *)
         throw (InvariantViolation
                  "resolveReactComponentTree error not handled correctly")) in
  let! effects :=
    wrapInGlobalEnv (evaluatePure (evaluateForEffects resolveComponentTree)) in
  _handleNestedOptimizedClosuresFromEffects effects evaluatedRootNode ;!
  ret effects.

(** lines 205-283 *)
Definition resolveNestedOptimizedClosure (fuel : nat) (func : Value)
    (nestedEffects : list Effects) (componentType context : option Value)
    (evaluatedNode : NodeRef) : M Effects :=
  let resolveOptimizedClosure : M Value :=
    let! baseObject := readHost (WithBaseObject host) in
    (* we want to optimize the function that is bound *)
    let! bound :=
      if instanceof func BoundFunctionValue then
        let! boundThis := readHost (fun r => BoundThis host r func) in
        let! target := readHost (fun r => BoundTargetFunction host r func) in
        invariant (instanceof target ECMAScriptSourceFunctionValue)
          EmptyString ;!
        ret (target, boundThis)
      else ret (func, baseObject) in
    let '(func, baseObject) := bound in
    let! numArgs := readHost (fun r => getLength host r func) in
    let targetFunc := func in
    modify (set_alreadyEvaluatedNestedClosures (fun st => st ∪ {[func]})) ;!
    invariant (instanceof targetFunc ECMAScriptSourceFunctionValue)
      EmptyString ;!
    let! params := readHost (fun r => FormalParameters host r targetFunc) in
    let! location := readHost (fun r => expressionLocation host r targetFunc) in
    let! call_args :=
      match numArgs, params with
      | Some n, Some params =>
          if 0 <? n then
            mapM (fun parameterId =>
              if isIdentifier parameterId then
                (* Create an AbstractValue similar to __abstract being called *)
                liftHost (createAbstractArgument host
                            (parameter_name parameterId) location)
              else
                liftHost (handleError host
                  "Non-identifier args to additional functions unsupported"
                  location) ;!
                throw (FatalError
                  "Non-identifier args to additional functions unsupported"))
              params
          else ret []
      | _, _ => ret []
      end in
    tryCatch
      (invariant (instanceof baseObject ObjectValue
                  || instanceof baseObject AbstractObjectValue
                  || instanceof baseObject UndefinedValue) EmptyString ;!
       let! value :=
         liftHost (getValueFromFunctionCall host func baseObject call_args) in
       match componentType, context with
       | Some componentType, Some context =>
           invariant (instanceof context ObjectValue
                      || instanceof context AbstractObjectValue) EmptyString ;!
           let! result :=
             _resolveDeeply fuel componentType value context NEW_BRANCH
               evaluatedNode in
           optimizedNestedClosures_increment ;!
           ret result
       | _, _ => throw (InvariantViolation EmptyString)
       end)
      (fun error =>
         _handleComponentTreeRootFailure error evaluatedNode ;!
         (* flow belives we can get here, when it should never be possible *)
         throw (InvariantViolation
                  "resolveNestedOptimizedClosure error not handled correctly")) in
  let! effects :=
    wrapInGlobalEnv
      (evaluatePure
         (evaluateWithNestedParentEffects nestedEffects
            (evaluateForEffects resolveOptimizedClosure))) in
  _handleNestedOptimizedClosuresFromEffects effects evaluatedNode ;!
  ret effects.

(** ** The methods as calls

    Every method of the class that runs during a fold (all but the
    constructor and [clearComponentTreeState], which start a fold), and the
    state it leaves on whatever exit it takes. *)
Inductive MethodCall :=
  | call_resolveReactComponentTree
      (componentType : Value) (props context : option Value) (node : NodeRef)
  | call_handleNestedOptimizedClosuresFromEffects
      (effects : Effects) (node : NodeRef)
  | call_resolveNestedOptimizedClosure
      (func : Value) (nestedEffects : list Effects)
      (componentType context : option Value) (node : NodeRef)
  | call_queueOptimizedClosure
      (func : Value) (node : NodeRef) (componentType context : option Value)
  | call_queueNewComponentTree
      (rootValue : Value) (node : NodeRef) (props context : option Value)
  | call_resolveComplexClassComponent
      (componentType props context : Value) (md : ClassComponentMetadata)
      (bs : BranchStatusEnum) (node : NodeRef)
  | call_resolveSimpleClassComponent
      (componentType props context : Value) (bs : BranchStatusEnum)
      (node : NodeRef)
  | call_resolveFunctionalComponent
      (componentType props context : Value) (node : NodeRef)
  | call_getClassComponentMetadata (componentType props context : Value)
  | call_resolveContextProviderComponent
      (componentType reactElement context : Value) (bs : BranchStatusEnum)
      (node : NodeRef)
  | call_decremementReferenceForContextNode (contextNode : Value)
  | call_incremementReferenceForContextNode (contextNode : Value)
  | call_hasReferenceForContextNode (contextNode : Value)
  | call_resolveContextConsumerComponent
      (componentType reactElement context : Value) (node : NodeRef)
  | call_resolveForwardRefComponent
      (componentType reactElement context : Value) (bs : BranchStatusEnum)
      (node : NodeRef)
  | call_resolveRelayQueryRendererComponent
      (componentType reactElement context : Value) (node : NodeRef)
  | call_resolveClassComponent
      (componentType props context : Value) (bs : BranchStatusEnum)
      (node : NodeRef)
  | call_resolveClassComponentForFirstRenderOnly
      (componentType props context : Value) (bs : BranchStatusEnum)
      (node : NodeRef)
  | call_resolveRelayContainer
      (reactHint : ReactHintRecord) (props context : Value)
      (bs : BranchStatusEnum) (node : NodeRef)
  | call_resolveComponent
      (componentType props context : Value) (bs : BranchStatusEnum)
      (node : NodeRef)
  | call_getComponentResolutionStrategy (value : Value)
  | call_resolveReactDomPortal
      (createPortalNode : Value) (portal_args : list Value)
      (componentType context : Value) (bs : BranchStatusEnum) (node : NodeRef)
  | call_resolveAbstractConditionalValue
      (componentType condValue consequentVal alternateVal context : Value)
      (node : NodeRef)
  | call_resolveAbstractValue
      (componentType value context : Value) (bs : BranchStatusEnum)
      (node : NodeRef)
  | call_resolveUnknownComponentType (reactElement : Value) (node : NodeRef)
  | call_resolveReactElementBadRef (reactElement : Value) (node : NodeRef)
  | call_resolveReactElementUndefinedRender
      (reactElement : Value) (node : NodeRef) (bs : BranchStatusEnum)
  | call_resolveReactElementHostChildren
      (componentType reactElement context : Value) (bs : BranchStatusEnum)
      (node : NodeRef)
  | call_resolveFragmentComponent
      (componentType reactElement context : Value) (bs : BranchStatusEnum)
      (node : NodeRef)
  | call_resolveReactElement
      (componentType reactElement context : Value) (bs : BranchStatusEnum)
      (node : NodeRef)
  | call_handleComponentTreeRootFailure (error : Error) (node : NodeRef)
  | call_resolveComponentResolutionFailure
      (error : Error) (reactElement : Value) (node : NodeRef)
      (bs : BranchStatusEnum)
  | call_resolveDeeply
      (componentType value context : Value) (bs : BranchStatusEnum)
      (node : NodeRef)
  | call_assignBailOutMessage (reactElement : Value) (message : string)
  | call_resolveArray
      (componentType arrayValue context : Value) (bs : BranchStatusEnum)
      (node : NodeRef)
  | call_hasEvaluatedRootNode (componentType : Value) (node : NodeRef)
  | call_hasEvaluatedNestedClosure (func : Value)
  | call_findReactComponentTrees
      (value : Value) (node : NodeRef) (treatFunctionsAs : TreatFunctionsAs)
      (componentType context : option Value)
  | call_handleReportedSideEffect
      (sideEffectType : SideEffectType) (binding : option string)
      (location : Location)
  | call_setContextCurrentValue (contextObject value : Value).

Definition finalState (fuel : nat) (call : MethodCall) (s : Reconciler)
    : Reconciler :=
  let rd := _resolveDeeply fuel in
  let rc := _resolveComponent fuel in
  match call with
  | call_resolveReactComponentTree ct p ctx n =>
      snd (resolveReactComponentTree fuel ct p ctx n s)
  | call_handleNestedOptimizedClosuresFromEffects e n =>
      snd (_handleNestedOptimizedClosuresFromEffects e n s)
  | call_resolveNestedOptimizedClosure f l ct ctx n =>
      snd (resolveNestedOptimizedClosure fuel f l ct ctx n s)
  | call_queueOptimizedClosure f n ct ctx =>
      snd (_queueOptimizedClosure f n ct ctx s)
  | call_queueNewComponentTree v n p ctx =>
      snd (_queueNewComponentTree v n p ctx s)
  | call_resolveComplexClassComponent ct p ctx md bs n =>
      snd (_resolveComplexClassComponent ct p ctx md bs n s)
  | call_resolveSimpleClassComponent ct p ctx bs n =>
      snd (_resolveSimpleClassComponent ct p ctx bs n s)
  | call_resolveFunctionalComponent ct p ctx n =>
      snd (_resolveFunctionalComponent ct p ctx n s)
  | call_getClassComponentMetadata ct p ctx =>
      snd (_getClassComponentMetadata ct p ctx s)
  | call_resolveContextProviderComponent ct el ctx bs n =>
      snd (_resolveContextProviderComponent rd ct el ctx bs n s)
  | call_decremementReferenceForContextNode c =>
      snd (_decremementReferenceForContextNode c s)
  | call_incremementReferenceForContextNode c =>
      snd (_incremementReferenceForContextNode c s)
  | call_hasReferenceForContextNode c =>
      snd (_hasReferenceForContextNode c s)
  | call_resolveContextConsumerComponent ct el ctx n =>
      snd (_resolveContextConsumerComponent fuel ct el ctx n s)
  | call_resolveForwardRefComponent ct el ctx bs n =>
      snd (_resolveForwardRefComponent rd ct el ctx bs n s)
  | call_resolveRelayQueryRendererComponent ct el ctx n =>
      snd (_resolveRelayQueryRendererComponent fuel ct el ctx n s)
  | call_resolveClassComponent ct p ctx bs n =>
      snd (_resolveClassComponent ct p ctx bs n s)
  | call_resolveClassComponentForFirstRenderOnly ct p ctx bs n =>
      snd (_resolveClassComponentForFirstRenderOnly ct p ctx bs n s)
  | call_resolveRelayContainer h p ctx bs n =>
      snd (_resolveRelayContainer rc h p ctx bs n s)
  | call_resolveComponent ct p ctx bs n =>
      snd (_resolveComponent fuel ct p ctx bs n s)
  | call_getComponentResolutionStrategy v =>
      snd (_getComponentResolutionStrategy v s)
  | call_resolveReactDomPortal v a ct ctx bs n =>
      snd (_resolveReactDomPortal rd v a ct ctx bs n s)
  | call_resolveAbstractConditionalValue ct c v1 v2 ctx n =>
      snd (_resolveAbstractConditionalValue rd ct c v1 v2 ctx n s)
  | call_resolveAbstractValue ct v ctx bs n =>
      snd (_resolveAbstractValue rd ct v ctx bs n s)
  | call_resolveUnknownComponentType el n =>
      snd (_resolveUnknownComponentType fuel el n s)
  | call_resolveReactElementBadRef el n =>
      snd (_resolveReactElementBadRef fuel el n s)
  | call_resolveReactElementUndefinedRender el n bs =>
      snd (_resolveReactElementUndefinedRender fuel el n bs s)
  | call_resolveReactElementHostChildren ct el ctx bs n =>
      snd (_resolveReactElementHostChildren rd ct el ctx bs n s)
  | call_resolveFragmentComponent ct el ctx bs n =>
      snd (_resolveFragmentComponent rd ct el ctx bs n s)
  | call_resolveReactElement ct el ctx bs n =>
      snd (_resolveReactElement fuel rd rc ct el ctx bs n s)
  | call_handleComponentTreeRootFailure e n =>
      snd (_handleComponentTreeRootFailure e n s)
  | call_resolveComponentResolutionFailure e el n bs =>
      snd (_resolveComponentResolutionFailure fuel e el n bs s)
  | call_resolveDeeply ct v ctx bs n =>
      snd (_resolveDeeply fuel ct v ctx bs n s)
  | call_assignBailOutMessage el m => snd (_assignBailOutMessage el m s)
  | call_resolveArray ct v ctx bs n =>
      snd (_resolveArray rd ct v ctx bs n s)
  | call_hasEvaluatedRootNode ct n => snd (hasEvaluatedRootNode ct n s)
  | call_hasEvaluatedNestedClosure f => snd (hasEvaluatedNestedClosure f s)
  | call_findReactComponentTrees v n t ct ctx =>
      snd (_findReactComponentTrees fuel v n t ct ctx s)
  | call_handleReportedSideEffect t b l =>
      snd (_handleReportedSideEffect t b l s)
  | call_setContextCurrentValue c v => snd (setContextCurrentValue c v s)
  end.

(** The count of references to a context object; a context that the map does
    not hold counts as zero, as [_hasReferenceForContextNode] reads it. *)
Definition references (s : Reconciler) (contextNode : Value) : Z :=
  default 0 (contextNodeReferences (componentTreeState s) !! contextNode).

(** No count in the map is negative. *)
Definition references_nonnegative (s : Reconciler) : Prop :=
  forall contextNode, 0 <= references s contextNode.

(** * Properties *)

(** ** What every method preserves

    A relation [R] between the state before and the state after, that is a
    preorder and that every elementary update of the fold respects, is
    respected by every method of the fold, on every exit: return, throw, or
    out of fuel.

    The fields of a report node are only assigned on nodes that the method
    was given to fill or that it has just made: [Modifiable] says which nodes
    the relation lets a method assign to, and a new node is one of them.
    A fatal error marks the node it is made with: [Markable] says which
    nodes may be marked, and a node that may be assigned to may be marked. *)

Create HintDb pres.

Section Preservation.

Variable R : Reconciler -> Reconciler -> Prop.
Variable Modifiable : NodeRef -> Prop.
Variable Markable : NodeRef -> Prop.

Definition Pres {A} (m : M A) : Prop := forall s, R s (snd (m s)).

Hypothesis R_refl : forall s, R s s.
Hypothesis R_trans : forall s1 s2 s3, R s1 s2 -> R s2 s3 -> R s1 s3.

Lemma Pres_ret {A} (a : A) : Pres (ret a).
Proof. intros s. apply R_refl. Qed.

Lemma Pres_throw {A} (e : Error) : Pres (@throw A e).
Proof. intros s. apply R_refl. Qed.

Lemma Pres_diverge {A} : Pres (@diverge A).
Proof. intros s. apply R_refl. Qed.

Lemma Pres_gets {A} (f : Reconciler -> A) : Pres (gets f).
Proof. intros s. apply R_refl. Qed.

Lemma Pres_readHost {A} (f : Realm -> A) : Pres (readHost f).
Proof. intros s. apply R_refl. Qed.

Lemma Pres_invariant b msg : Pres (invariant b msg).
Proof. destruct b; intros s; apply R_refl. Qed.

Lemma Pres_bind {A B} (m : M A) (k : A -> M B) :
  Pres m -> (forall a, Pres (k a)) -> Pres (bind m k).
Proof.
  intros Hm Hk s. unfold bind. specialize (Hm s).
  destruct (m s) as [[a|e|] s1]; simpl in *; auto.
  eapply R_trans; [exact Hm | apply Hk].
Qed.

Lemma Pres_tryCatch {A} (m : M A) (h : Error -> M A) :
  Pres m -> (forall e, Pres (h e)) -> Pres (tryCatch m h).
Proof.
  intros Hm Hh s. unfold tryCatch. specialize (Hm s).
  destruct (m s) as [[a|e|] s1]; simpl in *; auto.
  eapply R_trans; [exact Hm | apply Hh].
Qed.

Lemma Pres_modify f : (forall s, R s (f s)) -> Pres (modify f).
Proof. intros H s. apply H. Qed.

Lemma Pres_tryFinally {A} (m : M A) cleanup :
  Pres m -> (forall s, R s (cleanup s)) -> Pres (tryFinally m cleanup).
Proof.
  intros Hm Hc s. unfold tryFinally. specialize (Hm s).
  destruct (m s) as [r s1]; simpl in *.
  eapply R_trans; [exact Hm | apply Hc].
Qed.

Lemma Pres_forEach {A} (l : list A) (body : A -> M unit) :
  (forall a, Pres (body a)) -> Pres (forEach l body).
Proof.
  intros Hb. induction l as [|x l IH]; simpl.
  - apply Pres_ret.
  - apply Pres_bind; auto.
Qed.

Lemma Pres_mapM {A B} (f : A -> M B) (l : list A) :
  (forall a, Pres (f a)) -> Pres (mapM f l).
Proof.
  intros Hf. induction l as [|x l IH]; simpl.
  - apply Pres_ret.
  - apply Pres_bind; [apply Hf | intros y].
    apply Pres_bind; [exact IH | intros ys; apply Pres_ret].
Qed.

(** The elementary updates. *)
Hypothesis R_realm : forall s f, R s (set_realm f s).
Hypothesis R_optimizedTrees :
  forall s, R s (snd (optimizedTrees_increment s)).
Hypothesis R_componentsEvaluated :
  forall s, R s (snd (componentsEvaluated_increment s)).
Hypothesis R_inlinedComponents :
  forall s, R s (snd (inlinedComponents_increment s)).
Hypothesis R_optimizedNestedClosures :
  forall s, R s (snd (optimizedNestedClosures_increment s)).
Hypothesis R_logger : forall s line, R s (snd (logInformation line s)).
Hypothesis R_update_node : forall s n f,
  Modifiable n -> R s (snd (update_node n f s)).
Hypothesis Modifiable_Markable : forall n, Modifiable n -> Markable n.
Hypothesis R_fatal : forall s n msg,
  Markable n -> R s (snd (newReconcilerFatalError msg n s)).
Hypothesis R_children_push : forall s n c, R s (snd (children_push n c s)).
Hypothesis R_create : forall {A} st nm (k : NodeRef -> M A),
  (forall child, Modifiable child -> Pres (k child)) ->
  Pres (bind (createReactEvaluatedNode st nm) k).
Hypothesis R_closure : forall s c,
  R s (set_nestedOptimizedClosures (fun l => l ++ [c]) s).
Hypothesis R_branch : forall s b,
  R s (set_branchedComponentTrees (fun l => l ++ [b]) s).
Hypothesis R_deadEnds : forall s,
  R s (set_componentTreeState (set_deadEnds (fun n => n + 1)) s).
Hypothesis R_componentType : forall s v,
  R s (set_componentTreeState (set_componentType v) s).
Hypothesis R_treeStatus : forall s,
  R s (set_componentTreeState (set_treeStatus COMPLEX) s).
Hypothesis R_contextTypes : forall s,
  R s (set_componentTreeState
         (set_contextTypes (fun t => t ∪ {["relay"]})) s).
Hypothesis R_increment : forall s c,
  R s (snd (_incremementReferenceForContextNode c s)).
Hypothesis R_decrement : forall s c,
  R s (snd (_decremementReferenceForContextNode c s)).

Lemma Pres_liftHost {A} (h : HostM A) : Pres (liftHost h).
Proof.
  intros s. unfold liftHost. destruct (h (realm s)) as [r rl]. apply R_realm.
Qed.

Lemma Pres_modifyRealm f : Pres (modifyRealm f).
Proof. intros s. apply R_realm. Qed.

Lemma Pres_update_node n f : Modifiable n -> Pres (update_node n f).
Proof. intros H s. apply R_update_node, H. Qed.

Lemma Pres_newReconcilerFatalError msg n :
  Markable n -> Pres (newReconcilerFatalError msg n).
Proof. intros H s. apply R_fatal, H. Qed.

Lemma Pres_children_push n c : Pres (children_push n c).
Proof. intros s. apply R_children_push. Qed.

Lemma Pres_logInformation line : Pres (logInformation line).
Proof. intros s. apply R_logger. Qed.

Lemma Pres_deadEnds_increment : Pres deadEnds_increment.
Proof. intros s. apply R_deadEnds. Qed.

Lemma Pres_componentsEvaluated_increment : Pres componentsEvaluated_increment.
Proof. intros s. apply R_componentsEvaluated. Qed.

Lemma Pres_inlinedComponents_increment : Pres inlinedComponents_increment.
Proof. intros s. apply R_inlinedComponents. Qed.

Lemma Pres_optimizedNestedClosures_increment :
  Pres optimizedNestedClosures_increment.
Proof. intros s. apply R_optimizedNestedClosures. Qed.

Lemma Pres_optimizedTrees_increment : Pres optimizedTrees_increment.
Proof. intros s. apply R_optimizedTrees. Qed.

Lemma Pres_increment c : Pres (_incremementReferenceForContextNode c).
Proof. intros s. apply R_increment. Qed.

Lemma Pres_decrement c : Pres (_decremementReferenceForContextNode c).
Proof. intros s. apply R_decrement. Qed.

Ltac pres_prim :=
  first
    [ apply Pres_ret | apply Pres_throw | apply Pres_diverge | apply Pres_gets
    | apply Pres_readHost | apply Pres_invariant | apply Pres_liftHost
    | apply Pres_modifyRealm | apply Pres_update_node; assumption
    | apply Pres_newReconcilerFatalError;
        first [ assumption | apply Modifiable_Markable; assumption ]
    | apply Pres_children_push
    | apply Pres_logInformation | apply Pres_deadEnds_increment
    | apply Pres_componentsEvaluated_increment
    | apply Pres_inlinedComponents_increment
    | apply Pres_optimizedNestedClosures_increment
    | apply Pres_optimizedTrees_increment
    | apply Pres_increment | apply Pres_decrement
    | apply Pres_modify; solve [auto] ].

Ltac pres_step :=
  lazymatch goal with
  | |- Pres (bind (createReactEvaluatedNode _ _) _) => apply R_create; intros
  | |- Pres (bind _ _) => apply Pres_bind; [ | intros ]
  | |- Pres (tryCatch _ _) => apply Pres_tryCatch; [ | intros ]
  | |- Pres (forEach _ _) => apply Pres_forEach; intros
  | |- Pres (mapM _ _) => apply Pres_mapM; intros
  | |- Pres (if ?b then _ else _) => destruct b
  | |- Pres (match ?x with _ => _ end) => destruct x
  | |- Pres (let _ := _ in _) => cbv zeta
  | |- _ => first [ pres_prim | solve [auto with pres] ]
  end.

Ltac pres := repeat (cbv beta iota zeta; pres_step).

Lemma Pres_assign_status n st : Modifiable n -> Pres (assign_status n st).
Proof. apply Pres_update_node. Qed.

Lemma Pres_assign_message n msg :
  Modifiable n -> Pres (assign_message n msg).
Proof. apply Pres_update_node. Qed.

Lemma Pres_assign_name n nm : Modifiable n -> Pres (assign_name n nm).
Proof. apply Pres_update_node. Qed.

Lemma Pres_assign_children n a : Modifiable n -> Pres (assign_children n a).
Proof. apply Pres_update_node. Qed.

Lemma Pres_setContextCurrentValue c v : Pres (setContextCurrentValue c v).
Proof. unfold setContextCurrentValue. pres. Qed.

Lemma Pres_queueOptimizedClosure f n ct ctx :
  Pres (_queueOptimizedClosure f n ct ctx).
Proof. unfold _queueOptimizedClosure. pres. Qed.

Lemma Pres_hasEvaluatedRootNode ct n :
  Modifiable n -> Pres (hasEvaluatedRootNode ct n).
Proof.
  intros Hn. unfold hasEvaluatedRootNode.
  pres; auto using Pres_assign_children, Pres_assign_status, Pres_assign_name.
Qed.

Lemma Pres_hasEvaluatedNestedClosure f : Pres (hasEvaluatedNestedClosure f).
Proof. apply Pres_gets. Qed.

Lemma Pres_queueNewComponentTree v n p c :
  Modifiable n -> Pres (_queueNewComponentTree v n p c).
Proof.
  intros Hn. unfold _queueNewComponentTree.
  pres; auto using Pres_hasEvaluatedRootNode.
Qed.

Lemma Pres_hasReferenceForContextNode c : Pres (_hasReferenceForContextNode c).
Proof. unfold _hasReferenceForContextNode. pres. Qed.

Lemma Pres_assignBailOutMessage el msg : Pres (_assignBailOutMessage el msg).
Proof. apply Pres_modifyRealm. Qed.

Lemma Pres_findReactComponentTrees fuel :
  forall v n t ct ctx, Pres (_findReactComponentTrees fuel v n t ct ctx).
Proof.
  induction fuel as [|fuel IH]; intros; simpl.
  - apply Pres_diverge.
  - pres; auto using Pres_queueNewComponentTree, Pres_queueOptimizedClosure.
Qed.

Lemma Pres_handleReportedSideEffect t b l :
  Pres (_handleReportedSideEffect t b l).
Proof. unfold _handleReportedSideEffect. pres. Qed.

Lemma Pres_completion_message_stack v : Pres (completion_message_stack v).
Proof. unfold completion_message_stack. pres. Qed.

Lemma Pres_handleComponentTreeRootFailure e n :
  Markable n -> Pres (_handleComponentTreeRootFailure e n).
Proof.
  intros Hn. unfold _handleComponentTreeRootFailure.
  pres; auto using Pres_completion_message_stack.
Qed.

#[local] Hint Resolve Pres_assign_status Pres_assign_message Pres_assign_name
  Pres_assign_children Pres_setContextCurrentValue Pres_queueOptimizedClosure
  Pres_hasEvaluatedRootNode Pres_queueNewComponentTree
  Pres_hasReferenceForContextNode Pres_assignBailOutMessage
  Pres_findReactComponentTrees Pres_completion_message_stack
  Pres_handleComponentTreeRootFailure : pres.

Section PreservationOfResolution.

Variable fuel : nat.
Variable rd : Value -> Value -> Value -> BranchStatusEnum -> NodeRef -> M Value.
Variable rc :
  Value -> Value -> Value -> BranchStatusEnum -> NodeRef -> M (Value * Value).
Hypothesis Pres_rd :
  forall ct v ctx bs n, Markable n -> Pres (rd ct v ctx bs n).
Hypothesis Pres_rc :
  forall ct p ctx bs n, Modifiable n -> Pres (rc ct p ctx bs n).

#[local] Hint Resolve Pres_rd Pres_rc : pres.

Lemma Pres_resolveComponentResolutionFailure e el n bs :
  Markable n -> Pres (_resolveComponentResolutionFailure fuel e el n bs).
Proof. intros Hn. unfold _resolveComponentResolutionFailure. pres. Qed.

Lemma Pres_resolveComplexClassComponent ct p ctx md bs n :
  Modifiable n -> Pres (_resolveComplexClassComponent ct p ctx md bs n).
Proof. intros Hn. unfold _resolveComplexClassComponent. pres. Qed.

Lemma Pres_resolveSimpleClassComponent ct p ctx bs n :
  Pres (_resolveSimpleClassComponent ct p ctx bs n).
Proof. unfold _resolveSimpleClassComponent. pres. Qed.

Lemma Pres_resolveFunctionalComponent ct p ctx n :
  Pres (_resolveFunctionalComponent ct p ctx n).
Proof. unfold _resolveFunctionalComponent. pres. Qed.

Lemma Pres_getClassComponentMetadata ct p ctx :
  Pres (_getClassComponentMetadata ct p ctx).
Proof. unfold _getClassComponentMetadata. pres. Qed.

Lemma Pres_resolveReactElementHostChildren ct el ctx bs n :
  Markable n -> Pres (_resolveReactElementHostChildren rd ct el ctx bs n).
Proof. intros Hn. unfold _resolveReactElementHostChildren. pres. Qed.

#[local] Hint Resolve Pres_resolveComponentResolutionFailure
  Pres_resolveComplexClassComponent Pres_resolveSimpleClassComponent
  Pres_resolveFunctionalComponent Pres_getClassComponentMetadata
  Pres_resolveReactElementHostChildren : pres.

Lemma Pres_resolveContextProviderComponent ct el ctx bs n :
  Pres (_resolveContextProviderComponent rd ct el ctx bs n).
Proof. unfold _resolveContextProviderComponent. pres. Qed.

Lemma Pres_resolveContextConsumerComponent ct el ctx n :
  Pres (_resolveContextConsumerComponent fuel ct el ctx n).
Proof. unfold _resolveContextConsumerComponent. pres. Qed.

Lemma Pres_resolveForwardRefComponent ct el ctx bs n :
  Pres (_resolveForwardRefComponent rd ct el ctx bs n).
Proof. unfold _resolveForwardRefComponent. pres. Qed.

Lemma Pres_resolveRelayQueryRendererComponent ct el ctx n :
  Pres (_resolveRelayQueryRendererComponent fuel ct el ctx n).
Proof. unfold _resolveRelayQueryRendererComponent. pres. Qed.

Lemma Pres_resolveClassComponent ct p ctx bs n :
  Modifiable n -> Pres (_resolveClassComponent ct p ctx bs n).
Proof. intros Hn. unfold _resolveClassComponent. pres. Qed.

Lemma Pres_resolveClassComponentForFirstRenderOnly ct p ctx bs n :
  Pres (_resolveClassComponentForFirstRenderOnly ct p ctx bs n).
Proof. unfold _resolveClassComponentForFirstRenderOnly. pres. Qed.

Lemma Pres_resolveRelayContainer h p ctx bs n :
  Modifiable n -> Pres (_resolveRelayContainer rc h p ctx bs n).
Proof. intros Hn. unfold _resolveRelayContainer. pres. Qed.

#[local] Hint Resolve Pres_resolveContextProviderComponent
  Pres_resolveContextConsumerComponent Pres_resolveForwardRefComponent
  Pres_resolveRelayQueryRendererComponent Pres_resolveClassComponent
  Pres_resolveClassComponentForFirstRenderOnly Pres_resolveRelayContainer
  : pres.

Lemma Pres_resolveComponent_body ct p ctx bs n :
  Modifiable n -> Pres (_resolveComponent_body rd rc ct p ctx bs n).
Proof. intros Hn. unfold _resolveComponent_body. pres. Qed.

Lemma Pres_getComponentResolutionStrategy v :
  Pres (_getComponentResolutionStrategy v).
Proof. apply Pres_readHost. Qed.

Lemma Pres_resolveReactDomPortal v a ct ctx bs n :
  Pres (_resolveReactDomPortal rd v a ct ctx bs n).
Proof. unfold _resolveReactDomPortal. pres. Qed.

Lemma Pres_evaluateForEffects thunk :
  Pres thunk -> Pres (evaluateForEffects thunk).
Proof. intros H. unfold evaluateForEffects. pres. Qed.

Lemma Pres_evaluateWithAbstractConditional c m1 m2 :
  Pres m1 -> Pres m2 -> Pres (evaluateWithAbstractConditional c m1 m2).
Proof. intros H1 H2. unfold evaluateWithAbstractConditional. pres. Qed.

Lemma Pres_resolveAbstractConditionalValue ct c v1 v2 ctx n :
  Markable n -> Pres (_resolveAbstractConditionalValue rd ct c v1 v2 ctx n).
Proof.
  intros Hn. unfold _resolveAbstractConditionalValue.
  apply Pres_bind.
  - apply Pres_evaluateWithAbstractConditional;
      apply Pres_evaluateForEffects; apply Pres_rd; assumption.
  - intros. pres.
Qed.

#[local] Hint Resolve Pres_getComponentResolutionStrategy
  Pres_resolveReactDomPortal Pres_resolveAbstractConditionalValue : pres.

Lemma Pres_resolveAbstractValue ct v ctx bs n :
  Markable n -> Pres (_resolveAbstractValue rd ct v ctx bs n).
Proof. intros Hn. unfold _resolveAbstractValue. pres. Qed.

Lemma Pres_resolveUnknownComponentType el n :
  Pres (_resolveUnknownComponentType fuel el n).
Proof. unfold _resolveUnknownComponentType. pres. Qed.

Lemma Pres_resolveReactElementBadRef el n :
  Pres (_resolveReactElementBadRef fuel el n).
Proof. unfold _resolveReactElementBadRef. pres. Qed.

Lemma Pres_resolveReactElementUndefinedRender el n bs :
  Pres (_resolveReactElementUndefinedRender fuel el n bs).
Proof. unfold _resolveReactElementUndefinedRender. pres. Qed.

Lemma Pres_resolveFragmentComponent ct el ctx bs n :
  Pres (_resolveFragmentComponent rd ct el ctx bs n).
Proof. unfold _resolveFragmentComponent. pres. Qed.

#[local] Hint Resolve Pres_resolveAbstractValue Pres_resolveUnknownComponentType
  Pres_resolveReactElementBadRef Pres_resolveReactElementUndefinedRender
  Pres_resolveFragmentComponent : pres.

Lemma Pres_resolveReactElement ct el ctx bs n :
  Markable n -> Pres (_resolveReactElement fuel rd rc ct el ctx bs n).
Proof. intros Hn. unfold _resolveReactElement. pres. Qed.

Lemma Pres_mapArrayValue arr f :
  (forall v, Pres (f v)) -> Pres (mapArrayValue arr f).
Proof. intros H. unfold mapArrayValue. pres. Qed.

Lemma Pres_resolveArray ct v ctx bs n :
  Markable n -> Pres (_resolveArray rd ct v ctx bs n).
Proof.
  intros Hn. unfold _resolveArray.
  pres; apply Pres_mapArrayValue; intros; apply Pres_rd; assumption.
Qed.

#[local] Hint Resolve Pres_resolveReactElement Pres_resolveArray : pres.

Lemma Pres_resolveDeeply_body ct v ctx bs n :
  Markable n -> Pres (_resolveDeeply_body fuel rd rc ct v ctx bs n).
Proof. intros Hn. unfold _resolveDeeply_body. pres. Qed.

End PreservationOfResolution.

(** The two recursive methods, at every fuel. *)
Lemma Pres_resolve fuel :
  (forall ct v ctx bs n,
     Markable n -> Pres (_resolveDeeply fuel ct v ctx bs n))
  /\ (forall ct p ctx bs n,
        Modifiable n -> Pres (_resolveComponent fuel ct p ctx bs n)).
Proof.
  induction fuel as [|fuel [IHd IHc]]; split; intros; simpl;
    try apply Pres_diverge.
  - apply Pres_resolveDeeply_body; assumption.
  - apply Pres_resolveComponent_body; assumption.
Qed.

Lemma Pres_resolveDeeply fuel ct v ctx bs n :
  Markable n -> Pres (_resolveDeeply fuel ct v ctx bs n).
Proof. apply Pres_resolve. Qed.

Lemma Pres_resolveComponent fuel ct p ctx bs n :
  Modifiable n -> Pres (_resolveComponent fuel ct p ctx bs n).
Proof. apply Pres_resolve. Qed.

(** The entry points also update the memoization tables and the effects of
    the queued closures. *)
Section PreservationOfEntryPoints.

Hypothesis R_memo : forall s ct n,
  R s (set_alreadyEvaluatedRootNodes (fun m => <[ct := n]> m) s).
Hypothesis R_closureSet : forall s f,
  R s (set_alreadyEvaluatedNestedClosures (fun st => st ∪ {[f]}) s).
Hypothesis R_closures : forall s e n,
  R s (snd (_handleNestedOptimizedClosuresFromEffects e n s)).

#[local] Hint Resolve Pres_resolveDeeply Pres_resolveComponent : pres.

Lemma Pres_handleNestedOptimizedClosuresFromEffects e n :
  Pres (_handleNestedOptimizedClosuresFromEffects e n).
Proof. intros s. apply R_closures. Qed.

Lemma Pres_wrapInGlobalEnv {A} (m : M A) : Pres m -> Pres (wrapInGlobalEnv m).
Proof.
  intros H. unfold wrapInGlobalEnv. apply Pres_bind; [apply Pres_modifyRealm|].
  intros _. apply Pres_tryFinally; auto.
Qed.

Lemma Pres_evaluatePure {A} (m : M A) : Pres m -> Pres (evaluatePure m).
Proof.
  intros H. unfold evaluatePure. apply Pres_bind; [apply Pres_modifyRealm|].
  intros _. apply Pres_tryFinally; auto.
Qed.

Lemma Pres_evaluateWithNestedParentEffects {A} l (m : M A) :
  Pres m -> Pres (evaluateWithNestedParentEffects l m).
Proof.
  intros H. unfold evaluateWithNestedParentEffects.
  apply Pres_bind; [apply Pres_modifyRealm|].
  intros _. apply Pres_tryFinally; auto.
Qed.

Lemma Pres_resolveReactComponentTree fuel ct p ctx n :
  Modifiable n -> Pres (resolveReactComponentTree fuel ct p ctx n).
Proof.
  intros Hn. unfold resolveReactComponentTree. cbv zeta.
  apply Pres_bind.
  - apply Pres_wrapInGlobalEnv, Pres_evaluatePure, Pres_evaluateForEffects.
    pres.
  - intros. apply Pres_bind;
      [apply Pres_handleNestedOptimizedClosuresFromEffects | intros; pres].
Qed.

Lemma Pres_resolveNestedOptimizedClosure fuel f l ct ctx n :
  Markable n -> Pres (resolveNestedOptimizedClosure fuel f l ct ctx n).
Proof.
  intros Hn. unfold resolveNestedOptimizedClosure. cbv zeta.
  apply Pres_bind.
  - apply Pres_wrapInGlobalEnv, Pres_evaluatePure,
      Pres_evaluateWithNestedParentEffects, Pres_evaluateForEffects.
    pres.
  - intros. apply Pres_bind;
      [apply Pres_handleNestedOptimizedClosuresFromEffects | intros; pres].
Qed.

(** Every method, as a call, when every node may be assigned to. *)
Lemma Pres_finalState fuel call s :
  (forall n, Modifiable n) -> R s (finalState fuel call s).
Proof.
  intros Hall.
  assert (Hmark : forall n, Markable n)
    by (intros; apply Modifiable_Markable, Hall).
  assert (Hrd : forall ct v ctx bs n,
             Markable n -> Pres (_resolveDeeply fuel ct v ctx bs n))
    by (intros; apply Pres_resolveDeeply; assumption).
  assert (Hrc : forall ct p ctx bs n,
             Pres (_resolveComponent fuel ct p ctx bs n))
    by (intros; apply Pres_resolveComponent, Hall).
  destruct call; cbv beta iota zeta delta [finalState];
    try match goal with node : NodeRef |- _ => pose proof (Hall node) end.
  - apply Pres_resolveReactComponentTree; assumption.
  - apply Pres_handleNestedOptimizedClosuresFromEffects.
  - apply Pres_resolveNestedOptimizedClosure; auto.
  - apply Pres_queueOptimizedClosure.
  - apply Pres_queueNewComponentTree; assumption.
  - apply Pres_resolveComplexClassComponent; assumption.
  - apply Pres_resolveSimpleClassComponent.
  - apply Pres_resolveFunctionalComponent.
  - apply Pres_getClassComponentMetadata.
  - apply Pres_resolveContextProviderComponent; auto.
  - apply R_decrement.
  - apply R_increment.
  - apply Pres_hasReferenceForContextNode.
  - apply Pres_resolveContextConsumerComponent.
  - apply Pres_resolveForwardRefComponent; auto.
  - apply Pres_resolveRelayQueryRendererComponent.
  - apply Pres_resolveClassComponent; assumption.
  - apply Pres_resolveClassComponentForFirstRenderOnly.
  - apply Pres_resolveRelayContainer;
      [intros; apply Pres_resolveComponent; assumption | assumption].
  - apply Pres_resolveComponent; assumption.
  - apply Pres_getComponentResolutionStrategy.
  - apply Pres_resolveReactDomPortal; auto.
  - apply Pres_resolveAbstractConditionalValue; auto.
  - apply Pres_resolveAbstractValue; auto.
  - apply Pres_resolveUnknownComponentType.
  - apply Pres_resolveReactElementBadRef.
  - apply Pres_resolveReactElementUndefinedRender.
  - apply Pres_resolveReactElementHostChildren; auto.
  - apply Pres_resolveFragmentComponent; auto.
  - apply Pres_resolveReactElement;
      [exact Hrd | intros; apply Pres_resolveComponent; assumption | auto].
  - apply Pres_handleComponentTreeRootFailure; auto.
  - apply Pres_resolveComponentResolutionFailure; auto.
  - apply Pres_resolveDeeply; auto.
  - apply Pres_assignBailOutMessage.
  - apply Pres_resolveArray; auto.
  - apply Pres_hasEvaluatedRootNode; assumption.
  - apply Pres_hasEvaluatedNestedClosure.
  - apply Pres_findReactComponentTrees.
  - apply Pres_handleReportedSideEffect.
  - apply Pres_setContextCurrentValue.
Qed.

End PreservationOfEntryPoints.

End Preservation.

(** A relation that does not look at the report nodes at all is respected as
    soon as every elementary update respects it. *)
Section PreservationWhateverTheNodes.

Variable R : Reconciler -> Reconciler -> Prop.

Hypothesis R_refl : forall s, R s s.
Hypothesis R_trans : forall s1 s2 s3, R s1 s2 -> R s2 s3 -> R s1 s3.
Hypothesis R_realm : forall s f, R s (set_realm f s).
Hypothesis R_statistics : forall s f, R s (set_statistics f s).
Hypothesis R_logger : forall s f, R s (set_logger f s).
Hypothesis R_nodes : forall s f, R s (set_nodes f s).
Hypothesis R_arrays : forall s f, R s (set_arrays f s).

Lemma R_optimizedTrees_any s : R s (snd (optimizedTrees_increment s)).
Proof. apply R_statistics. Qed.

Lemma R_componentsEvaluated_any s :
  R s (snd (componentsEvaluated_increment s)).
Proof. apply R_statistics. Qed.

Lemma R_inlinedComponents_any s : R s (snd (inlinedComponents_increment s)).
Proof. apply R_statistics. Qed.

Lemma R_optimizedNestedClosures_any s :
  R s (snd (optimizedNestedClosures_increment s)).
Proof. apply R_statistics. Qed.

Lemma R_logger_any s line : R s (snd (logInformation line s)).
Proof. apply R_logger. Qed.

Lemma R_update_node_any s n f : True -> R s (snd (update_node n f s)).
Proof. intros _. apply R_nodes. Qed.

Lemma R_fatal_any s n msg :
  True -> R s (snd (newReconcilerFatalError msg n s)).
Proof.
  intros _. unfold newReconcilerFatalError, assign_status, assign_message.
  simpl. eapply R_trans; apply R_nodes.
Qed.

Lemma R_children_push_any s n c : R s (snd (children_push n c s)).
Proof. apply R_arrays. Qed.

Lemma R_create_any {A} st nm (k : NodeRef -> M A) :
  (forall child, True -> Pres R (k child)) ->
  Pres R (bind (createReactEvaluatedNode st nm) k).
Proof.
  intros Hk. apply Pres_bind; [exact R_trans | | auto].
  intros s. unfold createReactEvaluatedNode. simpl.
  eapply R_trans; [apply R_arrays | apply R_nodes].
Qed.

Hypothesis R_closure : forall s c,
  R s (set_nestedOptimizedClosures (fun l => l ++ [c]) s).
Hypothesis R_branch : forall s b,
  R s (set_branchedComponentTrees (fun l => l ++ [b]) s).
Hypothesis R_deadEnds : forall s,
  R s (set_componentTreeState (set_deadEnds (fun n => n + 1)) s).
Hypothesis R_componentType : forall s v,
  R s (set_componentTreeState (set_componentType v) s).
Hypothesis R_treeStatus : forall s,
  R s (set_componentTreeState (set_treeStatus COMPLEX) s).
Hypothesis R_contextTypes : forall s f,
  R s (set_componentTreeState (set_contextTypes f) s).
Hypothesis R_increment : forall s c,
  R s (snd (_incremementReferenceForContextNode c s)).
Hypothesis R_decrement : forall s c,
  R s (snd (_decremementReferenceForContextNode c s)).
Hypothesis R_memo : forall s f, R s (set_alreadyEvaluatedRootNodes f s).
Hypothesis R_closureSet :
  forall s f, R s (set_alreadyEvaluatedNestedClosures f s).
Hypothesis R_closures : forall s f, R s (set_nestedOptimizedClosures f s).

Lemma R_closures_any s e n :
  R s (snd (_handleNestedOptimizedClosuresFromEffects e n s)).
Proof. apply R_closures. Qed.

Lemma Pres_finalState_any fuel call s : R s (finalState fuel call s).
Proof.
  apply Pres_finalState with (Modifiable := fun _ => True)
      (Markable := fun _ => True);
    auto using R_update_node_any, R_fatal_any, R_children_push_any,
      R_optimizedTrees_any, R_componentsEvaluated_any,
      R_inlinedComponents_any, R_optimizedNestedClosures_any, R_logger_any,
      R_closures_any.
  intros A. apply R_create_any.
Qed.


Lemma Pres_resolveDeeply_any fuel ct v ctx bs n :
  Pres R (_resolveDeeply fuel ct v ctx bs n).
Proof.
  apply Pres_resolveDeeply with (Modifiable := fun _ => True)
      (Markable := fun _ => True);
    auto using R_update_node_any, R_fatal_any, R_children_push_any,
      R_optimizedTrees_any, R_componentsEvaluated_any,
      R_inlinedComponents_any, R_optimizedNestedClosures_any, R_logger_any,
      R_closures_any.
  intros A. apply R_create_any.
Qed.

Lemma Pres_resolveComponent_any fuel ct p ctx bs n :
  Pres R (_resolveComponent fuel ct p ctx bs n).
Proof.
  apply Pres_resolveComponent with (Modifiable := fun _ => True)
      (Markable := fun _ => True);
    auto using R_update_node_any, R_fatal_any, R_children_push_any,
      R_optimizedTrees_any, R_componentsEvaluated_any,
      R_inlinedComponents_any, R_optimizedNestedClosures_any, R_logger_any,
      R_closures_any.
  intros A. apply R_create_any.
Qed.

End PreservationWhateverTheNodes.

(** ** Dead ends only grow *)

Definition deadEnds_le (s s' : Reconciler) : Prop :=
  deadEnds (componentTreeState s) <= deadEnds (componentTreeState s').

Lemma deadEnds_le_increment s c :
  deadEnds_le s (snd (_incremementReferenceForContextNode c s)).
Proof.
  unfold deadEnds_le, _incremementReferenceForContextNode, bind, gets, modify.
  simpl. lia.
Qed.

Lemma deadEnds_le_decrement s c :
  deadEnds_le s (snd (_decremementReferenceForContextNode c s)).
Proof.
  unfold deadEnds_le, _decremementReferenceForContextNode, bind, gets, modify.
  simpl. lia.
Qed.

(** C8. Within a fold, [deadEnds] never decreases: whatever method of the
    reconciler runs, with whatever arguments, from whatever state, and whether
    it returns, throws or runs out of fuel, the counter in the state it leaves
    is at least the counter in the state it started from. *)
Theorem deadEnds_never_decreases (fuel : nat) (call : MethodCall)
    (s : Reconciler) :
  deadEnds (componentTreeState s)
  <= deadEnds (componentTreeState (finalState fuel call s)).
Proof.
  change (deadEnds_le s (finalState fuel call s)).
  apply Pres_finalState_any;
    first
      [ apply deadEnds_le_increment
      | apply deadEnds_le_decrement
      | intros; unfold deadEnds_le in *; simpl in *; lia ].
Qed.

(** The one method that lowers it is the one that starts a new fold. *)
Lemma clearComponentTreeState_resets s :
  deadEnds (componentTreeState (snd (clearComponentTreeState s))) = 0.
Proof. reflexivity. Qed.

(** ** Reference counts of contexts are never negative *)

Lemma references_after_increment s c c' :
  references (snd (_incremementReferenceForContextNode c s)) c' =
  if decide (c = c') then
    (if decide (references s c = 0) then 1 else references s c + 1)
  else references s c'.
Proof.
  unfold references, _incremementReferenceForContextNode, bind, gets, modify.
  simpl. rewrite lookup_insert. destruct (decide (c = c')) as [->|]; [|done].
  destruct (contextNodeReferences (componentTreeState s) !! c')
    as [[|p|p]|]; simpl; reflexivity.
Qed.

Lemma references_after_decrement s c c' :
  references (snd (_decremementReferenceForContextNode c s)) c' =
  if decide (c = c') then
    (if decide (references s c = 0) then 0 else references s c - 1)
  else references s c'.
Proof.
  unfold references, _decremementReferenceForContextNode, bind, gets, modify.
  simpl. rewrite lookup_insert. destruct (decide (c = c')) as [->|]; [|done].
  destruct (contextNodeReferences (componentTreeState s) !! c')
    as [[|p|p]|]; simpl; reflexivity.
Qed.

Definition keeps_nonnegative (s s' : Reconciler) : Prop :=
  references_nonnegative s -> references_nonnegative s'.

(** X18. The counts of references never become negative: whatever method
    runs, with whatever arguments and on whatever exit, if no context had a
    negative count before, none has one after (a decrement at zero stays at
    zero). *)
Lemma references_never_negative (fuel : nat) (call : MethodCall)
    (s : Reconciler) :
  references_nonnegative s -> references_nonnegative (finalState fuel call s).
Proof.
  change (keeps_nonnegative s (finalState fuel call s)).
  apply Pres_finalState_any; unfold keeps_nonnegative, references_nonnegative;
    try (intros; unfold references in *; simpl in *; auto; fail).
  - intros s0 c H c'. rewrite references_after_increment.
    specialize (H c) as Hc. specialize (H c').
    repeat case_decide; lia.
  - intros s0 c H c'. rewrite references_after_decrement.
    specialize (H c) as Hc. specialize (H c').
    repeat case_decide; lia.
Qed.

(** A fold starts with no count at all. *)
Lemma references_nonnegative_initially r config st lg nds arrs :
  references_nonnegative (new_Reconciler r config st lg nds arrs).
Proof. intros c. unfold references. simpl. rewrite lookup_empty. simpl. lia. Qed.

(** ** Running the monad *)

Lemma bind_Ok_inv {A B} (m : M A) (k : A -> M B) s b s' :
  bind m k s = (Ok b, s') ->
  exists a s1, m s = (Ok a, s1) /\ k a s1 = (Ok b, s').
Proof.
  unfold bind. destruct (m s) as [[a|e|] s1]; intros H; try discriminate.
  exists a, s1. auto.
Qed.

Lemma bind_inv {A B} (m : M A) (k : A -> M B) s r s' :
  bind m k s = (r, s') ->
  (exists a s1, m s = (Ok a, s1) /\ k a s1 = (r, s'))
  \/ (exists e, m s = (Throw e, s') /\ r = Throw e)
  \/ (m s = (Diverge, s') /\ r = Diverge).
Proof.
  unfold bind. destruct (m s) as [[a|e|] s1]; intros H.
  - left. exists a, s1. auto.
  - right. left. exists e. inversion H. auto.
  - right. right. inversion H. auto.
Qed.

Lemma bind_Ok_run {A B} (m : M A) (k : A -> M B) s a s1 :
  m s = (Ok a, s1) -> bind m k s = k a s1.
Proof. unfold bind. intros ->. reflexivity. Qed.


Lemma bind_readHost {A B} (f : Realm -> A) (k : A -> M B) s :
  bind (readHost f) k s = k (f (realm s)) s.
Proof. reflexivity. Qed.

Lemma bind_gets {A B} (f : Reconciler -> A) (k : A -> M B) s :
  bind (gets f) k s = k (f s) s.
Proof. reflexivity. Qed.

Lemma bind_ret {A B} (a : A) (k : A -> M B) s : bind (ret a) k s = k a s.
Proof. reflexivity. Qed.

Lemma bind_invariant_true {B} msg (k : unit -> M B) s :
  bind (invariant true msg) k s = k tt s.
Proof. reflexivity. Qed.

(** ** Assigning to a report node *)

Lemma node_at_update_node n f s :
  node_at (snd (update_node n f s)) n = f (node_at s n).
Proof.
  unfold update_node, modify, node_at. cbn. rewrite lookup_insert_eq.
  reflexivity.
Qed.

Lemma node_at_update_node_ne n m f s :
  m <> n -> node_at (snd (update_node n f s)) m = node_at s m.
Proof.
  intros H. unfold update_node, modify, node_at. cbn.
  rewrite lookup_insert_ne by congruence. reflexivity.
Qed.

(** What the constructor of the fatal error leaves: the node it was given is
    marked, and nothing else changes. *)
Lemma newReconcilerFatalError_marks msg n s :
  exists s',
    newReconcilerFatalError msg n s = (Ok (ReconcilerFatalError msg n), s')
    /\ status (node_at s' n) = NODE_FATAL
    /\ message (node_at s' n) = Some msg
    /\ children (node_at s' n) = children (node_at s n)
    /\ name (node_at s' n) = name (node_at s n)
    /\ (forall m, m <> n -> nodes s' !! m = nodes s !! m)
    /\ set_nodes (fun _ => nodes s) s' = s.
Proof.
  eexists. split; [reflexivity|].
  unfold node_at. cbn. rewrite !lookup_insert_eq. cbn.
  repeat split; try reflexivity.
  - intros m Hm. rewrite !lookup_insert_ne by congruence. reflexivity.
  - destruct s; reflexivity.
Qed.

(** ** C2: queueing an optimized closure *)

(** C2 (as the code has it). [_queueOptimizedClosure] returns, and the state
    it leaves is the state it started from with exactly one record appended
    to [nestedOptimizedClosures] when [realm.react.optimizeNestedFunctions]
    is set, and the same state when it is not.  It neither reads nor writes
    [alreadyEvaluatedNestedClosures]: a function that is in the set, or that
    is queued already, is queued again. *)
Theorem queueOptimizedClosure_appends (func : Value) (evaluatedNode : NodeRef)
    (componentType context : option Value) (s : Reconciler) :
  _queueOptimizedClosure func evaluatedNode componentType context s =
  (Ok tt,
   if react_optimizeNestedFunctions (realm s) then
     set_nestedOptimizedClosures
       (fun l => l ++ [mkOptimizedClosure evaluatedNode func [] componentType
                         context]) s
   else s).
Proof.
  unfold _queueOptimizedClosure, bind, readHost, modify, ret. simpl.
  destruct (react_optimizeNestedFunctions (realm s)); reflexivity.
Qed.

(** The set is filled when a closure is resolved, and read by the driver. *)
Lemma hasEvaluatedNestedClosure_reads func s :
  hasEvaluatedNestedClosure func s =
  (Ok (bool_decide (func ∈ alreadyEvaluatedNestedClosures s)), s).
Proof. reflexivity. Qed.

(** ** C9: bail-out messages accumulate *)

(** C9. Two bail-out reasons assigned to the same element, one after the
    other, leave one [$BailOutReason]: both reasons, each behind its
    "Bail-out: " prefix, the first before the second, with ", " between
    them, and after whatever the element held before. *)
Theorem bailOut_messages_accumulate (reactElement : Value) (m1 m2 : string)
    (s : Reconciler) :
  let s' :=
    snd ((_assignBailOutMessage reactElement m1 ;!
          _assignBailOutMessage reactElement m2) s) in
  BailOutReason (realm s') !! reactElement =
  Some (match BailOutReason (realm s) !! reactElement with
        | None => ("Bail-out: " +:+ m1) +:+ ", " +:+ ("Bail-out: " +:+ m2)
        | Some reason =>
            (reason +:+ ", " +:+ ("Bail-out: " +:+ m1))
            +:+ ", " +:+ ("Bail-out: " +:+ m2)
        end).
Proof.
  unfold _assignBailOutMessage, bind, modifyRealm, modify. simpl.
  rewrite lookup_insert_eq, lookup_insert_eq.
  destruct (BailOutReason (realm s) !! reactElement); reflexivity.
Qed.

(** A first reason on an element that has none is stored as it is. *)
Lemma bailOut_message_first reactElement m s :
  BailOutReason (realm s) !! reactElement = None ->
  BailOutReason (realm (snd (_assignBailOutMessage reactElement m s)))
    !! reactElement = Some ("Bail-out: " +:+ m).
Proof.
  intros H. unfold _assignBailOutMessage, modifyRealm, modify. simpl.
  rewrite lookup_insert_eq, H. reflexivity.
Qed.

(** ** The memoization of roots *)

(** When the component is in [alreadyEvaluatedRootNodes],
    [hasEvaluatedRootNode] returns [true] and the report node it was given
    now has the children (the very array), the status and the name of the
    memoized node, and keeps its own message.  Nothing else changes: the
    realm, in which user code would run, the tree state, the queues, the
    arrays of children and every other node are as before. *)
Lemma hasEvaluatedRootNode_copies (componentType : Value)
    (evaluateNode alreadyEvaluatedNode : NodeRef) (s : Reconciler) :
  alreadyEvaluatedRootNodes s !! componentType = Some alreadyEvaluatedNode ->
  exists s',
    hasEvaluatedRootNode componentType evaluateNode s = (Ok true, s')
    /\ children (node_at s' evaluateNode)
       = children (node_at s alreadyEvaluatedNode)
    /\ status (node_at s' evaluateNode) = status (node_at s alreadyEvaluatedNode)
    /\ name (node_at s' evaluateNode) = name (node_at s alreadyEvaluatedNode)
    /\ message (node_at s' evaluateNode) = message (node_at s evaluateNode)
    /\ children_of s' evaluateNode = children_of s alreadyEvaluatedNode
    /\ (forall n, n <> evaluateNode -> nodes s' !! n = nodes s !! n)
    /\ arrays s' = arrays s
    /\ realm s' = realm s
    /\ statistics s' = statistics s
    /\ componentTreeState s' = componentTreeState s
    /\ alreadyEvaluatedRootNodes s' = alreadyEvaluatedRootNodes s
    /\ nestedOptimizedClosures s' = nestedOptimizedClosures s
    /\ branchedComponentTrees s' = branchedComponentTrees s.
Proof.
  intros Hmemo. eexists. split.
  - unfold hasEvaluatedRootNode, bind, gets. simpl. rewrite Hmemo.
    unfold assign_children, assign_status, assign_name, update_node, modify,
      bind, ret. simpl. reflexivity.
  - unfold children_of, array_at, node_at. simpl.
    rewrite !lookup_insert_eq. simpl.
    destruct (decide (evaluateNode = alreadyEvaluatedNode)) as [->|Hne].
    + rewrite !lookup_insert_eq. simpl. repeat split; try reflexivity.
      intros n Hn. rewrite !lookup_insert_ne by congruence. reflexivity.
    + rewrite !lookup_insert_ne by congruence. simpl.
      repeat split; try reflexivity.
      intros n Hn. rewrite !lookup_insert_ne by congruence. reflexivity.
Qed.

(** A component that is not in the table: [false], and nothing changes. *)
Lemma hasEvaluatedRootNode_unknown componentType evaluateNode s :
  alreadyEvaluatedRootNodes s !! componentType = None ->
  hasEvaluatedRootNode componentType evaluateNode s = (Ok false, s).
Proof.
  intros H. unfold hasEvaluatedRootNode, bind, gets. simpl. rewrite H.
  reflexivity.
Qed.

(** ** C6: queueing a new component tree *)

(** A root value that is none of a symbol, a source function or an abstract
    value breaks the invariant of line 315, before anything is counted. *)
Lemma queueNewComponentTree_invariant rootValue evaluatedNode props context s :
  instanceof rootValue SymbolValue = false ->
  instanceof rootValue ECMAScriptSourceFunctionValue = false ->
  instanceof rootValue AbstractValue = false ->
  _queueNewComponentTree rootValue evaluatedNode props context s =
  (Throw (InvariantViolation EmptyString), s).
Proof.
  intros H1 H2 H3. unfold _queueNewComponentTree. rewrite H1, H2, H3.
  reflexivity.
Qed.

(** What the method does with a root value that it accepts and that is not a
    symbol. *)
Lemma queueNewComponentTree_accepts rootValue evaluatedNode props context s :
  instanceof rootValue SymbolValue = false ->
  instanceof rootValue ECMAScriptSourceFunctionValue
  || instanceof rootValue AbstractValue = true ->
  exists s',
    _queueNewComponentTree rootValue evaluatedNode props context s = (Ok tt, s')
    /\ componentTreeState s'
       = set_deadEnds (fun n => n + 1) (componentTreeState s)
    /\ realm s' = realm s
    /\ branchedComponentTrees s' =
       branchedComponentTrees s ++
       match getComponentTypeFromRootValue host (realm s) rootValue with
       | Some componentType =>
           if bool_decide
                (is_Some (alreadyEvaluatedRootNodes s !! componentType))
           then []
           else [mkBranch context evaluatedNode props rootValue]
       | None => []
       end
    /\ alreadyEvaluatedRootNodes s' = alreadyEvaluatedRootNodes s
    /\ nestedOptimizedClosures s' = nestedOptimizedClosures s.
Proof.
  intros Hsym Hvalid. unfold _queueNewComponentTree. rewrite Hsym, Hvalid.
  unfold bind, invariant, ret, deadEnds_increment, modify, readHost. simpl.
  destruct (getComponentTypeFromRootValue host (realm s) rootValue)
    as [ct|] eqn:Hct.
  - unfold hasEvaluatedRootNode, bind, gets. simpl.
    destruct (alreadyEvaluatedRootNodes s !! ct) as [memo|] eqn:Hmemo.
    + eexists. split; [reflexivity|]. simpl.
      rewrite app_nil_r. repeat split; reflexivity.
    + eexists. split; [reflexivity|]. simpl.
      repeat split; reflexivity.
  - eexists. split; [reflexivity|]. simpl.
    rewrite app_nil_r. repeat split; reflexivity.
Qed.

(** C6 (as the code has it). Every call of [_queueNewComponentTree] is one of
    three:
    - a symbol is ignored: the call returns and the state stays as it is;
    - a root value that is neither a source function nor an abstract value
      (the type of an element that is an object, handed over at line 1276,
      is one) breaks the invariant of line 315: the call throws, [deadEnds]
      is not incremented and the state stays as it is;
    - for a source function or an abstract value the call returns, [deadEnds]
      has grown by one, and one branch record, made of the arguments, is
      appended when the root value has a component type that is not in
      [alreadyEvaluatedRootNodes], and none is appended in the other cases;
      the realm, the memoization table and the queue of closures stay. *)
Theorem queueNewComponentTree_branches (rootValue : Value)
    (evaluatedNode : NodeRef) (props context : option Value) (s : Reconciler) :
  if instanceof rootValue SymbolValue then
    _queueNewComponentTree rootValue evaluatedNode props context s = (Ok tt, s)
  else if instanceof rootValue ECMAScriptSourceFunctionValue
          || instanceof rootValue AbstractValue then
    exists s',
      _queueNewComponentTree rootValue evaluatedNode props context s
      = (Ok tt, s')
      /\ deadEnds (componentTreeState s')
         = deadEnds (componentTreeState s) + 1
      /\ branchedComponentTrees s' =
         branchedComponentTrees s ++
         match getComponentTypeFromRootValue host (realm s) rootValue with
         | Some componentType =>
             if bool_decide
                  (is_Some (alreadyEvaluatedRootNodes s !! componentType))
             then []
             else [mkBranch context evaluatedNode props rootValue]
         | None => []
         end
      /\ realm s' = realm s
      /\ alreadyEvaluatedRootNodes s' = alreadyEvaluatedRootNodes s
      /\ nestedOptimizedClosures s' = nestedOptimizedClosures s
  else
    _queueNewComponentTree rootValue evaluatedNode props context s
    = (Throw (InvariantViolation EmptyString), s).
Proof.
  destruct (instanceof rootValue SymbolValue) eqn:Hsym.
  - unfold _queueNewComponentTree. rewrite Hsym. reflexivity.
  - destruct (instanceof rootValue ECMAScriptSourceFunctionValue
              || instanceof rootValue AbstractValue) eqn:Hvalid.
    + destruct (queueNewComponentTree_accepts rootValue evaluatedNode props
                  context s Hsym Hvalid)
        as (s' & Hrun & Hcts & Hrealm & Hbr & Hmemo & Hcl).
      exists s'. rewrite Hcts. repeat split; assumption.
    + apply orb_false_iff in Hvalid as [H1 H2].
      apply queueNewComponentTree_invariant; assumption.
Qed.

(** ** C4: a complex class component below the root *)

(** The condition of lines 340-345. *)
Definition absorbable (s : Reconciler) (componentType : Value)
    (branchStatus : BranchStatusEnum) : bool :=
  bool_decide (branchStatus = NO_BRANCH)
  && bool_decide (treeStatus (componentTreeState s) = SIMPLE)
  && match alreadyEvaluatedRootNodes s !! componentType with
     | Some n => negb (bool_decide (status (node_at s n) = NODE_RENDER_PROPS))
     | None => false
     end.

(** At the root, the tree becomes complex and the class is instantiated and
    rendered by the evaluator: nothing else of the reconciler changes. *)
Lemma resolveComplexClassComponent_at_root componentType props context md
    evaluatedNode s r s' :
  _resolveComplexClassComponent componentType props context md ROOT
    evaluatedNode s = (r, s') ->
  set_realm (fun _ => realm s) s'
  = set_componentTreeState (set_treeStatus COMPLEX) s.
Proof.
  unfold _resolveComplexClassComponent, bind, modify, ret, liftHost, invariant,
    throw.
  simpl.
  destruct (createClassInstance host componentType props context md (realm s))
    as [[instance|e|] r1]; simpl; try (intros [= <- <-]; reflexivity).
  destruct (Get host instance "render" r1) as [[renderMethod|e|] r2]; simpl;
    try (intros [= <- <-]; reflexivity).
  destruct (instanceof renderMethod ECMAScriptSourceFunctionValue); simpl;
    try (intros [= <- <-]; reflexivity).
  destruct (getValueFromFunctionCall host renderMethod instance [] r2)
    as [res r3]; simpl.
  intros H. injection H as <- <-. reflexivity.
Qed.

(** The report node that [_queueNewComponentTree] was given: for a component
    that is memoized already it takes over the children and the name of the
    memoized node; nothing else of it changes but its status. *)
Lemma queueNewComponentTree_node rootValue evaluatedNode props context s s' :
  _queueNewComponentTree rootValue evaluatedNode props context s = (Ok tt, s') ->
  let memoized :=
    match getComponentTypeFromRootValue host (realm s) rootValue with
    | Some componentType =>
        if instanceof rootValue SymbolValue then None
        else alreadyEvaluatedRootNodes s !! componentType
    | None => None
    end in
  children (node_at s' evaluatedNode)
  = children (node_at s (default evaluatedNode memoized))
  /\ name (node_at s' evaluatedNode)
     = name (node_at s (default evaluatedNode memoized))
  /\ message (node_at s' evaluatedNode) = message (node_at s evaluatedNode)
  /\ (forall n, n <> evaluatedNode -> nodes s' !! n = nodes s !! n)
  /\ arrays s' = arrays s.
Proof.
  unfold _queueNewComponentTree.
  destruct (instanceof rootValue SymbolValue).
  { intros [= <-]. cbv zeta.
    destruct (getComponentTypeFromRootValue host (realm s) rootValue);
      repeat split; reflexivity. }
  destruct (instanceof rootValue ECMAScriptSourceFunctionValue
            || instanceof rootValue AbstractValue); [|discriminate].
  unfold bind, invariant, ret, deadEnds_increment, modify, readHost.
  cbn [fst snd realm set_componentTreeState].
  destruct (getComponentTypeFromRootValue host (realm s) rootValue)
    as [ct|]; cbv zeta.
  2:{ intros [= <-]. repeat split; reflexivity. }
  destruct (alreadyEvaluatedRootNodes s !! ct) as [memo|] eqn:Hmemo.
  - set (s1 := set_componentTreeState (set_deadEnds (fun n => n + 1)) s).
    destruct (hasEvaluatedRootNode_copies ct evaluatedNode memo s1 Hmemo)
      as (s2 & Hrun & Hc & _ & Hn & Hm & _ & Hother & Harr & _).
    rewrite Hrun. cbn [negb]. intros [= <-]. cbn [default].
    repeat split; assumption.
  - unfold hasEvaluatedRootNode, bind, gets.
    cbn [fst snd alreadyEvaluatedRootNodes set_componentTreeState].
    rewrite Hmemo. cbn. intros [= <-]. repeat split; reflexivity.
Qed.

(** C4 (as the code has it). A complex class component resolved below the
    root (the component is a source function, as [_resolveComponent] has
    checked):
    - when the branch status is [NO_BRANCH], the tree is still [SIMPLE] and the
      component has an evaluated root node whose status is not
      [RENDER_PROPS], it becomes the component type of the tree and is then
      resolved exactly as a root is;
    - in every other case [NewComponentTreeBranch] is thrown with the report
      node, which is marked [NEW_TREE], and [deadEnds] has grown by one; the
      component is queued as a new root (one branch record appended to
      [branchedComponentTrees]) only when it has a component type that is
      not in [alreadyEvaluatedRootNodes] yet: a component that was folded as
      a root already is not queued, and the report node takes over the
      children and the name of its memoized node; the component type and the
      status of the tree, the realm and the memoization table stay;
    - wherever the resolution goes on (as at the root), the tree is [COMPLEX]
      in the state it leaves. *)
Theorem complex_class_absorbed_or_queued (component props context : Value)
    (classMetadata : ClassComponentMetadata) (branchStatus : BranchStatusEnum)
    (evaluatedNode : NodeRef) (s : Reconciler) :
  branchStatus <> ROOT ->
  instanceof component ECMAScriptSourceFunctionValue = true ->
  (if absorbable s component branchStatus then
     _resolveComplexClassComponent component props context classMetadata
       branchStatus evaluatedNode s
     = _resolveComplexClassComponent component props context classMetadata
         ROOT evaluatedNode
         (set_componentTreeState (set_componentType (Some component)) s)
   else
     let memoized :=
       match getComponentTypeFromRootValue host (realm s) component with
       | Some root => alreadyEvaluatedRootNodes s !! root
       | None => None
       end in
     exists s',
       _resolveComplexClassComponent component props context classMetadata
         branchStatus evaluatedNode s
       = (Throw (NewComponentTreeBranch evaluatedNode), s')
       /\ branchedComponentTrees s' =
          branchedComponentTrees s ++
          match getComponentTypeFromRootValue host (realm s) component with
          | Some root =>
              if bool_decide (is_Some (alreadyEvaluatedRootNodes s !! root))
              then []
              else [mkBranch None evaluatedNode None component]
          | None => []
          end
       /\ status (node_at s' evaluatedNode) = NODE_NEW_TREE
       /\ children (node_at s' evaluatedNode)
          = children (node_at s (default evaluatedNode memoized))
       /\ name (node_at s' evaluatedNode)
          = name (node_at s (default evaluatedNode memoized))
       /\ deadEnds (componentTreeState s')
          = deadEnds (componentTreeState s) + 1
       /\ componentType (componentTreeState s')
          = componentType (componentTreeState s)
       /\ treeStatus (componentTreeState s')
          = treeStatus (componentTreeState s)
       /\ realm s' = realm s
       /\ alreadyEvaluatedRootNodes s' = alreadyEvaluatedRootNodes s)
  /\ (forall r s',
        _resolveComplexClassComponent component props context
          classMetadata ROOT evaluatedNode
          (set_componentTreeState (set_componentType (Some component)) s)
        = (r, s') ->
        treeStatus (componentTreeState s') = COMPLEX
        /\ componentType (componentTreeState s') = Some component).
Proof.
  intros Hbs Hfun. split.
  - unfold absorbable, _resolveComplexClassComponent.
    rewrite (bool_decide_eq_false_2 (branchStatus = ROOT)) by assumption.
    rewrite (bool_decide_eq_true_2 (ROOT = ROOT)) by reflexivity.
    cbn [negb]. cbv beta iota zeta delta [bind gets].
    lazymatch goal with
    | |- if ?c then _ else _ => destruct c eqn:Hcond
    end.
    + reflexivity.
    + assert (Hsym : instanceof component SymbolValue = false).
      { revert Hfun. unfold instanceof. destruct (vclass component); done. }
      assert (Hvalid : instanceof component ECMAScriptSourceFunctionValue
                       || instanceof component AbstractValue = true).
      { rewrite Hfun. reflexivity. }
      destruct (queueNewComponentTree_accepts component evaluatedNode None
                  None s Hsym Hvalid)
        as (s1 & Hrun & Hcts & Hrealm & Hbr & Hmemo & _).
      pose proof (queueNewComponentTree_node component evaluatedNode None
                    None s s1 Hrun) as Hnode.
      cbv zeta in Hnode. rewrite Hsym in Hnode.
      destruct Hnode as (Hc & Hn & _).
      rewrite Hrun.
      exists (snd (assign_status evaluatedNode NODE_NEW_TREE s1)).
      split; [reflexivity|].
      cbv zeta. unfold assign_status.
      rewrite !node_at_update_node. cbn [status children name].
      cbn. rewrite Hcts.
      replace (match getComponentTypeFromRootValue host (realm s) component with
               | Some root => alreadyEvaluatedRootNodes s !! root
               | None => None
               end)
        with (match getComponentTypeFromRootValue host (realm s) component with
              | Some componentType => alreadyEvaluatedRootNodes s !! componentType
              | None => None
              end) by reflexivity.
      repeat split; assumption || reflexivity.
  - intros r s' Hrun.
    apply resolveComplexClassComponent_at_root in Hrun.
    apply (f_equal componentTreeState) in Hrun. cbn in Hrun.
    rewrite Hrun. split; reflexivity.
Qed.

(** ** The current value of a context *)

(** [contextObject.properties.get("currentValue").descriptor.value] *)
Definition currentValue_binding (r : Realm) (contextObject : Value)
    : option Value :=
  match properties_get r contextObject "currentValue" with
  | Some binding =>
      match descriptor binding with
      | Some d => d_value d
      | None => None
      end
  | None => None
  end.

Lemma assoc_get_update {A} k (f : A -> A) l :
  assoc_get k (assoc_update k f l) = f <$> assoc_get k l.
Proof.
  induction l as [|[k' a] l IH]; simpl; [reflexivity|].
  destruct (decide (k = k')) as [->|Hne]; simpl.
  - rewrite decide_True by reflexivity. reflexivity.
  - rewrite decide_False by assumption. exact IH.
Qed.

Lemma instanceof_ObjectValue_not_abstract v :
  instanceof v ObjectValue = true -> instanceof v AbstractObjectValue = false.
Proof. unfold instanceof. destruct (vclass v); done. Qed.

Lemma instanceof_function_not_symbol v :
  instanceof v ECMAScriptSourceFunctionValue = true ->
  instanceof v SymbolValue = false.
Proof. unfold instanceof. destruct (vclass v); done. Qed.

(** On a concrete context object, a successful [setContextCurrentValue]
    writes the value into the descriptor of [currentValue], and nothing else. *)
Lemma setContextCurrentValue_assigns contextObject value s s' :
  instanceof contextObject ObjectValue = true ->
  setContextCurrentValue contextObject value s = (Ok tt, s') ->
  s' = set_realm (assign_descriptor_value contextObject "currentValue" value) s
  /\ currentValue_binding (realm s') contextObject = Some value.
Proof.
  intros Hobj. unfold setContextCurrentValue.
  rewrite (instanceof_ObjectValue_not_abstract _ Hobj).
  unfold bind, readHost, ret, throw, modifyRealm, modify. cbn [andb fst snd].
  rewrite Hobj. cbn [negb].
  destruct (properties_get (realm s) contextObject "currentValue")
    as [[[d|]]|] eqn:Hget; try discriminate.
  intros H. injection H as <-. split; [reflexivity|].
  unfold currentValue_binding, properties_get, properties_of,
    assign_descriptor_value, set_properties. cbn.
  rewrite lookup_insert_eq. cbn. rewrite assoc_get_update.
  unfold properties_get in Hget. rewrite Hget. reflexivity.
Qed.

(** Whatever it does, [setContextCurrentValue] touches the realm only. *)
Definition realm_only (s s' : Reconciler) : Prop :=
  exists rl, s' = set_realm (fun _ => rl) s.

Lemma realm_only_refl s : realm_only s s.
Proof. exists (realm s). destruct s; reflexivity. Qed.

Lemma realm_only_trans s1 s2 s3 :
  realm_only s1 s2 -> realm_only s2 s3 -> realm_only s1 s3.
Proof. intros [r1 ->] [r2 ->]. exists r2. reflexivity. Qed.

Lemma realm_only_set_realm s f : realm_only s (set_realm f s).
Proof. exists (f (realm s)). reflexivity. Qed.

Lemma setContextCurrentValue_realm_only contextObject value s :
  realm_only s (snd (setContextCurrentValue contextObject value s)).
Proof.
  apply (Pres_setContextCurrentValue realm_only).
  - exact realm_only_refl.
  - exact realm_only_trans.
  - exact realm_only_set_realm.
Qed.



(** ** What a resolution leaves of the report

    A method assigns the fields of the report node it was given and of the
    nodes it makes, and pushes children: the report nodes that were there and
    that it was not given are as they were, and the arrays of children only
    grow at their end. *)

Definition nodes_kept (N0 : gset NodeRef) (s s' : Reconciler) : Prop :=
  N0 ⊆ dom (nodes s) -> forall n, n ∈ N0 -> nodes s' !! n = nodes s !! n.

Definition arrays_grow (s s' : Reconciler) : Prop :=
  forall a l, arrays s !! a = Some l ->
    exists later, arrays s' !! a = Some (l ++ later).

Lemma nodes_kept_refl N0 s : nodes_kept N0 s s.
Proof. intros _ n _. reflexivity. Qed.

Lemma nodes_kept_trans N0 s1 s2 s3 :
  nodes_kept N0 s1 s2 -> nodes_kept N0 s2 s3 -> nodes_kept N0 s1 s3.
Proof.
  intros H12 H23 Hsub n Hn. rewrite H23; auto.
  intros m Hm. apply elem_of_dom. rewrite H12 by assumption.
  apply elem_of_dom, Hsub, Hm.
Qed.

Lemma nodes_kept_same N0 s s' : nodes s' = nodes s -> nodes_kept N0 s s'.
Proof. intros Heq _ n _. rewrite Heq. reflexivity. Qed.

Lemma nodes_kept_update_node N0 s n f :
  n ∉ N0 -> nodes_kept N0 s (snd (update_node n f s)).
Proof.
  intros Hn _ m Hm. unfold update_node, modify. simpl.
  apply lookup_insert_ne. intros ->. contradiction.
Qed.

Lemma nodes_kept_create N0 {A} st nm (k : NodeRef -> M A) :
  (forall child, child ∉ N0 -> Pres (nodes_kept N0) (k child)) ->
  Pres (nodes_kept N0) (bind (createReactEvaluatedNode st nm) k).
Proof.
  intros Hk s Hsub. unfold bind, createReactEvaluatedNode.
  set (child := fresh (dom (nodes s))).
  assert (Hchild : child ∉ N0).
  { intros Hin. apply (is_fresh (dom (nodes s))), Hsub, Hin. }
  lazymatch goal with
  | |- context [k child ?st] => set (s1 := st); specialize (Hk child Hchild s1)
  end.
  cbv beta iota zeta. destruct (k child s1) as [r s2]. cbn [snd] in *.
  intros n Hn. rewrite Hk; [| |assumption].
  - subst s1. simpl. apply lookup_insert_ne. intros <-. contradiction.
  - subst s1. simpl. rewrite dom_insert. set_solver.
Qed.

Lemma arrays_grow_refl s : arrays_grow s s.
Proof. intros a l H. exists []. rewrite app_nil_r. exact H. Qed.

Lemma arrays_grow_trans s1 s2 s3 :
  arrays_grow s1 s2 -> arrays_grow s2 s3 -> arrays_grow s1 s3.
Proof.
  intros H12 H23 a l H. apply H12 in H as [l1 H]. apply H23 in H as [l2 H].
  exists (l1 ++ l2). rewrite app_assoc. exact H.
Qed.

Lemma arrays_grow_same s s' : arrays s' = arrays s -> arrays_grow s s'.
Proof. intros Heq a l H. exists []. rewrite Heq, app_nil_r. exact H. Qed.

Lemma arrays_grow_children_push s n c :
  arrays_grow s (snd (children_push n c s)).
Proof.
  intros a l H. unfold children_push, modify. simpl.
  destruct (decide (children (node_at s n) = a)) as [->|Hne].
  - exists [c]. rewrite lookup_insert_eq. unfold array_at. rewrite H.
    reflexivity.
  - exists []. rewrite lookup_insert_ne, app_nil_r by assumption. exact H.
Qed.

Lemma arrays_grow_create {A} st nm (k : NodeRef -> M A) :
  (forall child, True -> Pres arrays_grow (k child)) ->
  Pres arrays_grow (bind (createReactEvaluatedNode st nm) k).
Proof.
  intros Hk. apply Pres_bind; [exact arrays_grow_trans | | auto].
  intros s a l H. unfold createReactEvaluatedNode. simpl.
  exists []. rewrite app_nil_r, lookup_insert_ne; [exact H|].
  intros <-. apply (is_fresh (dom (arrays s))), elem_of_dom. eauto.
Qed.

Ltac same_report :=
  first [ apply nodes_kept_same | apply arrays_grow_same ];
  unfold _incremementReferenceForContextNode,
    _decremementReferenceForContextNode, update_node, bind, gets, modify;
  reflexivity.

(** The search of nested trees, from a state whose report nodes are [N0]. *)
Lemma findReactComponentTrees_keeps_nodes fuel v n t ct ctx s m :
  is_Some (nodes s !! m) ->
  nodes (snd (_findReactComponentTrees fuel v n t ct ctx s)) !! m
  = nodes s !! m.
Proof.
  intros Hm.
  apply (Pres_findReactComponentTrees (nodes_kept (dom (nodes s)))
           (fun n => n ∉ dom (nodes s)));
    first
      [ apply nodes_kept_refl
      | apply nodes_kept_trans
      | intros; apply nodes_kept_update_node; assumption
      | intros A; apply nodes_kept_create
      | intros; same_report
      | reflexivity
      | apply elem_of_dom, Hm ].
Qed.


Lemma nodes_kept_fatal N0 s n msg :
  n ∉ N0 -> nodes_kept N0 s (snd (newReconcilerFatalError msg n s)).
Proof.
  intros Hn _ m Hm. cbn.
  rewrite !lookup_insert_ne by (intros ->; contradiction). reflexivity.
Qed.

(** A report node that a fatal error has marked keeps its children and its
    name; its status is FATAL and it has a message. *)
Definition marked_or_same (nd nd' : ReactEvaluatedNode) : Prop :=
  children nd' = children nd /\ name nd' = name nd
  /\ (nd' = nd \/ (status nd' = NODE_FATAL /\ is_Some (message nd'))).

Definition nodes_marked (N0 : gset NodeRef) (s s' : Reconciler) : Prop :=
  N0 ⊆ dom (nodes s) ->
  forall n, n ∈ N0 ->
    exists nd nd',
      nodes s !! n = Some nd /\ nodes s' !! n = Some nd'
      /\ marked_or_same nd nd'.

Lemma marked_or_same_refl nd : marked_or_same nd nd.
Proof. repeat split; auto. Qed.

Lemma marked_or_same_trans nd1 nd2 nd3 :
  marked_or_same nd1 nd2 -> marked_or_same nd2 nd3 -> marked_or_same nd1 nd3.
Proof.
  intros (Hc1 & Hn1 & H1) (Hc2 & Hn2 & H2).
  split; [congruence|]. split; [congruence|].
  destruct H2 as [->|H2]; [exact H1|right; exact H2].
Qed.

Lemma nodes_marked_same N0 s s' : nodes s' = nodes s -> nodes_marked N0 s s'.
Proof.
  intros Heq Hsub n Hn.
  destruct (proj1 (elem_of_dom _ _) (Hsub n Hn)) as [nd Hnd].
  exists nd, nd. rewrite Heq. auto using marked_or_same_refl.
Qed.

Lemma nodes_marked_refl N0 s : nodes_marked N0 s s.
Proof. apply nodes_marked_same. reflexivity. Qed.

Lemma nodes_marked_trans N0 s1 s2 s3 :
  nodes_marked N0 s1 s2 -> nodes_marked N0 s2 s3 -> nodes_marked N0 s1 s3.
Proof.
  intros H12 H23 Hsub n Hn.
  destruct (H12 Hsub n Hn) as (nd1 & nd2 & Hnd1 & Hnd2 & Hm12).
  assert (Hsub2 : N0 ⊆ dom (nodes s2)).
  { intros m Hm. destruct (H12 Hsub m Hm) as (? & ? & _ & H & _).
    apply elem_of_dom. eauto. }
  destruct (H23 Hsub2 n Hn) as (nd2' & nd3 & Hnd2' & Hnd3 & Hm23).
  rewrite Hnd2 in Hnd2'. injection Hnd2' as <-.
  exists nd1, nd3. eauto using marked_or_same_trans.
Qed.

Lemma nodes_marked_update_node N0 s n f :
  n ∉ N0 -> nodes_marked N0 s (snd (update_node n f s)).
Proof.
  intros Hn Hsub m Hm.
  destruct (proj1 (elem_of_dom _ _) (Hsub m Hm)) as [nd Hnd].
  exists nd, nd. split; [exact Hnd|]. split; [|apply marked_or_same_refl].
  unfold update_node, modify. cbn.
  rewrite lookup_insert_ne by (intros ->; contradiction). exact Hnd.
Qed.

Lemma nodes_marked_fatal N0 s n msg :
  nodes_marked N0 s (snd (newReconcilerFatalError msg n s)).
Proof.
  intros Hsub m Hm.
  destruct (proj1 (elem_of_dom _ _) (Hsub m Hm)) as [nd Hnd].
  destruct (decide (m = n)) as [->|Hne].
  - exists nd. eexists. split; [exact Hnd|]. split.
    + cbn. rewrite lookup_insert_eq. reflexivity.
    + unfold node_at. cbn. rewrite !lookup_insert_eq. cbn. rewrite Hnd. cbn.
      repeat split; try reflexivity. right. split; [reflexivity|eauto].
  - exists nd, nd. split; [exact Hnd|]. split; [|apply marked_or_same_refl].
    cbn. rewrite !lookup_insert_ne by congruence. exact Hnd.
Qed.

Lemma nodes_marked_create N0 {A} st nm (k : NodeRef -> M A) :
  (forall child, child ∉ N0 -> Pres (nodes_marked N0) (k child)) ->
  Pres (nodes_marked N0) (bind (createReactEvaluatedNode st nm) k).
Proof.
  intros Hk s Hsub. unfold bind, createReactEvaluatedNode.
  set (child := fresh (dom (nodes s))).
  assert (Hchild : child ∉ N0).
  { intros Hin. apply (is_fresh (dom (nodes s))), Hsub, Hin. }
  lazymatch goal with
  | |- context [k child ?st] => set (s1 := st); specialize (Hk child Hchild s1)
  end.
  cbv beta iota zeta. destruct (k child s1) as [r s2]. cbn [snd] in *.
  intros n Hn.
  assert (Hn1 : nodes s1 !! n = nodes s !! n).
  { subst s1. cbn. apply lookup_insert_ne. intros <-. contradiction. }
  destruct (Hk ltac:(subst s1; cbn; rewrite dom_insert; set_solver) n Hn)
    as (nd & nd' & Hnd & Hnd' & Hm).
  exists nd, nd'. rewrite <- Hn1. auto.
Qed.

Ltac same_marks :=
  apply nodes_marked_same;
  unfold _incremementReferenceForContextNode,
    _decremementReferenceForContextNode, update_node, bind, gets, modify;
  reflexivity.

(** The resolution of a value.  [_resolveDeeply] gives children to the
    report node it was given, and a fatal error that it raises marks that
    node or one that it has made: every other report node that was there is
    as it was, and the node that it was given keeps its children and its
    name, and its status and message too unless a fatal error marked it. *)
Lemma resolveDeeply_keeps_nodes fuel ct v ctx bs n s m :
  is_Some (nodes s !! m) -> m <> n ->
  nodes (snd (_resolveDeeply fuel ct v ctx bs n s)) !! m = nodes s !! m.
Proof.
  intros Hm Hne.
  apply (Pres_resolveDeeply (nodes_kept (dom (nodes s) ∖ {[n]}))
           (fun n0 => n0 ∉ dom (nodes s) ∖ {[n]})
           (fun n0 => n0 ∉ dom (nodes s) ∖ {[n]}));
    first
      [ apply nodes_kept_refl
      | apply nodes_kept_trans
      | intros; apply nodes_kept_update_node; assumption
      | intros; apply nodes_kept_fatal; assumption
      | intros A; apply nodes_kept_create
      | intros; same_report
      | intros; assumption
      | idtac ].
  - intros Hin. apply elem_of_difference in Hin as [_ Hin].
    apply Hin, elem_of_singleton. reflexivity.
  - apply subseteq_difference_l. reflexivity.
  - apply elem_of_difference. split; [apply elem_of_dom, Hm|].
    intros Hin. apply elem_of_singleton in Hin. contradiction.
Qed.

Lemma resolveDeeply_marks_node fuel ct v ctx bs n s m nd :
  nodes s !! m = Some nd ->
  exists nd',
    nodes (snd (_resolveDeeply fuel ct v ctx bs n s)) !! m = Some nd'
    /\ marked_or_same nd nd'.
Proof.
  intros Hm.
  assert (H : nodes_marked (dom (nodes s)) s
                (snd (_resolveDeeply fuel ct v ctx bs n s))).
  { apply (Pres_resolveDeeply (nodes_marked (dom (nodes s)))
             (fun n0 => n0 ∉ dom (nodes s)) (fun _ => True));
      first
        [ apply nodes_marked_refl
        | apply nodes_marked_trans
        | intros; apply nodes_marked_update_node; assumption
        | intros; apply nodes_marked_fatal
        | intros A; apply nodes_marked_create
        | intros; same_marks
        | exact I
        | idtac ].
    intros; exact I. }
  destruct (H ltac:(reflexivity) m ltac:(apply elem_of_dom; eauto))
    as (nd0 & nd' & Hnd & Hnd' & Hmark).
  rewrite Hm in Hnd. injection Hnd as <-. eauto.
Qed.

Lemma resolveDeeply_arrays_grow fuel ct v ctx bs n s :
  arrays_grow s (snd (_resolveDeeply fuel ct v ctx bs n s)).
Proof.
  apply (Pres_resolveDeeply arrays_grow (fun _ => True) (fun _ => True));
    first
      [ apply arrays_grow_refl
      | apply arrays_grow_trans
      | apply arrays_grow_children_push
      | intros A; apply arrays_grow_create
      | intros; same_report
      | intros; apply arrays_grow_same; reflexivity
      | intros; exact I ].
Qed.

(** ** A render that gives [undefined] (lines 982-998) *)



(** ** C5: a provider in first-render-only mode *)

Ltac inv_pair H := injection H as <- <-.

(** One step of a run that returned: the first action of a [bind]. *)
Ltac step H a s1 H1 :=
  apply bind_Ok_inv in H; destruct H as (a & s1 & H1 & H).

Ltac step_prim H :=
  let a := fresh "a" in
  let s1 := fresh "s" in
  let H1 := fresh "H" in
  step H a s1 H1;
  unfold readHost, gets, ret, modify, modifyRealm, createReactEvaluatedNode,
    children_push, componentsEvaluated_increment, inlinedComponents_increment,
    assign_status, update_node in H1;
  inv_pair H1.

Ltac step_invariant H :=
  let a := fresh "a" in
  let s1 := fresh "s" in
  let H1 := fresh "H" in
  step H a s1 H1;
  unfold invariant in H1;
  lazymatch type of H1 with
  | (if ?b then _ else _) _ = _ =>
      destruct b eqn:?; [ unfold ret in H1; inv_pair H1
                        | unfold throw in H1; discriminate H1 ]
  end.

Lemma liftHost_Ok_inv {A} (h : HostM A) s a s' :
  liftHost h s = (Ok a, s') ->
  exists rl, h (realm s) = (Ok a, rl) /\ s' = set_realm (fun _ => rl) s.
Proof.
  unfold liftHost. destruct (h (realm s)) as [r rl].
  intros H. injection H as -> <-. eauto.
Qed.

Lemma realm_only_config s s1 :
  realm_only s s1 -> componentTreeConfig s1 = componentTreeConfig s.
Proof. intros [rl ->]. reflexivity. Qed.

Lemma realm_only_componentTreeState s s1 :
  realm_only s s1 -> componentTreeState s1 = componentTreeState s.
Proof. intros [rl ->]. reflexivity. Qed.

Lemma incremementReference_returns c s r s1 :
  _incremementReferenceForContextNode c s = (r, s1) ->
  r = Ok tt /\ s1 = snd (_incremementReferenceForContextNode c s).
Proof. intros H. rewrite H. split; [|reflexivity]. inversion H. reflexivity. Qed.

Lemma decremementReference_returns c s r s1 :
  _decremementReferenceForContextNode c s = (r, s1) ->
  r = Ok tt /\ s1 = snd (_decremementReferenceForContextNode c s).
Proof. intros H. rewrite H. split; [|reflexivity]. inversion H. reflexivity. Qed.

(** What a provider gives in first-render-only mode: [s2] is the state in
    which the children have been resolved, [s3] the state in which the
    previous value has been written back and the reference given up. *)
Definition provider_first_render_outcome
    (rd : Value -> Value -> Value -> BranchStatusEnum -> NodeRef -> M Value)
    (component reactElement context : Value) (branchStatus : BranchStatusEnum)
    (evaluatedNode : NodeRef) (s : Reconciler) (result : Value)
    (s' : Reconciler) : Prop :=
  let typeValue := getProperty host (realm s) reactElement "type" in
  let contextConsumer := getProperty host (realm s) typeValue "context" in
  let lastValueProp :=
    getProperty host (realm s) contextConsumer "currentValue" in
  let child := fresh (dom (nodes s)) in
  exists s1 resolvedReactElement s2 s3,
    _resolveReactElementHostChildren rd component reactElement context
      branchStatus child s1 = (Ok resolvedReactElement, s2)
    /\ (setContextCurrentValue contextConsumer lastValueProp ;!
        _decremementReferenceForContextNode contextConsumer) s2 = (Ok tt, s3)
    /\ deadEnds (componentTreeState s3) = deadEnds (componentTreeState s2)
    /\ (instanceof contextConsumer ObjectValue = true ->
        currentValue_binding (realm s3) contextConsumer = Some lastValueProp)
    /\ if bool_decide (deadEnds (componentTreeState s2) = 0) then
         exists rl,
           Get host (getProperty host (realm s2) resolvedReactElement "props")
             "children" (realm s3) = (Ok result, rl)
           /\ s' = snd ((assign_status child NODE_INLINED ;!
                         inlinedComponents_increment)
                          (set_realm (fun _ => rl) s3))
           /\ status (node_at s' child) = NODE_INLINED
           /\ inlinedComponents (statistics s')
              = inlinedComponents (statistics s3) + 1
       else result = resolvedReactElement /\ s' = s3.

(** C5. In first-render-only mode, take a resolution of a provider element
    that returns.  The props of the element are a concrete object: in this
    mode [_resolveReactElement], the only caller, hands over the element
    that the sanitizer made, and the sanitizer breaks an invariant on props
    that are not one.  The children of the provider were resolved with the
    provider's report node, the previous current value of the context was
    then written back and the reference count decremented; and with
    [deadEnds] as the resolution of the children left it:
    - if [deadEnds] is 0, the result is the [children] of the resolved props,
      and the report node is marked INLINED and counted as inlined;
    - if [deadEnds] is not 0, the result is the resolved provider element,
      and the state is the one in which the previous value had just been
      restored (on a concrete context object, its [currentValue] binding
      holds the previous value). *)
Theorem provider_elided_iff_no_dead_ends
    (rd : Value -> Value -> Value -> BranchStatusEnum -> NodeRef -> M Value)
    (component reactElement context : Value) (branchStatus : BranchStatusEnum)
    (evaluatedNode : NodeRef) (s : Reconciler) (result : Value)
    (s' : Reconciler) :
  firstRenderOnly (componentTreeConfig s) = true ->
  instanceof (getProperty host (realm s) reactElement "props") ObjectValue
  = true ->
  _resolveContextProviderComponent rd component reactElement context
    branchStatus evaluatedNode s = (Ok result, s') ->
  provider_first_render_outcome rd component reactElement context
    branchStatus evaluatedNode s result s'.
Proof.
  intros Hfirst Hobj Hrun. unfold provider_first_render_outcome.
  set (typeValue := getProperty host (realm s) reactElement "type") in *.
  set (propsValue := getProperty host (realm s) reactElement "props") in *.
  set (contextConsumer := getProperty host (realm s) typeValue "context").
  set (lastValueProp :=
         getProperty host (realm s) contextConsumer "currentValue").
  set (child := fresh (dom (nodes s))).
  unfold _resolveContextProviderComponent in Hrun.
  step_prim Hrun. step_prim Hrun. step_prim Hrun. step_prim Hrun.
  step_prim Hrun. step_invariant Hrun. step_prim Hrun. step_invariant Hrun.
  step_prim Hrun.
  cbn [realm set_statistics set_arrays set_nodes] in Hrun.
  fold typeValue propsValue in Hrun. fold contextConsumer in Hrun.
  fold lastValueProp in Hrun. fold child in Hrun.
  lazymatch type of Hrun with
  | _ ?st = _ => remember st as s0 eqn:Hs0
  end.
  assert (Hcfg0 : componentTreeConfig s0 = componentTreeConfig s)
    by (subst s0; reflexivity).
  clear Hs0.
  (* the reference is counted and the value pushed *)
  step Hrun u1 sa Hinc.
  apply incremementReference_returns in Hinc as [_ ->].
  step Hrun u2 sb Hpush.
  assert (Hsb : componentTreeConfig sb = componentTreeConfig s0).
  { lazymatch type of Hpush with
    | (if ?b then _ else _) _ = _ => destruct b
    end.
    - apply bind_Ok_inv in Hpush as (valueProp & sv & Hget & Hset).
      apply liftHost_Ok_inv in Hget as (rl0 & _ & ->).
      pose proof (setContextCurrentValue_realm_only contextConsumer valueProp
                    (set_realm (fun _ => rl0)
                       (snd (_incremementReferenceForContextNode
                               contextConsumer s0)))) as H.
      rewrite Hset in H. cbn [snd] in H.
      apply realm_only_config in H. exact H.
    - unfold ret in Hpush. inv_pair Hpush. reflexivity. }
  step_prim Hrun.
  rewrite Hsb, Hcfg0, Hfirst in Hrun. cbn [andb] in Hrun.
  (* the children are resolved, the value restored *)
  assert (Hshape : exists resolvedReactElement s2 s3a,
    _resolveReactElementHostChildren rd component reactElement context
      branchStatus child sb = (Ok resolvedReactElement, s2)
    /\ setContextCurrentValue contextConsumer lastValueProp s2 = (Ok tt, s3a)
    /\ (let! dead := gets (fun s => deadEnds (componentTreeState s)) in
        if bool_decide (dead = 0) then
          let! childrenValue :=
            liftHost
              (Get host
                 (getProperty host (realm s2) resolvedReactElement "props")
                 "children") in
          assign_status child NODE_INLINED ;!
          inlinedComponents_increment ;!
          ret childrenValue
        else ret resolvedReactElement)
         (snd (_decremementReferenceForContextNode contextConsumer s3a))
       = (Ok result, s')).
  { rewrite Hobj in Hrun.
    step Hrun resolvedReactElement s2 Hchildren.
    step_prim Hrun. step_invariant Hrun.
    step Hrun u3 s3a Hrestore.
    step Hrun u4 s3 Hdec.
    apply decremementReference_returns in Hdec as [_ ->].
    destruct u3. exists resolvedReactElement, s2, s3a. auto. }
  clear Hrun.
  destruct Hshape as (resolvedReactElement & s2 & s3a & Hchildren & Hrestore
                      & Hrun).
  pose proof (setContextCurrentValue_realm_only contextConsumer lastValueProp
                s2) as Hs3a.
  rewrite Hrestore in Hs3a. cbn [snd] in Hs3a.
  assert (Hdead :
    deadEnds (componentTreeState
                (snd (_decremementReferenceForContextNode contextConsumer s3a)))
    = deadEnds (componentTreeState s2)).
  { rewrite <- (realm_only_componentTreeState _ _ Hs3a). reflexivity. }
  exists sb, resolvedReactElement, s2,
    (snd (_decremementReferenceForContextNode contextConsumer s3a)).
  split; [exact Hchildren|].
  split; [rewrite (bind_Ok_run _ _ _ _ _ Hrestore); reflexivity|].
  split; [exact Hdead|].
  split.
  { intros HC.
    apply (setContextCurrentValue_assigns _ _ _ _ HC) in Hrestore as [_ Hcur].
    exact Hcur. }
  step_prim Hrun.
  lazymatch type of Hrun with
  | _ ?st = _ =>
      change st
        with (snd (_decremementReferenceForContextNode contextConsumer s3a))
        in Hrun
  end.
  rewrite (realm_only_componentTreeState _ _ Hs3a) in Hrun.
  destruct (bool_decide (deadEnds (componentTreeState s2) = 0)).
  - step Hrun childrenValue s4 Hget.
    apply liftHost_Ok_inv in Hget as (rl & Hget & ->).
    step_prim Hrun. step_prim Hrun. unfold ret in Hrun. inv_pair Hrun.
    exists rl. split; [exact Hget|]. split; [reflexivity|].
    split; [|reflexivity].
    unfold node_at at 1. cbn. rewrite lookup_insert_eq. reflexivity.
  - unfold ret in Hrun. inv_pair Hrun. split; reflexivity.
Qed.

(** ** C1: the count of a provider that returns *)

(** The two states count the same references to every context. *)
Definition same_references (s s' : Reconciler) : Prop :=
  forall c, references s' c = references s c.

Lemma same_references_refl s : same_references s s.
Proof. intros c. reflexivity. Qed.

Lemma same_references_trans s1 s2 s3 :
  same_references s1 s2 -> same_references s2 s3 -> same_references s1 s3.
Proof. intros H12 H23 c. rewrite H23. apply H12. Qed.

Lemma same_references_treeState s s' :
  componentTreeState s' = componentTreeState s -> same_references s s'.
Proof. intros H c. unfold references. rewrite H. reflexivity. Qed.

Lemma realm_only_same_references s s' :
  realm_only s s' -> same_references s s'.
Proof.
  intros H. apply same_references_treeState, realm_only_componentTreeState, H.
Qed.

(** An increment and then a decrement give the count back, unless it was -1,
    which no count is. *)
Lemma increment_then_decrement c s sa sb :
  references s c <> -1 ->
  same_references (snd (_incremementReferenceForContextNode c s)) sa ->
  sb = snd (_decremementReferenceForContextNode c sa) ->
  same_references s sb.
Proof.
  intros Hc Hsa -> c'. rewrite references_after_decrement, !Hsa,
    !references_after_increment.
  repeat case_decide; subst; try lia; congruence.
Qed.

Lemma references_increment_congr c s s0 c' :
  componentTreeState s0 = componentTreeState s ->
  references (snd (_incremementReferenceForContextNode c s0)) c'
  = references (snd (_incremementReferenceForContextNode c s)) c'.
Proof.
  intros H. rewrite !references_after_increment. unfold references.
  rewrite H. reflexivity.
Qed.

Lemma references_decrement_congr c s s0 c' :
  same_references s s0 ->
  references (snd (_decremementReferenceForContextNode c s0)) c'
  = references (snd (_decremementReferenceForContextNode c s)) c'.
Proof.
  intros H. rewrite !references_after_decrement, !H. reflexivity.
Qed.

(** How the counts of a provider that returned are paired: [sb] is the state
    in which the resolution of the children started, [s2] the one in which
    it ended. *)
Definition provider_pairing
    (rd : Value -> Value -> Value -> BranchStatusEnum -> NodeRef -> M Value)
    (component reactElement context : Value) (branchStatus : BranchStatusEnum)
    (s s' : Reconciler) : Prop :=
  let contextConsumer :=
    getProperty host (realm s)
      (getProperty host (realm s) reactElement "type") "context" in
  exists sb resolved s2,
    _resolveReactElementHostChildren rd component reactElement context
      branchStatus (fresh (dom (nodes s))) sb = (Ok resolved, s2)
    /\ (forall c,
          references sb c
          = references
              (snd (_incremementReferenceForContextNode contextConsumer s)) c)
    /\ (forall c,
          references s' c
          = references
              (snd (_decremementReferenceForContextNode contextConsumer s2)) c)
    /\ (references s contextConsumer <> -1 ->
        same_references sb s2 -> same_references s s').

(** X19. Take a run of [_resolveContextProviderComponent] that returns.
    The children were resolved in it once, from a state [sb] to a state
    [s2]: in [sb] the counts are those of the start with the context of the
    provider counted once more (line 424), and the counts at the end are
    those of [s2] with that context counted once less (line 441 or 460).  So
    when the resolution of the children, in this run, left the counts as
    they were, every count at the end is what it was at the start. *)
Lemma provider_pairs_on_return
    (rd : Value -> Value -> Value -> BranchStatusEnum -> NodeRef -> M Value)
    (component reactElement context : Value) (branchStatus : BranchStatusEnum)
    (evaluatedNode : NodeRef) (s : Reconciler) (result : Value)
    (s' : Reconciler) :
  _resolveContextProviderComponent rd component reactElement context
    branchStatus evaluatedNode s = (Ok result, s') ->
  provider_pairing rd component reactElement context branchStatus s s'.
Proof.
  intros Hrun. unfold provider_pairing.
  set (typeValue := getProperty host (realm s) reactElement "type") in *.
  set (contextConsumer := getProperty host (realm s) typeValue "context") in *.
  cbv zeta.
  unfold _resolveContextProviderComponent in Hrun.
  step_prim Hrun. step_prim Hrun. step_prim Hrun. step_prim Hrun.
  step_prim Hrun. step_invariant Hrun. step_prim Hrun. step_invariant Hrun.
  step_prim Hrun.
  cbn [realm set_statistics set_arrays set_nodes] in Hrun.
  fold typeValue in Hrun. fold contextConsumer in Hrun.
  lazymatch type of Hrun with
  | _ ?st = _ => remember st as s0 eqn:Hs0
  end.
  assert (H0 : componentTreeState s0 = componentTreeState s)
    by (subst s0; reflexivity).
  clear Hs0.
  step Hrun u1 sa Hinc.
  apply incremementReference_returns in Hinc as [_ ->].
  step Hrun u2 sb Hpush.
  assert (Hsb : same_references
                  (snd (_incremementReferenceForContextNode contextConsumer s0))
                  sb).
  { lazymatch type of Hpush with
    | (if ?b then _ else _) _ = _ => destruct b
    end.
    - apply bind_Ok_inv in Hpush as (valueProp & sv & Hget & Hset).
      apply liftHost_Ok_inv in Hget as (rl0 & _ & ->).
      pose proof (setContextCurrentValue_realm_only contextConsumer valueProp
                    (set_realm (fun _ => rl0)
                       (snd (_incremementReferenceForContextNode
                               contextConsumer s0)))) as H.
      rewrite Hset in H. cbn [snd] in H.
      apply realm_only_same_references in H.
      intros c. rewrite H. reflexivity.
    - unfold ret in Hpush. inv_pair Hpush. apply same_references_refl. }
  assert (Hstart : forall c,
    references sb c
    = references
        (snd (_incremementReferenceForContextNode contextConsumer s)) c).
  { intros c. rewrite Hsb. apply references_increment_congr, H0. }
  step_prim Hrun.
  assert (Hgoal : forall s2 s3a s3,
    realm_only s2 s3a ->
    s3 = snd (_decremementReferenceForContextNode contextConsumer s3a) ->
    (forall c,
       references s3 c
       = references
           (snd (_decremementReferenceForContextNode contextConsumer s2)) c)
    /\ (references s contextConsumer <> -1 ->
        same_references sb s2 -> same_references s s3)).
  { intros s2 s3a s3 Ha ->. apply realm_only_same_references in Ha.
    split.
    - intros c. apply references_decrement_congr, Ha.
    - intros Hcount Hchildren c.
      rewrite (increment_then_decrement contextConsumer s0 s3a _
                 ltac:(unfold references in *; rewrite H0; exact Hcount)
                 (same_references_trans _ _ _ Hsb
                    (same_references_trans _ _ _ Hchildren Ha)) eq_refl c).
      unfold references. rewrite H0. reflexivity. }
  lazymatch type of Hrun with
  | (if ?b then _ else _) _ = _ => destruct b
  end.
  - step Hrun resolvedReactElement s2 Hres.
    step_prim Hrun. step_invariant Hrun.
    step Hrun u3 s3a Hrestore.
    step Hrun u4 s3 Hdec.
    apply decremementReference_returns in Hdec as [_ ->].
    pose proof (setContextCurrentValue_realm_only contextConsumer
                  (getProperty host (realm s) contextConsumer "currentValue")
                  s2) as H3.
    rewrite Hrestore in H3. cbn [snd] in H3.
    specialize (Hgoal s2 s3a _ H3 eq_refl).
    exists sb, resolvedReactElement, s2.
    split; [exact Hres|]. split; [exact Hstart|].
    step_prim Hrun.
    lazymatch type of Hrun with
    | (if ?b then _ else _) _ = _ => destruct b
    end.
    + step Hrun childrenValue s4 Hget.
      apply liftHost_Ok_inv in Hget as (rl & Hget & ->).
      step_prim Hrun. step_prim Hrun. unfold ret in Hrun. inv_pair Hrun.
      exact Hgoal.
    + unfold ret in Hrun. inv_pair Hrun. exact Hgoal.
  - step Hrun resolved s2 Hres.
    step Hrun u3 s3a Hrestore.
    step Hrun u4 s3 Hdec.
    apply decremementReference_returns in Hdec as [_ ->].
    unfold ret in Hrun. inv_pair Hrun.
    pose proof (setContextCurrentValue_realm_only contextConsumer
                  (getProperty host (realm s) contextConsumer "currentValue")
                  s2) as H3.
    rewrite Hrestore in H3. cbn [snd] in H3.
    exists sb, resolved, s2.
    split; [exact Hres|]. split; [exact Hstart|].
    exact (Hgoal s2 s3a _ H3 eq_refl).
Qed.

(** ** C7: a root that has been folded is in the table *)

Lemma tryFinally_inv {A} (m : M A) cleanup s r s' :
  tryFinally m cleanup s = (r, s') ->
  exists s1, m s = (r, s1) /\ s' = cleanup s1.
Proof.
  unfold tryFinally. destruct (m s) as [r1 s1]. intros H.
  injection H as -> <-. eauto.
Qed.

Lemma tryCatch_Ok_inv {A} (m : M A) handler s a s' :
  tryCatch m handler s = (Ok a, s') ->
  m s = (Ok a, s')
  \/ exists e s1, m s = (Throw e, s1) /\ handler e s1 = (Ok a, s').
Proof.
  unfold tryCatch. destruct (m s) as [[a1|e|] s1]; intros H;
    [left; exact H | right; eauto | discriminate].
Qed.

Lemma bind_throw_not_Ok {A B} (m : M A) (e : A -> Error) s (b : B) s' :
  bind m (fun a => throw (e a)) s <> (Ok b, s').
Proof.
  unfold bind, throw. destruct (m s) as [[a|e1|] s1]; discriminate.
Qed.

Definition same_memo (s s' : Reconciler) : Prop :=
  alreadyEvaluatedRootNodes s' = alreadyEvaluatedRootNodes s.

Lemma resolveComponent_same_memo fuel ct p ctx bs n s :
  same_memo s (snd (_resolveComponent fuel ct p ctx bs n s)).
Proof.
  apply (Pres_resolveComponent_any same_memo); unfold same_memo;
    intros; simpl; congruence.
Qed.

(** When [resolveReactComponentTree] returns, the table holds the root, with
    the report node that was given: the table is written at line 171, before
    the root is resolved, and nothing else writes it. *)
Lemma resolveReactComponentTree_memoizes fuel componentType props context
    evaluatedRootNode s effects s' :
  resolveReactComponentTree fuel componentType props context evaluatedRootNode
    s = (Ok effects, s') ->
  alreadyEvaluatedRootNodes s'
  = <[componentType := evaluatedRootNode]> (alreadyEvaluatedRootNodes s).
Proof.
  intros Hrun. unfold resolveReactComponentTree in Hrun. cbv zeta in Hrun.
  step Hrun effects0 s1 Hwrap.
  unfold _handleNestedOptimizedClosuresFromEffects, bind, modify, ret in Hrun.
  inv_pair Hrun. cbn [alreadyEvaluatedRootNodes set_nestedOptimizedClosures].
  unfold wrapInGlobalEnv in Hwrap. step_prim Hwrap.
  apply tryFinally_inv in Hwrap as (s2 & Hpure & ->).
  unfold evaluatePure in Hpure. step_prim Hpure.
  apply tryFinally_inv in Hpure as (s3 & Heff & ->).
  unfold evaluateForEffects in Heff. step_prim Heff.
  step Heff captured s4 Hthunk.
  apply liftHost_Ok_inv in Heff as (rl & _ & ->).
  apply tryCatch_Ok_inv in Hthunk as [Hthunk|(e & sx & _ & Hh)];
    [|exfalso; exact (bind_throw_not_Ok _ (fun _ => e) _ _ _ Hh)].
  apply tryCatch_Ok_inv in Hthunk as [Hbody|(e & sx & _ & Hh)];
    [|exfalso; exact (bind_throw_not_Ok _ _ _ _ _ Hh)].
  cbn [alreadyEvaluatedRootNodes set_realm].
  step Hbody initialProps sa Hprops.
  step Hbody initialContext sb Hcontext.
  step_prim Hbody.
  step Hbody render s5 Hrender.
  unfold optimizedTrees_increment in Hbody. step_prim Hbody.
  unfold ret in Hbody. inv_pair Hbody.
  cbn [alreadyEvaluatedRootNodes set_statistics].
  lazymatch type of Hrender with
  | _ ?st = _ =>
      pose proof (resolveComponent_same_memo fuel componentType initialProps
                    initialContext ROOT evaluatedRootNode st) as Hmemo
  end.
  rewrite Hrender in Hmemo. unfold same_memo in Hmemo. cbn in Hmemo.
  rewrite Hmemo. f_equal.
  assert (Ha : alreadyEvaluatedRootNodes sa = alreadyEvaluatedRootNodes s).
  { destruct props.
    - unfold ret in Hprops. inv_pair Hprops. reflexivity.
    - apply liftHost_Ok_inv in Hprops as (r1 & _ & ->). reflexivity. }
  assert (Hb : alreadyEvaluatedRootNodes sb = alreadyEvaluatedRootNodes sa).
  { destruct context.
    - unfold ret in Hcontext. inv_pair Hcontext. reflexivity.
    - apply liftHost_Ok_inv in Hcontext as (r1 & _ & ->). reflexivity. }
  congruence.
Qed.

(** X20. A root that has been folded is memoized.  When
    [resolveReactComponentTree] returns, [alreadyEvaluatedRootNodes] is the
    table it started from with the root bound to the report node that was
    given, and [hasEvaluatedRootNode] answers true for that root, whatever
    the report node it is asked to fill: a second reference to the root
    short-circuits. *)
Theorem folded_root_is_memoized (fuel : nat) (componentType : Value)
    (props context : option Value) (evaluatedRootNode : NodeRef)
    (s : Reconciler) (effects : Effects) (s' : Reconciler) :
  resolveReactComponentTree fuel componentType props context evaluatedRootNode
    s = (Ok effects, s') ->
  alreadyEvaluatedRootNodes s'
  = <[componentType := evaluatedRootNode]> (alreadyEvaluatedRootNodes s)
  /\ forall evaluateNode,
       fst (hasEvaluatedRootNode componentType evaluateNode s') = Ok true.
Proof.
  intros Hrun. apply resolveReactComponentTree_memoizes in Hrun.
  split; [exact Hrun|]. intros evaluateNode.
  unfold hasEvaluatedRootNode, bind, gets. simpl.
  rewrite Hrun, lookup_insert_eq. reflexivity.
Qed.

(** * What no method of the fold does

    Invariants of the whole class: each holds of every method, with whatever
    arguments, from whatever state and on whatever exit. *)

(** A new report node may always be made when the relation lets every node be
    assigned to. *)
Lemma Pres_create_total (R : Reconciler -> Reconciler -> Prop) :
  (forall s1 s2 s3, R s1 s2 -> R s2 s3 -> R s1 s3) ->
  (forall s st nm, R s (snd (createReactEvaluatedNode st nm s))) ->
  forall A st nm (k : NodeRef -> M A),
    (forall child, True -> Pres R (k child)) ->
    Pres R (bind (createReactEvaluatedNode st nm) k).
Proof.
  intros Htrans Hcreate A st nm k Hk.
  apply Pres_bind; [exact Htrans | intros s; apply Hcreate | auto].
Qed.

(** ** The statistics *)

Definition statistics_le (s s' : Reconciler) : Prop :=
  optimizedTrees (statistics s) <= optimizedTrees (statistics s')
  /\ componentsEvaluated (statistics s) <= componentsEvaluated (statistics s')
  /\ inlinedComponents (statistics s) <= inlinedComponents (statistics s')
  /\ optimizedNestedClosures (statistics s)
     <= optimizedNestedClosures (statistics s').

(** X1. No method lowers a counter of the statistics: the numbers of
    optimized trees, of evaluated components, of inlined components and of
    optimized nested closures in the state a method leaves are at least what
    they were in the state it started from. *)
Theorem statistics_never_decrease (fuel : nat) (call : MethodCall)
    (s : Reconciler) :
  statistics_le s (finalState fuel call s).
Proof.
  apply Pres_finalState with (Modifiable := fun _ => True)
      (Markable := fun _ => True);
    try exact (fun _ => I);
    try exact (fun _ _ => I);
    try (apply Pres_create_total);
    try (intros; unfold statistics_le in *; simpl in *; lia).
Qed.

(** ** The memoization tables *)

Definition memoized_le (s s' : Reconciler) : Prop :=
  dom (alreadyEvaluatedRootNodes s) ⊆ dom (alreadyEvaluatedRootNodes s')
  /\ alreadyEvaluatedNestedClosures s ⊆ alreadyEvaluatedNestedClosures s'.

(** X2. No method forgets what was folded: a component that is in
    [alreadyEvaluatedRootNodes] and a function that is in
    [alreadyEvaluatedNestedClosures] before a method runs are still in them
    after it. *)
Theorem memoization_never_forgets (fuel : nat) (call : MethodCall)
    (s : Reconciler) :
  memoized_le s (finalState fuel call s).
Proof.
  apply Pres_finalState with (Modifiable := fun _ => True)
      (Markable := fun _ => True);
    try exact (fun _ => I);
    try exact (fun _ _ => I);
    try (apply Pres_create_total);
    try (intros s1 s2 s3 [H1 H2] [H3 H4]; split; etrans; eassumption);
    try (intros; split; simpl; try rewrite dom_insert;
         first [ reflexivity | apply union_subseteq_l
               | apply union_subseteq_r ]).
Qed.

(** ** The queues *)

(** What identifies a queued closure: everything but the effects, which
    [_handleNestedOptimizedClosuresFromEffects] fills in later. *)
Definition closure_entry (c : OptimizedClosure)
    : NodeRef * Value * option Value * option Value :=
  (oc_evaluatedNode c, oc_func c, oc_componentType c, oc_context c).

Definition queues_extended (s s' : Reconciler) : Prop :=
  branchedComponentTrees s `prefix_of` branchedComponentTrees s'
  /\ map closure_entry (nestedOptimizedClosures s)
     `prefix_of` map closure_entry (nestedOptimizedClosures s').

Lemma closure_entry_handleNested effects l :
  map closure_entry
    (map (fun c =>
       if bool_decide (length (oc_nestedEffects c) = 0%nat) then
         mkOptimizedClosure (oc_evaluatedNode c) (oc_func c)
           (oc_nestedEffects c ++ (oc_nestedEffects c ++ [effects]))
           (oc_componentType c) (oc_context c)
       else c) l)
  = map closure_entry l.
Proof.
  induction l as [|c l IH]; simpl; [reflexivity|].
  rewrite IH. f_equal. case_bool_decide; reflexivity.
Qed.

(** X3. The two queues of the driver are append-only: whatever method runs,
    the branches queued before are the first entries of
    [branchedComponentTrees] after, in the same order, and the closures
    queued before are the first entries of [nestedOptimizedClosures] after,
    in the same order and with the same report node, function, component
    type and context. *)
Theorem queues_are_append_only (fuel : nat) (call : MethodCall)
    (s : Reconciler) :
  queues_extended s (finalState fuel call s).
Proof.
  apply Pres_finalState with (Modifiable := fun _ => True)
      (Markable := fun _ => True);
    try exact (fun _ => I);
    try exact (fun _ _ => I);
    try (apply Pres_create_total);
    try (intros; unfold queues_extended in *; simpl in *;
         try rewrite closure_entry_handleNested;
         try rewrite map_app;
         intuition (first [ reflexivity | apply prefix_app_r; reflexivity
                          | etrans; eassumption ]); fail).
Qed.

(** ** The status of the tree *)

Definition complex_stays (s s' : Reconciler) : Prop :=
  treeStatus (componentTreeState s) = COMPLEX ->
  treeStatus (componentTreeState s') = COMPLEX.

(** X4. Within a fold, a tree that has become COMPLEX stays COMPLEX: no
    method sets the status of the tree back to SIMPLE. *)
Theorem complex_tree_stays_complex (fuel : nat) (call : MethodCall)
    (s : Reconciler) :
  treeStatus (componentTreeState s) = COMPLEX ->
  treeStatus (componentTreeState (finalState fuel call s)) = COMPLEX.
Proof.
  change (complex_stays s (finalState fuel call s)).
  apply Pres_finalState with (Modifiable := fun _ => True)
      (Markable := fun _ => True);
    try exact (fun _ => I);
    try exact (fun _ _ => I);
    try (apply Pres_create_total);
    try (intros; unfold complex_stays in *; simpl in *; auto; fail).
Qed.

(** * Failures *)

(** The errors that [_handleComponentTreeRootFailure] turns into a fatal
    error of the root. *)
Definition fatal_at_root (error : Error) : bool :=
  match error with
  | ReconcilerFatalError _ _ | UnsupportedSideEffect _ | DoNotOptimize _
  | ExpectedBailOut _ | FatalError _ => true
  | _ => false
  end.

Lemma completion_message_stack_reads value s :
  snd (completion_message_stack value s) = s
  /\ match fst (completion_message_stack value s) with
     | Ok _ => True
     | Throw e => exists m, e = InvariantViolation m
     | Diverge => False
     end.
Proof.
  unfold completion_message_stack, bind, invariant, readHost, ret, throw.
  repeat (lazymatch goal with
          | |- context [if ?b then _ else _] => destruct b
          end; cbn [fst snd]); eauto.
Qed.

(** Throwing a fatal error made for a node. *)
Lemma fatal_throws {A} msg n s :
  (let! fatalError := newReconcilerFatalError msg n in
   (throw fatalError : M A)) s
  = (Throw (ReconcilerFatalError msg n), snd (newReconcilerFatalError msg n s)).
Proof. reflexivity. Qed.

(** The state in which a fatal error with the message [msg] has marked the
    node [n] of the state [s]: the node is FATAL and holds the message, it
    keeps its children and its name, and nothing else has changed. *)
Definition marks_fatal (msg : string) (n : NodeRef) (s s' : Reconciler)
    : Prop :=
  status (node_at s' n) = NODE_FATAL
  /\ message (node_at s' n) = Some msg
  /\ children (node_at s' n) = children (node_at s n)
  /\ name (node_at s' n) = name (node_at s n)
  /\ (forall m, m <> n -> nodes s' !! m = nodes s !! m)
  /\ set_nodes (fun _ => nodes s) s' = s.

Lemma newReconcilerFatalError_marks_fatal msg n s :
  marks_fatal msg n s (snd (newReconcilerFatalError msg n s)).
Proof.
  destruct (newReconcilerFatalError_marks msg n s) as (s' & Hrun & H).
  rewrite Hrun. exact H.
Qed.

(** X5. [_handleComponentTreeRootFailure] never returns: whatever the error,
    the node and the state, it throws.  An UnsupportedSideEffect, a
    DoNotOptimize, an ExpectedBailOut, a FatalError or a ReconcilerFatalError
    becomes a ReconcilerFatalError that names the root node; a completion
    becomes one too, unless its value breaks an invariant; any other error
    is thrown again as it is.  The ReconcilerFatalError that is made marks
    the root node, which is FATAL and holds the message of the error in the
    state that is left, and changes nothing else; when none is made, the
    state is left as it was found. *)
Theorem handleComponentTreeRootFailure_always_throws (error : Error)
    (evaluatedRootNode : NodeRef) (s : Reconciler) :
  exists e s',
    _handleComponentTreeRootFailure error evaluatedRootNode s = (Throw e, s')
    /\ (if fatal_at_root error then
          exists m, e = ReconcilerFatalError m evaluatedRootNode
        else
          match error with
          | Completion _ =>
              (exists m, e = ReconcilerFatalError m evaluatedRootNode)
              \/ (exists m, e = InvariantViolation m)
          | _ => e = error
          end)
    /\ match e with
       | ReconcilerFatalError m _ => marks_fatal m evaluatedRootNode s s'
       | _ => s' = s
       end.
Proof.
  unfold _handleComponentTreeRootFailure. rewrite bind_gets.
  destruct error as [m0|m0 n0|m0|m0|m0|n0|m0|m0|captured|m0];
    cbn [fatal_at_root];
    try (rewrite fatal_throws; eexists; eexists;
         split; [reflexivity|]; split; [eauto|];
         apply newReconcilerFatalError_marks_fatal);
    try (eexists; eexists; split; [reflexivity|]; split; reflexivity).
  destruct (completion_message_stack_reads captured s) as [Hs He].
  unfold bind at 1.
  destruct (completion_message_stack captured s) as [[ms|e|] s1];
    cbn [fst snd] in *; subst s1.
  - rewrite fatal_throws. eexists. eexists. split; [reflexivity|].
    split; [eauto|]. apply newReconcilerFatalError_marks_fatal.
  - exists e, s. split; [reflexivity|]. split; [eauto|].
    destruct He as [m ->]. reflexivity.
  - contradiction.
Qed.

(** The errors that [_resolveComponentResolutionFailure] recovers from. *)
Definition recoverable_at_element (error : Error) : bool :=
  match error with
  | DoNotOptimize _ | NewComponentTreeBranch _ | ExpectedBailOut _
  | FatalError _ => true
  | _ => false
  end.

(** X6. When [_resolveComponentResolutionFailure] returns, it returns the
    element it was given, and the error was a DoNotOptimize, a
    NewComponentTreeBranch, an ExpectedBailOut or a FatalError: an Invariant
    Violation, a ReconcilerFatalError, an UnsupportedSideEffect, a completion
    and an error of any other kind are never recovered. *)
Theorem resolveComponentResolutionFailure_returns_element (fuel : nat)
    (error : Error) (reactElement : Value) (evaluatedNode : NodeRef)
    (branchStatus : BranchStatusEnum) (s : Reconciler) (result : Value)
    (s' : Reconciler) :
  _resolveComponentResolutionFailure fuel error reactElement evaluatedNode
    branchStatus s = (Ok result, s') ->
  result = reactElement /\ recoverable_at_element error = true.
Proof.
  intros Hrun. unfold _resolveComponentResolutionFailure in Hrun.
  destruct error; cbn [recoverable_at_element]; cbv beta iota in Hrun;
    first
      [ split; [|reflexivity];
        repeat (apply bind_Ok_inv in Hrun as (? & ? & _ & Hrun));
        unfold ret in Hrun; inv_pair Hrun; reflexivity
      | exfalso;
        repeat (apply bind_Ok_inv in Hrun as (? & ? & _ & Hrun));
        discriminate Hrun ].
Qed.

(** * The report and the search of nested trees *)

(** X7. The resolution of a value only adds to the report, and marks the
    node of a fatal error.  Whatever [_resolveDeeply] is given and however
    it ends: every report node that was there, other than the one it was
    given, is still there with the same fields; the node it was given keeps
    its array of children and its name, and its status and message too
    unless a fatal error raised for it has marked it FATAL, with a message;
    every array of children that was there has only been appended to, and so
    the children of a node that was there are still its first children, in
    the same order. *)
Theorem resolveDeeply_only_adds_to_report (fuel : nat)
    (componentType value context : Value) (branchStatus : BranchStatusEnum)
    (evaluatedNode : NodeRef) (s : Reconciler) :
  let s' :=
    snd (_resolveDeeply fuel componentType value context branchStatus
           evaluatedNode s) in
  (forall n nd, nodes s !! n = Some nd -> n <> evaluatedNode ->
     nodes s' !! n = Some nd)
  /\ (forall nd, nodes s !! evaluatedNode = Some nd ->
        exists nd',
          nodes s' !! evaluatedNode = Some nd'
          /\ children nd' = children nd /\ name nd' = name nd
          /\ (nd' = nd
              \/ (status nd' = NODE_FATAL /\ is_Some (message nd'))))
  /\ (forall a l, arrays s !! a = Some l ->
        exists later, arrays s' !! a = Some (l ++ later))
  /\ (forall n nd l,
        nodes s !! n = Some nd -> arrays s !! children nd = Some l ->
        exists later, children_of s' n = children_of s n ++ later).
Proof.
  cbv zeta.
  set (s' := snd (_resolveDeeply fuel componentType value context
                    branchStatus evaluatedNode s)).
  assert (Hmarked : forall n nd, nodes s !! n = Some nd ->
            exists nd', nodes s' !! n = Some nd' /\ marked_or_same nd nd').
  { intros n nd Hn. subst s'. apply resolveDeeply_marks_node, Hn. }
  pose proof (resolveDeeply_arrays_grow fuel componentType value context
                branchStatus evaluatedNode s) as Harrays.
  fold s' in Harrays.
  split; [|split; [|split; [exact Harrays|]]].
  - intros n nd Hn Hne. subst s'.
    rewrite resolveDeeply_keeps_nodes; [exact Hn|rewrite Hn; eauto|exact Hne].
  - intros nd Hn. destruct (Hmarked _ _ Hn) as (nd' & Hn' & Hm).
    exists nd'. split; [exact Hn'|]. exact Hm.
  - intros n nd l Hn Ha. destruct (Harrays _ _ Ha) as [later Hlater].
    destruct (Hmarked _ _ Hn) as (nd' & Hn' & Hc & _).
    exists later. unfold children_of, node_at, array_at.
    rewrite Hn', Hn. cbn [from_option id]. rewrite Hc.
    rewrite Hlater, Ha. reflexivity.
Qed.

(** What the search of nested trees leaves alone. *)
Definition search_frame (s s' : Reconciler) : Prop :=
  realm s' = realm s
  /\ statistics s' = statistics s
  /\ logger s' = logger s
  /\ alreadyEvaluatedRootNodes s' = alreadyEvaluatedRootNodes s
  /\ alreadyEvaluatedNestedClosures s' = alreadyEvaluatedNestedClosures s
  /\ componentTreeConfig s' = componentTreeConfig s
  /\ componentType (componentTreeState s') = componentType (componentTreeState s)
  /\ contextTypes (componentTreeState s') = contextTypes (componentTreeState s)
  /\ treeStatus (componentTreeState s') = treeStatus (componentTreeState s)
  /\ contextNodeReferences (componentTreeState s')
     = contextNodeReferences (componentTreeState s).

Lemma findReactComponentTrees_frame fuel value evaluatedNode treatFunctionsAs
    componentType context s :
  search_frame s
    (snd (_findReactComponentTrees fuel value evaluatedNode treatFunctionsAs
            componentType context s)).
Proof.
  apply Pres_findReactComponentTrees with (Modifiable := fun _ => True);
    try (apply Pres_create_total);
    try (intros; unfold search_frame in *; simpl in *;
         intuition congruence).
Qed.

(** X8. [_findReactComponentTrees] only queues and reports: whatever value
    it searches and however it ends, it leaves the realm as it is (no user
    code runs and no object is written), and the statistics, the log, the two
    memoization tables, the configuration and the tree state apart from
    [deadEnds] are what they were. *)
Theorem findReactComponentTrees_only_queues (fuel : nat) (value : Value)
    (evaluatedNode : NodeRef) (treatFunctionsAs : TreatFunctionsAs)
    (componentType context : option Value) (s : Reconciler) :
  search_frame s
    (snd (_findReactComponentTrees fuel value evaluatedNode treatFunctionsAs
            componentType context s)).
Proof. apply findReactComponentTrees_frame. Qed.

(** * Caches and queues *)

(** X9. The metadata of a class component is evaluated once: after a call of
    [_getClassComponentMetadata] that returned, any further call for the same
    component, with whatever props and context, returns the same metadata
    and changes nothing (the class constructor is not evaluated again). *)
Theorem getClassComponentMetadata_caches
    (componentType props context : Value) (s : Reconciler)
    (classMetadata : ClassComponentMetadata) (s' : Reconciler) :
  _getClassComponentMetadata componentType props context s
  = (Ok classMetadata, s') ->
  forall props' context',
    _getClassComponentMetadata componentType props' context' s'
    = (Ok classMetadata, s').
Proof.
  intros Hrun props' context'. unfold _getClassComponentMetadata in *.
  unfold bind at 1, readHost at 1 in Hrun. cbn [fst snd] in Hrun.
  unfold bind at 1, readHost at 1. cbn [fst snd].
  destruct (react_classComponentMetadata (realm s) !! componentType)
    as [known|] eqn:Hknown.
  - unfold ret in Hrun. inv_pair Hrun. rewrite Hknown. reflexivity.
  - step Hrun md s1 Heval.
    apply liftHost_Ok_inv in Heval as (rl & _ & ->).
    step_prim Hrun. unfold ret in Hrun. inv_pair Hrun.
    cbn. rewrite lookup_insert_eq. reflexivity.
Qed.

(** What [_handleNestedOptimizedClosuresFromEffects] does to one record. *)
Definition fill_effects (effects : Effects) (c : OptimizedClosure)
    : OptimizedClosure :=
  if bool_decide (length (oc_nestedEffects c) = 0%nat) then
    mkOptimizedClosure (oc_evaluatedNode c) (oc_func c)
      (oc_nestedEffects c ++ (oc_nestedEffects c ++ [effects]))
      (oc_componentType c) (oc_context c)
  else c.

Lemma fill_effects_cases effects c :
  fill_effects effects c
  = match oc_nestedEffects c with
    | [] =>
        mkOptimizedClosure (oc_evaluatedNode c) (oc_func c) [effects]
          (oc_componentType c) (oc_context c)
    | _ => c
    end.
Proof.
  unfold fill_effects. destruct c as [n f [|e es] ct ctx]; reflexivity.
Qed.

Lemma fill_effects_nonempty effects c :
  oc_nestedEffects (fill_effects effects c) <> [].
Proof.
  rewrite fill_effects_cases. destruct c as [n f [|e es] ct ctx]; discriminate.
Qed.

Lemma fill_effects_once effects effects' c :
  fill_effects effects' (fill_effects effects c) = fill_effects effects c.
Proof.
  rewrite !fill_effects_cases. destruct c as [n f [|e es] ct ctx]; reflexivity.
Qed.

(** X10. [_handleNestedOptimizedClosuresFromEffects] gives the effects to
    the queued closures that have none, once: after it every queued closure
    has effects, a closure that had none has exactly the effects given, a
    closure that had some keeps them, and a second call, with whatever
    effects, changes nothing. *)
Theorem handleNestedOptimizedClosuresFromEffects_fills_once
    (effects effects' : Effects) (evaluatedNode evaluatedNode' : NodeRef)
    (s : Reconciler) :
  let s1 :=
    snd (_handleNestedOptimizedClosuresFromEffects effects evaluatedNode s) in
  nestedOptimizedClosures s1
  = map (fun c =>
           match oc_nestedEffects c with
           | [] =>
               mkOptimizedClosure (oc_evaluatedNode c) (oc_func c) [effects]
                 (oc_componentType c) (oc_context c)
           | _ => c
           end) (nestedOptimizedClosures s)
  /\ Forall (fun c => oc_nestedEffects c <> []) (nestedOptimizedClosures s1)
  /\ snd (_handleNestedOptimizedClosuresFromEffects effects' evaluatedNode' s1)
     = s1.
Proof.
  cbv zeta.
  change (_handleNestedOptimizedClosuresFromEffects effects evaluatedNode)
    with (modify (set_nestedOptimizedClosures (map (fill_effects effects)))).
  change (_handleNestedOptimizedClosuresFromEffects effects' evaluatedNode')
    with (modify (set_nestedOptimizedClosures (map (fill_effects effects')))).
  unfold modify. cbn [snd]. destruct s; unfold set_nestedOptimizedClosures;
    cbn -[map fill_effects].
  split; [|split].
  - apply map_ext. intros c. apply fill_effects_cases.
  - apply Forall_map, Forall_forall. intros c _.
    apply fill_effects_nonempty.
  - f_equal. rewrite map_map. apply map_ext. intros c.
    apply fill_effects_once.
Qed.

(** * The current value of a context *)

(** The object that [setContextCurrentValue] writes to (lines 111-119): the
    context itself, or the first element of an abstract context that is not
    top; there is none when such a context has no element. *)
Definition written_context (r : Realm) (contextObject : Value)
    : option Value :=
  if instanceof contextObject AbstractObjectValue
     && negb (values_isTop host r contextObject) then
    match values_getElements host r contextObject with
    | Some (first :: _) => Some first
    | _ => None
    end
  else Some contextObject.

(** X11. [setContextCurrentValue] writes or fails cleanly.  When it returns,
    the object it wrote to is the context itself, or the first element of
    the context when that is abstract and not top; that object is concrete,
    [value] has been written into the descriptor of its [currentValue]
    binding, which now reads back as [value], and nothing but the realm has
    changed.  Otherwise it throws an Invariant Violation or an
    ExpectedBailOut and the state is untouched. *)
Theorem setContextCurrentValue_sets_or_fails (contextObject value : Value)
    (s : Reconciler) :
  match setContextCurrentValue contextObject value s with
  | (Ok _, s') =>
      exists target,
        written_context (realm s) contextObject = Some target
        /\ instanceof target ObjectValue = true
        /\ s' = set_realm
                  (assign_descriptor_value target "currentValue" value) s
        /\ currentValue_binding (realm s') target = Some value
  | (Throw e, s') =>
      s' = s /\ exists m, e = InvariantViolation m \/ e = ExpectedBailOut m
  | (Diverge, _) => False
  end.
Proof.
  assert (Hwrite : forall target,
    written_context (realm s) contextObject = Some target ->
    match
      (if negb (instanceof target ObjectValue) then
         throw (ExpectedBailOut
                  "cannot set currentValue on an abstract context consumer")
       else
         let! binding :=
           readHost (fun r => properties_get r target "currentValue") in
         match binding with
         | Some (mkBinding (Some _)) =>
             modifyRealm (assign_descriptor_value target "currentValue" value)
         | _ =>
             throw (InvariantViolation
                      "setContextCurrentValue failed to set the currentValue")
         end) s
    with
    | (Ok _, s') =>
        exists target,
          written_context (realm s) contextObject = Some target
          /\ instanceof target ObjectValue = true
          /\ s' = set_realm
                    (assign_descriptor_value target "currentValue" value) s
          /\ currentValue_binding (realm s') target = Some value
    | (Throw e, s') =>
        s' = s /\ exists m, e = InvariantViolation m \/ e = ExpectedBailOut m
    | (Diverge, _) => False
    end).
  { intros target Htarget. destruct (instanceof target ObjectValue) eqn:Hobj;
      cbn [negb]; [|unfold throw; eauto].
    unfold bind, readHost, throw, modifyRealm, modify. cbn [fst snd].
    destruct (properties_get (realm s) target "currentValue")
      as [[[d|]]|] eqn:Hget; eauto.
    exists target. split; [exact Htarget|].
    split; [exact Hobj|]. split; [reflexivity|].
    unfold currentValue_binding, properties_get, properties_of,
      assign_descriptor_value, set_properties. cbn.
    rewrite lookup_insert_eq. cbn. rewrite assoc_get_update.
    unfold properties_get in Hget. rewrite Hget. reflexivity. }
  unfold setContextCurrentValue.
  unfold bind at 1, readHost at 1. cbn [fst snd].
  unfold written_context in *.
  destruct (instanceof contextObject AbstractObjectValue
            && negb (values_isTop host (realm s) contextObject)).
  - unfold bind at 1, bind at 1, readHost at 1. cbn [fst snd].
    destruct (values_getElements host (realm s) contextObject)
      as [[|first rest]|]; unfold throw, ret; eauto.
    apply Hwrite. reflexivity.
  - unfold bind at 1, ret. apply Hwrite. reflexivity.
Qed.

(** * The references to contexts *)

(** [_hasReferenceForContextNode] reads the count and compares it with 0. *)
Lemma hasReferenceForContextNode_reads c s :
  _hasReferenceForContextNode c s = (Ok (bool_decide (0 < references s c)), s).
Proof.
  unfold _hasReferenceForContextNode, references, bind, gets, ret.
  cbn [fst snd].
  destruct (contextNodeReferences (componentTreeState s) !! c) as [[|p|p]|];
    reflexivity.
Qed.

(** X12. Counting a reference and giving it up: on a count that is not
    negative, after [_incremementReferenceForContextNode] the context is
    referenced ([_hasReferenceForContextNode] answers true); after the
    [_decremementReferenceForContextNode] that follows, every context has
    the count it had before, and the context is referenced only if it was
    before. *)
Theorem reference_counting_round_trip (contextNode : Value) (s : Reconciler) :
  0 <= references s contextNode ->
  let counted := snd (_incremementReferenceForContextNode contextNode s) in
  let released := snd (_decremementReferenceForContextNode contextNode counted) in
  fst (_hasReferenceForContextNode contextNode counted) = Ok true
  /\ (forall c, references released c = references s c)
  /\ fst (_hasReferenceForContextNode contextNode released)
     = fst (_hasReferenceForContextNode contextNode s).
Proof.
  intros Hcount. cbv zeta.
  assert (Hsame : forall c,
    references
      (snd (_decremementReferenceForContextNode contextNode
              (snd (_incremementReferenceForContextNode contextNode s)))) c
    = references s c).
  { intros c. rewrite references_after_decrement, !references_after_increment.
    repeat case_decide; subst; try lia; congruence. }
  rewrite !hasReferenceForContextNode_reads. cbn [fst].
  split; [|split; [exact Hsame|rewrite Hsame; reflexivity]].
  f_equal. apply bool_decide_eq_true. rewrite references_after_increment.
  rewrite decide_True by reflexivity. case_decide; lia.
Qed.

(** X13. A consumer is inlined only in first-render-only mode and under a
    provider of its context.  When the fold is not first-render-only, or
    when the count of references to the context (the [type] of the element)
    is not positive, [_resolveContextConsumerComponent] never returns a
    value: the render prop is not called, the realm and the statistics are
    as they were, and the report node it made is still RENDER_PROPS. *)
Theorem consumer_without_reference_is_not_inlined (fuel : nat)
    (componentType reactElement context : Value) (evaluatedNode : NodeRef)
    (s : Reconciler) :
  firstRenderOnly (componentTreeConfig s) = false
  \/ references s (getProperty host (realm s) reactElement "type") <= 0 ->
  let '(r, s') :=
    _resolveContextConsumerComponent fuel componentType reactElement context
      evaluatedNode s in
  realm s' = realm s
  /\ statistics s' = statistics s
  /\ status (node_at s' (fresh (dom (nodes s)))) = NODE_RENDER_PROPS
  /\ forall v, r <> Ok (Some v).
Proof.
  intros Hno.
  set (typeValue := getProperty host (realm s) reactElement "type") in *.
  set (child := fresh (dom (nodes s))).
  assert (Hoff : forall s1,
    componentTreeConfig s1 = componentTreeConfig s ->
    contextNodeReferences (componentTreeState s1)
    = contextNodeReferences (componentTreeState s) ->
    firstRenderOnly (componentTreeConfig s1)
    && (instanceof typeValue ObjectValue
        || instanceof typeValue AbstractObjectValue)
    && bool_decide (0 < references s1 typeValue) = false).
  { intros s1 Hcfg Hrefs. unfold references. rewrite Hcfg, Hrefs.
    destruct Hno as [->|Hle]; [reflexivity|].
    rewrite (bool_decide_eq_false_2 (0 < _)) by (unfold references in Hle; lia).
    apply andb_false_r. }
  unfold _resolveContextConsumerComponent.
  cbv beta iota zeta delta
    [bind readHost gets ret throw createReactEvaluatedNode children_push
     modify deadEnds_increment fst snd].
  fold typeValue. fold child.
  lazymatch goal with
  | |- let '(_, _) := (if _ then _ else _) ?st in _ => set (s0 := st)
  end.
  lazymatch goal with
  | |- let '(_, _) := (if ?c then _ else _) s0 in _ => destruct c
  end; cbv beta.
  2:{ subst s0 child. unfold node_at. cbn. rewrite lookup_insert_eq.
      repeat split; try reflexivity. discriminate. }
  assert (Hchild0 : exists nd, nodes s0 !! child = Some nd
                               /\ status nd = NODE_RENDER_PROPS).
  { eexists. subst s0. cbn. fold child. rewrite lookup_insert_eq.
    split; reflexivity. }
  destruct Hchild0 as (nd0 & Hchild0 & Hstatus0).
  assert (H0 : realm s0 = realm s /\ statistics s0 = statistics s
               /\ componentTreeConfig s0 = componentTreeConfig s
               /\ contextNodeReferences (componentTreeState s0)
                  = contextNodeReferences (componentTreeState s))
    by (subst s0; repeat split; reflexivity).
  destruct H0 as (Hr0 & Hstat0 & Hcfg0 & Hrefs0).
  clearbody s0.
  (* the search of the props *)
  lazymatch goal with
  | |- context [_findReactComponentTrees ?fu ?v ?c ?t ?a ?b s0] =>
      pose proof (findReactComponentTrees_frame fu v c t a b s0) as Hframe;
      pose proof (findReactComponentTrees_keeps_nodes fu v c t a b s0 child)
        as Hn1;
      destruct (_findReactComponentTrees fu v c t a b s0) as [[[]|e|] s1]
  end;
    cbn [fst snd] in *; cbv beta iota;
    rewrite Hchild0 in Hn1; specialize (Hn1 (mk_is_Some _ _ eq_refl));
    destruct Hframe as (Hr & Hstat & _ & _ & _ & Hcfg & _ & _ & _ & Hrefs);
    try (unfold node_at; rewrite Hn1; cbn [from_option id];
         repeat split; try congruence; discriminate).
  assert (Hqueue : forall f,
    let '(r, s') :=
      (let '(r0, s2) :=
         _queueOptimizedClosure f child (Some componentType) (Some context) s1
       in match r0 with
          | Ok _ => (Ok None, s2)
          | Throw e => (Throw e, s2)
          | Diverge => (Diverge, s2)
          end) in
    realm s' = realm s /\ statistics s' = statistics s
    /\ status (node_at s' child) = NODE_RENDER_PROPS
    /\ forall v, r <> Ok (@Some Value v)).
  { intros f. unfold _queueOptimizedClosure, bind, readHost, ret, modify.
    cbn [fst snd].
    destruct (react_optimizeNestedFunctions (realm s1)); cbn;
      unfold node_at; cbn; rewrite Hn1; cbn;
      repeat split; try congruence; discriminate. }
  lazymatch goal with
  | |- let '(_, _) := (if ?c then _ else _) s1 in _ => destruct c
  end; cbv beta.
  - specialize (Hoff s1 ltac:(congruence) ltac:(congruence)).
    destruct (firstRenderOnly (componentTreeConfig s1)
              && (instanceof typeValue ObjectValue
                  || instanceof typeValue AbstractObjectValue)) eqn:Hfirst;
      cbv beta.
    + rewrite hasReferenceForContextNode_reads.
      cbn [andb] in Hoff. rewrite Hoff. apply Hqueue.
    + apply Hqueue.
  - lazymatch goal with
    | |- context [_findReactComponentTrees ?fu ?v ?c ?t ?a ?b s1] =>
        pose proof (findReactComponentTrees_frame fu v c t a b s1) as Hframe;
        pose proof (findReactComponentTrees_keeps_nodes fu v c t a b s1 child)
          as Hn2;
        destruct (_findReactComponentTrees fu v c t a b s1) as [[[]|e|] s2]
    end;
      cbn [fst snd] in *; cbv beta iota;
      rewrite Hn1 in Hn2; specialize (Hn2 (mk_is_Some _ _ eq_refl));
      destruct Hframe as (Hr2 & Hstat2 & _);
      unfold node_at; cbn; rewrite Hn2; cbn [from_option id];
      repeat split; try congruence; discriminate.
Qed.

(** * The result of a component *)

(** What a computation returns, when it returns. *)
Definition Returns {A} (P : A -> Prop) (m : M A) : Prop :=
  forall s a s', m s = (Ok a, s') -> P a.

Lemma Returns_ret {A} (P : A -> Prop) a : P a -> Returns P (ret a).
Proof. intros H s b s' Heq. unfold ret in Heq. congruence. Qed.

Lemma Returns_throw {A} (P : A -> Prop) e : Returns P (throw e).
Proof. intros s a s' Heq. discriminate. Qed.

Lemma Returns_diverge {A} (P : A -> Prop) : Returns P diverge.
Proof. intros s a s' Heq. discriminate. Qed.

Lemma Returns_bind {A B} (P : B -> Prop) (m : M A) (k : A -> M B) :
  (forall a, Returns P (k a)) -> Returns P (bind m k).
Proof.
  intros Hk s b s' Heq. apply bind_Ok_inv in Heq as (a & s1 & _ & Heq).
  exact (Hk a s1 b s' Heq).
Qed.

Ltac returns :=
  repeat (cbv beta iota zeta;
          lazymatch goal with
          | |- Returns _ (bind _ _) => apply Returns_bind; intros
          | |- Returns _ (throw _) => apply Returns_throw
          | |- Returns _ (ret _) => apply Returns_ret; reflexivity
          | |- Returns _ (if ?b then _ else _) => destruct b
          | |- Returns _ (match ?x with _ => _ end) => destruct x
          | |- _ => solve [auto]
          end).

Lemma resolveComponent_body_context
    (rd : Value -> Value -> Value -> BranchStatusEnum -> NodeRef -> M Value)
    (rc : Value -> Value -> Value -> BranchStatusEnum -> NodeRef
          -> M (Value * Value)) :
  (forall ct p ctx bs n, Returns (fun r => snd r = ctx) (rc ct p ctx bs n)) ->
  forall ct p ctx bs n,
    Returns (fun r => snd r = ctx) (_resolveComponent_body rd rc ct p ctx bs n).
Proof.
  intros Hrc ct p ctx bs n.
  unfold _resolveComponent_body, _resolveRelayContainer. returns.
Qed.

(** X14. [_resolveComponent] never changes the context: whenever it
    returns, the [childContext] of its result is the context it was given,
    whatever the component, through a Relay container as well. *)
Theorem resolveComponent_keeps_context (fuel : nat)
    (componentType props context : Value) (branchStatus : BranchStatusEnum)
    (evaluatedNode : NodeRef) (s : Reconciler) (render : Value * Value)
    (s' : Reconciler) :
  _resolveComponent fuel componentType props context branchStatus
    evaluatedNode s = (Ok render, s') ->
  snd render = context.
Proof.
  revert componentType props context branchStatus evaluatedNode s render s'.
  change (forall ct p ctx bs n,
            Returns (fun r => snd r = ctx) (_resolveComponent fuel ct p ctx bs n)).
  induction fuel as [|fuel IH]; intros ct p ctx bs n.
  - apply Returns_diverge.
  - apply resolveComponent_body_context. exact IH.
Qed.

(** * The nested closures that have been resolved *)

Definition same_closures (s s' : Reconciler) : Prop :=
  alreadyEvaluatedNestedClosures s' = alreadyEvaluatedNestedClosures s.

Lemma resolveDeeply_same_closures fuel ct v ctx bs n s :
  same_closures s (snd (_resolveDeeply fuel ct v ctx bs n s)).
Proof.
  apply (Pres_resolveDeeply_any same_closures); unfold same_closures;
    intros; simpl; congruence.
Qed.

Lemma mapM_liftHost_same_closures {A B} (f : A -> M B) l s :
  (forall a s0, same_closures s0 (snd (f a s0))) ->
  same_closures s (snd (mapM f l s)).
Proof.
  intros Hf. apply (Pres_mapM same_closures).
  - intros s0. reflexivity.
  - intros s1 s2 s3 H12 H23. unfold same_closures in *. congruence.
  - intros a s0. apply Hf.
Qed.

(** The function that [resolveNestedOptimizedClosure] optimizes (lines
    212-226): the function it was given, or, for a bound function, its
    [$BoundTargetFunction], read in the realm in which the closure is
    evaluated (global environment, pure scope, nested effects applied,
    effects being captured). *)
Definition closure_target (r : Realm) (nestedEffects : list Effects)
    (func : Value) : Value :=
  if instanceof func BoundFunctionValue then
    BoundTargetFunction host
      (beginEffects host
         (applyNestedEffects host nestedEffects
            (enterPure host (enterGlobalEnv host r))))
      func
  else func.

(** X15. A nested closure that has been resolved is recorded.  When
    [resolveNestedOptimizedClosure] returns, exactly one function has been
    added to [alreadyEvaluatedNestedClosures]: the function given, or, when
    that one is a bound function, its [$BoundTargetFunction] (and the bound
    function itself is not recorded); it is a source function, and
    [hasEvaluatedNestedClosure] answers true for it. *)
Theorem resolveNestedOptimizedClosure_records_target (fuel : nat)
    (func : Value) (nestedEffects : list Effects)
    (componentType context : option Value) (evaluatedNode : NodeRef)
    (s : Reconciler) (effects : Effects) (s' : Reconciler) :
  resolveNestedOptimizedClosure fuel func nestedEffects componentType context
    evaluatedNode s = (Ok effects, s') ->
  let target := closure_target (realm s) nestedEffects func in
  alreadyEvaluatedNestedClosures s'
  = alreadyEvaluatedNestedClosures s ∪ {[target]}
  /\ instanceof target ECMAScriptSourceFunctionValue = true
  /\ fst (hasEvaluatedNestedClosure target s') = Ok true.
Proof.
  intros Hrun. unfold resolveNestedOptimizedClosure in Hrun.
  cbv zeta in Hrun.
  step Hrun effects0 s1 Hwrap.
  unfold _handleNestedOptimizedClosuresFromEffects, bind, modify, ret in Hrun.
  inv_pair Hrun.
  unfold wrapInGlobalEnv in Hwrap. step_prim Hwrap.
  apply tryFinally_inv in Hwrap as (s2 & Hpure & ->).
  unfold evaluatePure in Hpure. step_prim Hpure.
  apply tryFinally_inv in Hpure as (s3 & Hnested & ->).
  unfold evaluateWithNestedParentEffects in Hnested. step_prim Hnested.
  apply tryFinally_inv in Hnested as (s4 & Heff & ->).
  unfold evaluateForEffects in Heff. step_prim Heff.
  step Heff captured s5 Hthunk.
  apply liftHost_Ok_inv in Heff as (rl & _ & ->).
  apply tryCatch_Ok_inv in Hthunk as [Hthunk|(e & sx & _ & Hh)];
    [|exfalso; exact (bind_throw_not_Ok _ (fun _ => e) _ _ _ Hh)].
  cbn [alreadyEvaluatedNestedClosures set_realm set_nestedOptimizedClosures].
  lazymatch type of Hthunk with
  | _ ?st = _ => remember st as sa eqn:Hsa
  end.
  assert (Ha : alreadyEvaluatedNestedClosures sa
               = alreadyEvaluatedNestedClosures s) by (subst sa; reflexivity).
  assert (Hra : realm sa
                = beginEffects host
                    (applyNestedEffects host nestedEffects
                       (enterPure host (enterGlobalEnv host (realm s)))))
    by (subst sa; reflexivity).
  clear Hsa.
  step_prim Hthunk.
  step Hthunk bound sb Hbound.
  assert (Hb : sb = sa
               /\ fst bound = closure_target (realm s) nestedEffects func).
  { unfold closure_target. rewrite <- Hra.
    destruct (instanceof func BoundFunctionValue).
    - step_prim Hbound. step_prim Hbound. step_invariant Hbound.
      unfold ret in Hbound. inv_pair Hbound. split; reflexivity.
    - unfold ret in Hbound. inv_pair Hbound. split; reflexivity. }
  destruct Hb as [-> Hfunc]. destruct bound as [target baseObject].
  cbn [fst] in Hfunc.
  step_prim Hthunk. step_prim Hthunk. step_invariant Hthunk.
  step_prim Hthunk. step_prim Hthunk.
  step Hthunk call_args s6 Hargs.
  apply tryCatch_Ok_inv in Hthunk as [Hbody|(e & sx & _ & Hh)];
    [|exfalso; exact (bind_throw_not_Ok _ _ _ _ _ Hh)].
  assert (Hc : same_closures
                 (set_alreadyEvaluatedNestedClosures
                    (fun st => st ∪ {[target]}) sa) s6).
  { lazymatch type of Hargs with
    | ?m ?st = _ =>
        assert (Hm : same_closures st (snd (m st)));
          [|rewrite Hargs in Hm; exact Hm]
    end.
    destruct (getLength host (realm sa) target) as [len|];
      [|reflexivity].
    destruct (FormalParameters host (realm sa) target) as [params|];
      [|reflexivity].
    destruct (0 <? len); [|reflexivity].
    apply mapM_liftHost_same_closures. intros parameterId s0.
    destruct (isIdentifier parameterId).
    - unfold liftHost. destruct (createAbstractArgument _ _ _ _).
      reflexivity.
    - unfold bind, liftHost, throw. destruct (handleError _ _ _ _) as [[]].
      all: reflexivity. }
  step_invariant Hbody.
  step Hbody called s7 Hcall.
  apply liftHost_Ok_inv in Hcall as (rl1 & _ & ->).
  destruct componentType as [componentType|];
    [|unfold throw in Hbody; discriminate Hbody].
  destruct context as [context|];
    [|unfold throw in Hbody; discriminate Hbody].
  step_invariant Hbody.
  step Hbody resolved s8 Hdeep.
  unfold optimizedNestedClosures_increment in Hbody. step_prim Hbody.
  unfold ret in Hbody. inv_pair Hbody.
  cbn [alreadyEvaluatedNestedClosures set_statistics].
  lazymatch type of Hdeep with
  | _ ?st = _ =>
      pose proof (resolveDeeply_same_closures fuel componentType called context
                    NEW_BRANCH evaluatedNode st) as Hd
  end.
  rewrite Hdeep in Hd. unfold same_closures in Hd, Hc. cbn in Hd, Hc.
  cbv zeta. rewrite <- Hfunc.
  assert (Hset : alreadyEvaluatedNestedClosures s8
                 = alreadyEvaluatedNestedClosures s ∪ {[target]})
    by congruence.
  split; [exact Hset|]. split; [assumption|].
  unfold hasEvaluatedNestedClosure, gets. cbn. f_equal.
  apply bool_decide_eq_true. rewrite Hset.
  apply elem_of_union_r, elem_of_singleton. reflexivity.
Qed.

(** * Leaves and shared children *)

(** An element whose props have no [children] is its own resolution. *)
Lemma resolveReactElementHostChildren_no_children
    (rd : Value -> Value -> Value -> BranchStatusEnum -> NodeRef -> M Value)
    componentType reactElement context branchStatus evaluatedNode s :
  instanceof (getProperty host (realm s) reactElement "props") ObjectValue
  && properties_has (realm s) (getProperty host (realm s) reactElement "props")
       "children" = false ->
  _resolveReactElementHostChildren rd componentType reactElement context
    branchStatus evaluatedNode s = (Ok reactElement, s).
Proof.
  intros Hno. unfold _resolveReactElementHostChildren.
  rewrite !bind_readHost, Hno. reflexivity.
Qed.

Lemma instanceof_not_abstract v C :
  C = StringValue \/ C = ObjectValue ->
  instanceof v C = true -> instanceof v AbstractValue = false.
Proof.
  intros [->| ->]; unfold instanceof; destruct (vclass v); done.
Qed.

Lemma resolveReactElement_host_leaf fuel
    (rd : Value -> Value -> Value -> BranchStatusEnum -> NodeRef -> M Value)
    (rc : Value -> Value -> Value -> BranchStatusEnum -> NodeRef
          -> M (Value * Value))
    componentType reactElement context branchStatus evaluatedNode s :
  firstRenderOnly (componentTreeConfig s) = false ->
  instanceof (getProperty host (realm s) reactElement "type") StringValue
  = true ->
  instanceof (getProperty host (realm s) reactElement "props") ObjectValue
  = true ->
  properties_has (realm s) (getProperty host (realm s) reactElement "props")
    "children" = false ->
  _resolveReactElement fuel rd rc componentType reactElement context
    branchStatus evaluatedNode s = (Ok reactElement, s).
Proof.
  intros Hfirst Htype Hprops Hchildren. unfold _resolveReactElement.
  rewrite bind_gets, Hfirst, bind_ret, !bind_readHost.
  rewrite (instanceof_not_abstract _ StringValue (or_introl eq_refl) Htype).
  rewrite (instanceof_not_abstract _ ObjectValue (or_intror eq_refl) Hprops).
  cbn [andb negb]. rewrite !bind_invariant_true, Htype.
  apply resolveReactElementHostChildren_no_children.
  rewrite Hprops, Hchildren. reflexivity.
Qed.

(** X16. A host element without children is resolved to itself.  Outside
    first-render-only mode, take a final object that is a React element
    whose [type] is a string and whose [props] are an object with no
    [children]: [_resolveDeeply], with any fuel but none, returns that very
    element and changes nothing, not even the report. *)
Theorem host_element_without_children_is_a_leaf (fuel : nat)
    (componentType value context : Value) (branchStatus : BranchStatusEnum)
    (evaluatedNode : NodeRef) (s : Reconciler) :
  vclass value = ObjectValue ->
  isFinal_defined host (realm s) value = true ->
  isReactElement host (realm s) value = true ->
  firstRenderOnly (componentTreeConfig s) = false ->
  instanceof (getProperty host (realm s) value "type") StringValue = true ->
  instanceof (getProperty host (realm s) value "props") ObjectValue = true ->
  properties_has (realm s) (getProperty host (realm s) value "props")
    "children" = false ->
  _resolveDeeply (S fuel) componentType value context branchStatus
    evaluatedNode s = (Ok value, s).
Proof.
  intros Hclass Hfinal Helement Hfirst Htype Hprops Hchildren.
  cbn [_resolveDeeply]. unfold _resolveDeeply_body.
  assert (Hinst : forall C, instanceof value C = subclass ObjectValue C)
    by (intros C; unfold instanceof; rewrite Hclass; reflexivity).
  rewrite !Hinst.
  change (subclass ObjectValue StringValue) with false.
  change (subclass ObjectValue NumberValue) with false.
  change (subclass ObjectValue BooleanValue) with false.
  change (subclass ObjectValue NullValue) with false.
  change (subclass ObjectValue UndefinedValue) with false.
  change (subclass ObjectValue AbstractValue) with false.
  change (subclass ObjectValue ArrayValue) with false.
  change (subclass ObjectValue ObjectValue) with true.
  cbn [orb andb negb].
  rewrite bind_readHost, Hfinal, bind_invariant_true, bind_readHost, Helement.
  apply resolveReactElement_host_leaf; assumption.
Qed.

(** The state that [hasEvaluatedRootNode] leaves when the component is in
    the table: one report node has been written. *)
Lemma hasEvaluatedRootNode_writes componentType evaluateNode
    alreadyEvaluatedNode s :
  alreadyEvaluatedRootNodes s !! componentType = Some alreadyEvaluatedNode ->
  snd (hasEvaluatedRootNode componentType evaluateNode s)
  = set_nodes (fun nds =>
      <[evaluateNode :=
          mkNode (children (node_at s alreadyEvaluatedNode))
            (message (node_at s evaluateNode))
            (name (node_at s alreadyEvaluatedNode))
            (status (node_at s alreadyEvaluatedNode))]> nds) s.
Proof.
  intros Hmemo.
  unfold hasEvaluatedRootNode, bind, gets. cbn [fst snd]. rewrite Hmemo.
  unfold assign_children, assign_status, assign_name, update_node, modify,
    bind, ret. cbn [fst snd].
  destruct s as [r st lg cts memo cl cfg closures branches nds ars].
  unfold set_nodes, node_at. cbn [nodes realm statistics logger
    componentTreeState alreadyEvaluatedRootNodes
    alreadyEvaluatedNestedClosures componentTreeConfig
    nestedOptimizedClosures branchedComponentTrees arrays].
  f_equal. rewrite !lookup_insert_eq. cbn [from_option id children message
    name status].
  rewrite !insert_insert_eq.
  destruct (decide (evaluateNode = alreadyEvaluatedNode)) as [->|Hne].
  - rewrite !lookup_insert_eq. reflexivity.
  - rewrite !(lookup_insert_ne _ evaluateNode alreadyEvaluatedNode)
      by assumption.
    reflexivity.
Qed.

(** X17. A memoized root shares its children.  When the component is in
    [alreadyEvaluatedRootNodes], the report node that [hasEvaluatedRootNode]
    fills holds the very array of children of the memoized node: a child
    pushed afterwards on either node is the last child of both. *)
Theorem memoized_root_shares_children (componentType : Value)
    (evaluateNode alreadyEvaluatedNode child : NodeRef) (s : Reconciler) :
  alreadyEvaluatedRootNodes s !! componentType = Some alreadyEvaluatedNode ->
  let s1 := snd (hasEvaluatedRootNode componentType evaluateNode s) in
  let pushed n := snd (children_push n child s1) in
  children_of (pushed evaluateNode) alreadyEvaluatedNode
  = children_of s alreadyEvaluatedNode ++ [child]
  /\ children_of (pushed evaluateNode) evaluateNode
     = children_of s alreadyEvaluatedNode ++ [child]
  /\ children_of (pushed alreadyEvaluatedNode) evaluateNode
     = children_of s alreadyEvaluatedNode ++ [child].
Proof.
  intros Hmemo. cbv zeta.
  rewrite (hasEvaluatedRootNode_writes _ _ _ _ Hmemo).
  set (shared := children (node_at s alreadyEvaluatedNode)).
  set (written := mkNode shared (message (node_at s evaluateNode))
                    (name (node_at s alreadyEvaluatedNode))
                    (status (node_at s alreadyEvaluatedNode))).
  set (s1 := set_nodes (fun nds => <[evaluateNode := written]> nds) s).
  assert (Hn : children (node_at s1 evaluateNode) = shared).
  { unfold node_at, s1. cbn. rewrite lookup_insert_eq. reflexivity. }
  assert (Hm : children (node_at s1 alreadyEvaluatedNode) = shared).
  { unfold node_at, s1. cbn.
    destruct (decide (evaluateNode = alreadyEvaluatedNode)) as [->|Hne].
    - rewrite lookup_insert_eq. reflexivity.
    - rewrite lookup_insert_ne by assumption. reflexivity. }
  assert (Hpush : forall n m,
    children (node_at s1 n) = shared -> children (node_at s1 m) = shared ->
    children_of (snd (children_push n child s1)) m
    = children_of s alreadyEvaluatedNode ++ [child]).
  { intros n m H1 H2. unfold children_push, modify. cbn [snd].
    unfold children_of at 1, array_at at 1.
    change (node_at (set_arrays _ s1) m) with (node_at s1 m).
    rewrite H1, H2. cbn [arrays set_arrays]. rewrite lookup_insert_eq.
    reflexivity. }
  auto.
Qed.

(** * Dead ends, side effects and annotations *)

(** X21. An abstract value that the reconciler knows nothing about is a
    dead end.  When the evaluator has a generator, [_resolveDeeply] (with
    any fuel but none) resolves an abstract value that is not conditional
    and has no React hint to itself, and the only change is that [deadEnds]
    is one more. *)
Theorem unknown_abstract_value_is_a_dead_end (fuel : nat)
    (componentType value context : Value) (branchStatus : BranchStatusEnum)
    (evaluatedNode : NodeRef) (s : Reconciler) :
  instanceof value AbstractValue = true ->
  generator (realm s) = true ->
  kind host (realm s) value <> Some "conditional" ->
  react_abstractHints (realm s) !! value = None ->
  _resolveDeeply (S fuel) componentType value context branchStatus
    evaluatedNode s
  = (Ok value,
     set_componentTreeState (set_deadEnds (fun n => n + 1)) s).
Proof.
  intros Habstract Hgen Hkind Hhint.
  cbn [_resolveDeeply]. unfold _resolveDeeply_body.
  assert (Hclass : instanceof value StringValue = false
                   /\ instanceof value NumberValue = false
                   /\ instanceof value BooleanValue = false
                   /\ instanceof value NullValue = false
                   /\ instanceof value UndefinedValue = false
                   /\ instanceof value ObjectValue = false).
  { revert Habstract. unfold instanceof. destruct (vclass value); done. }
  destruct Hclass as (-> & -> & -> & -> & -> & ->). cbn [orb negb].
  rewrite bind_readHost, bind_invariant_true, Habstract.
  unfold _resolveAbstractValue.
  rewrite bind_readHost, Hgen, bind_invariant_true, bind_readHost.
  rewrite bool_decide_eq_false_2 by assumption.
  rewrite !bind_readHost, Hhint. reflexivity.
Qed.

(** X22. A reported side effect is fatal wherever it is caught.
    [_handleReportedSideEffect] throws for every kind of side effect, and
    leaves the state alone; the error it throws is turned into a
    ReconcilerFatalError by the handler of the root, naming the root node,
    and by the handler of an element, naming the report node of the
    element.  Either handler leaves that node marked: its status is FATAL
    and its message is the message of the error; nothing else changes. *)
Theorem reported_side_effect_is_fatal (sideEffectType : SideEffectType)
    (binding : option string) (expressionLocation : Location) (fuel : nat)
    (reactElement : Value) (node : NodeRef) (branchStatus : BranchStatusEnum)
    (s : Reconciler) :
  exists error,
    _handleReportedSideEffect sideEffectType binding expressionLocation s
    = (Throw error, s)
    /\ (exists m s',
          _handleComponentTreeRootFailure error node s
          = (Throw (ReconcilerFatalError m node), s')
          /\ marks_fatal m node s s')
    /\ (exists m s',
          _resolveComponentResolutionFailure fuel error reactElement node
            branchStatus s
          = (Throw (ReconcilerFatalError m node), s')
          /\ marks_fatal m node s s').
Proof.
  destruct sideEffectType; eexists; (split; [reflexivity|]); split;
    unfold _handleComponentTreeRootFailure,
      _resolveComponentResolutionFailure;
    rewrite bind_gets, fatal_throws; eexists; eexists;
    (split; [reflexivity|apply newReconcilerFatalError_marks_fatal]).
Qed.

(** The reasons, as [_assignBailOutMessage] joins them. *)
Fixpoint joined_reasons (reason : string) (messages : list string) : string :=
  match messages with
  | [] => reason
  | m :: messages =>
      joined_reasons (reason +:+ ", " +:+ "Bail-out: " +:+ m) messages
  end.

Lemma assignBailOutMessages_after reactElement messages :
  forall reason s,
    BailOutReason (realm s) !! reactElement = Some reason ->
    BailOutReason
      (realm (snd (forEach messages (_assignBailOutMessage reactElement) s)))
      !! reactElement
    = Some (joined_reasons reason messages).
Proof.
  induction messages as [|m messages IH]; intros reason s Hreason.
  - exact Hreason.
  - cbn [forEach joined_reasons].
    unfold bind at 1, _assignBailOutMessage at 1, modifyRealm, modify.
    cbn [fst snd]. apply IH. cbn. rewrite lookup_insert_eq, Hreason.
    reflexivity.
Qed.

(** X23. Bail-out reasons accumulate in order, however many there are.
    Annotating an element that has no reason yet with the messages [m] and
    then [messages], one call of [_assignBailOutMessage] each, leaves in
    [$BailOutReason] the text "Bail-out: m" followed, for each further
    message in order, by ", Bail-out: " and the message. *)
Theorem bailOut_reasons_are_joined_in_order (reactElement : Value)
    (m : string) (messages : list string) (s : Reconciler) :
  BailOutReason (realm s) !! reactElement = None ->
  BailOutReason
    (realm
       (snd (forEach (m :: messages) (_assignBailOutMessage reactElement) s)))
    !! reactElement
  = Some (joined_reasons ("Bail-out: " +:+ m) messages).
Proof.
  intros Hnone. cbn [forEach].
  unfold bind at 1, _assignBailOutMessage at 1, modifyRealm, modify.
  cbn [fst snd]. apply assignBailOutMessages_after.
  cbn. rewrite lookup_insert_eq, Hnone. reflexivity.
Qed.

(** X24. A Relay QueryRenderer is not rendered by the fold.  Whatever the
    element and however it ends, [_resolveRelayQueryRendererComponent] only
    reports and queues: the realm (so no user code runs), the statistics,
    the log, the memoization tables, the configuration and the tree state
    apart from [deadEnds] are what they were. *)
Theorem queryRenderer_is_only_queued (fuel : nat)
    (componentType reactElement context : Value) (evaluatedNode : NodeRef)
    (s : Reconciler) :
  search_frame s
    (snd (_resolveRelayQueryRendererComponent fuel componentType reactElement
            context evaluatedNode s)).
Proof.
  apply Pres_resolveRelayQueryRendererComponent
    with (Modifiable := fun _ => True);
    try (apply Pres_create_total);
    try (intros; unfold search_frame in *; simpl in *;
         intuition congruence).
Qed.
(** * The resolution of a composite element

    The failure handler of an element is installed by [_resolveReactElement]
    (lines 1125-1191), around the resolution of the component and around
    what is done with its result; the handler of the root is installed by
    [resolveReactComponentTree] (lines 166-181). *)

(** The element that [_resolveReactElement] works on (lines 1087-1089): in
    first-render-only mode, what the sanitizer makes of the element. *)
Definition sanitized (reactElement : Value) : M Value :=
  let! config := gets componentTreeConfig in
  if firstRenderOnly config then
    liftHost (sanitizeReactElementForFirstRenderOnly host reactElement)
  else ret reactElement.



(** ** C3: the "do not optimize" signal *)


(** ** C10: a component whose render gives [undefined] *)



(** ** C7: the memoization of roots *)

(** A computation that neither reads nor writes [alreadyEvaluatedRootNodes]:
    it does the same whatever the table holds, and leaves the table alone. *)
Definition table_blind {A} (m : M A) : Prop :=
  forall g s,
    m (set_alreadyEvaluatedRootNodes g s)
    = (fst (m s), set_alreadyEvaluatedRootNodes g (snd (m s))).

Lemma table_blind_ret {A} (a : A) : table_blind (ret a).
Proof. intros g s. reflexivity. Qed.

Lemma table_blind_throw {A} e : table_blind (throw e : M A).
Proof. intros g s. reflexivity. Qed.

Lemma table_blind_liftHost {A} (h : HostM A) : table_blind (liftHost h).
Proof.
  intros g s. unfold liftHost. cbn [realm set_alreadyEvaluatedRootNodes].
  destruct (h (realm s)). reflexivity.
Qed.

Lemma table_blind_readHost {A} (f : Realm -> A) : table_blind (readHost f).
Proof. intros g s. reflexivity. Qed.

Lemma table_blind_modifyRealm f : table_blind (modifyRealm f).
Proof. intros g s. reflexivity. Qed.

Lemma table_blind_invariant b msg : table_blind (invariant b msg).
Proof. intros g s. destruct b; reflexivity. Qed.

Lemma table_blind_bind {A B} (m : M A) (k : A -> M B) :
  table_blind m -> (forall a, table_blind (k a)) -> table_blind (bind m k).
Proof.
  intros Hm Hk g s. unfold bind. rewrite Hm.
  destruct (m s) as [[a|e|] s1]; cbn [fst snd]; [apply Hk| |]; reflexivity.
Qed.

Lemma table_blind_newReconcilerFatalError msg n :
  table_blind (newReconcilerFatalError msg n).
Proof. intros g s. reflexivity. Qed.

Lemma table_blind_completion_message_stack v :
  table_blind (completion_message_stack v).
Proof.
  unfold completion_message_stack.
  repeat first
    [ apply table_blind_bind; [|intros ?]
    | apply table_blind_invariant | apply table_blind_readHost
    | apply table_blind_ret ].
Qed.

Lemma table_blind_handleComponentTreeRootFailure e n :
  table_blind (_handleComponentTreeRootFailure e n).
Proof.
  unfold _handleComponentTreeRootFailure.
  apply table_blind_bind; [intros g s; reflexivity|]. intros rootName.
  cbv zeta.
  destruct e;
    repeat first
      [ apply table_blind_newReconcilerFatalError
      | apply table_blind_completion_message_stack
      | apply table_blind_throw
      | apply table_blind_bind; [|intros ?] ].
Qed.

(** Two outcomes that differ at most by what [g] does to the table. *)
Definition same_up_to {A} (g : gmap Value NodeRef -> gmap Value NodeRef)
    (x y : Res A * Reconciler) : Prop :=
  fst x = fst y
  /\ (snd x = snd y \/ snd x = set_alreadyEvaluatedRootNodes g (snd y)).

Definition table_up_to {A} g (m : M A) : Prop :=
  forall s, same_up_to g (m (set_alreadyEvaluatedRootNodes g s)) (m s).

Lemma table_up_to_blind_bind {A B} g (m : M A) (k : A -> M B) :
  table_blind m -> (forall a, table_up_to g (k a)) -> table_up_to g (bind m k).
Proof.
  intros Hm Hk s. unfold bind. rewrite Hm.
  destruct (m s) as [[a|e|] s1]; cbn [fst snd];
    [apply Hk | split; auto | split; auto].
Qed.

Lemma table_up_to_bind_blind {A B} g (m : M A) (k : A -> M B) :
  table_up_to g m -> (forall a, table_blind (k a)) -> table_up_to g (bind m k).
Proof.
  intros Hm Hk s. unfold bind. destruct (Hm s) as [Hr Hs].
  destruct (m (set_alreadyEvaluatedRootNodes g s)) as [r1 s1].
  destruct (m s) as [r2 s2]. cbn [fst snd] in *. subst r2.
  destruct r1 as [a|e|]; [|split; auto|split; auto].
  destruct Hs as [->| ->].
  - split; auto.
  - rewrite Hk. split; auto.
Qed.

Lemma table_up_to_tryCatch {A} g (m : M A) h :
  table_up_to g m -> (forall e, table_blind (h e)) ->
  table_up_to g (tryCatch m h).
Proof.
  intros Hm Hh s. unfold tryCatch. destruct (Hm s) as [Hr Hs].
  destruct (m (set_alreadyEvaluatedRootNodes g s)) as [r1 s1].
  destruct (m s) as [r2 s2]. cbn [fst snd] in *. subst r2.
  destruct r1 as [a|e|]; [split; auto| |split; auto].
  destruct Hs as [->| ->].
  - split; auto.
  - rewrite Hh. split; auto.
Qed.

Lemma table_up_to_tryFinally {A} g (m : M A) f :
  table_up_to g m -> table_up_to g (tryFinally m (set_realm f)).
Proof.
  intros Hm s. unfold tryFinally. destruct (Hm s) as [Hr Hs].
  destruct (m (set_alreadyEvaluatedRootNodes g s)) as [r1 s1].
  destruct (m s) as [r2 s2]. cbn [fst snd] in *. subst r2.
  split; [reflexivity|]. destruct Hs as [->| ->]; auto.
Qed.

(** [resolveReactComponentTree] writes the table before it resolves the root,
    and reads it only afterwards: what the table held for the root does not
    matter. *)
Lemma resolveReactComponentTree_ignores_table fuel componentType props
    context evaluatedRootNode g :
  (forall table,
     <[componentType := evaluatedRootNode]> (g table)
     = <[componentType := evaluatedRootNode]> table) ->
  table_up_to g
    (resolveReactComponentTree fuel componentType props context
       evaluatedRootNode).
Proof.
  intros Hg. unfold resolveReactComponentTree. cbv zeta.
  apply table_up_to_bind_blind;
    [|intros effects; apply table_blind_bind;
        [intros g0 s0; reflexivity | intros; apply table_blind_ret]].
  unfold wrapInGlobalEnv, evaluatePure, evaluateForEffects.
  apply table_up_to_blind_bind; [apply table_blind_modifyRealm|intros _].
  apply table_up_to_tryFinally.
  apply table_up_to_blind_bind; [apply table_blind_modifyRealm|intros _].
  apply table_up_to_tryFinally.
  apply table_up_to_blind_bind; [apply table_blind_modifyRealm|intros _].
  apply table_up_to_bind_blind; [|intros; apply table_blind_liftHost].
  apply table_up_to_tryCatch;
    [|intros e; apply table_blind_bind;
        [apply table_blind_modifyRealm|intros; apply table_blind_throw]].
  apply table_up_to_tryCatch;
    [|intros e; apply table_blind_bind;
        [apply table_blind_handleComponentTreeRootFailure
        |intros; apply table_blind_throw]].
  apply table_up_to_blind_bind;
    [destruct props; [apply table_blind_ret|apply table_blind_liftHost]|].
  intros initialProps.
  apply table_up_to_blind_bind;
    [destruct context; [apply table_blind_ret|apply table_blind_liftHost]|].
  intros initialContext s.
  unfold bind at 1 3, modify at 1 2. cbn [fst snd].
  replace (set_alreadyEvaluatedRootNodes
             (fun m => <[componentType := evaluatedRootNode]> m)
             (set_alreadyEvaluatedRootNodes g s))
    with (set_alreadyEvaluatedRootNodes
            (fun m => <[componentType := evaluatedRootNode]> m) s).
  - split; auto.
  - unfold set_alreadyEvaluatedRootNodes. cbn. rewrite Hg. reflexivity.
Qed.

(** The two states agree on everything but the table of roots. *)
Definition same_but_table (s1 s2 : Reconciler) : Prop :=
  set_alreadyEvaluatedRootNodes (fun _ => ∅) s1
  = set_alreadyEvaluatedRootNodes (fun _ => ∅) s2.

(** C7 (as the code has it). The lookup is memoized, the fold is not.  When
    the component is in [alreadyEvaluatedRootNodes]:
    - [hasEvaluatedRootNode] returns [true], and the report node it was
      given now has the children (the very array), the status and the name
      of the memoized node, and keeps its own message; nothing else
      changes: the realm, in which user code would run, the statistics, the
      tree state, the table, the queues, the arrays of children and every
      other node are as before;
    - [resolveReactComponentTree] does not look the component up: folding
      it again has the outcome, and leaves the state, that folding it has
      where the table does not hold it (the root is resolved, and its user
      code run, once more), and when the fold returns the table binds the
      component to the report node of this fold, in place of the memoized
      one. *)
Theorem hasEvaluatedRootNode_memoized (fuel : nat) (componentType : Value)
    (evaluateNode alreadyEvaluatedNode : NodeRef)
    (props context : option Value) (evaluatedRootNode : NodeRef)
    (s : Reconciler) :
  alreadyEvaluatedRootNodes s !! componentType = Some alreadyEvaluatedNode ->
  (exists s',
     hasEvaluatedRootNode componentType evaluateNode s = (Ok true, s')
     /\ children (node_at s' evaluateNode)
        = children (node_at s alreadyEvaluatedNode)
     /\ status (node_at s' evaluateNode)
        = status (node_at s alreadyEvaluatedNode)
     /\ name (node_at s' evaluateNode) = name (node_at s alreadyEvaluatedNode)
     /\ message (node_at s' evaluateNode) = message (node_at s evaluateNode)
     /\ children_of s' evaluateNode = children_of s alreadyEvaluatedNode
     /\ (forall n, n <> evaluateNode -> nodes s' !! n = nodes s !! n)
     /\ arrays s' = arrays s
     /\ realm s' = realm s
     /\ statistics s' = statistics s
     /\ componentTreeState s' = componentTreeState s
     /\ alreadyEvaluatedRootNodes s' = alreadyEvaluatedRootNodes s
     /\ nestedOptimizedClosures s' = nestedOptimizedClosures s
     /\ branchedComponentTrees s' = branchedComponentTrees s)
  /\ (let again :=
        resolveReactComponentTree fuel componentType props context
          evaluatedRootNode s in
      let afresh :=
        resolveReactComponentTree fuel componentType props context
          evaluatedRootNode
          (set_alreadyEvaluatedRootNodes (delete componentType) s) in
      fst again = fst afresh
      /\ same_but_table (snd again) (snd afresh)
      /\ forall effects,
           fst again = Ok effects ->
           alreadyEvaluatedRootNodes (snd again) !! componentType
           = Some evaluatedRootNode).
Proof.
  intros Hmemo. split.
  - apply hasEvaluatedRootNode_copies, Hmemo.
  - cbv zeta.
    destruct (resolveReactComponentTree_ignores_table fuel componentType
                props context evaluatedRootNode (delete componentType)
                ltac:(intros; apply insert_delete_eq) s) as [Hr Hs].
    split; [symmetry; exact Hr|]. split.
    + unfold same_but_table. destruct Hs as [->| ->]; reflexivity.
    + intros effects Hok.
      rewrite (resolveReactComponentTree_memoizes fuel componentType props
                 context evaluatedRootNode s effects _
                 ltac:(rewrite <- Hok; apply surjective_pairing)).
      apply lookup_insert_eq.
Qed.

End Model.

Arguments Realm : clear implicits.
Arguments HostM : clear implicits.
Arguments Host : clear implicits.
Arguments Reconciler : clear implicits.
Arguments M : clear implicits.

Notation "'let!' x ':=' m 'in' k" := (bind m (fun x => k))
  (at level 10, x pattern, m at level 100, k at level 200).
Notation "m ';!' k" := (bind m (fun _ => k))
  (at level 100, right associativity).

(** * Concrete folds

    A small evaluator to run the reconciler on: objects are what the realm's
    [properties] hold, reading a property reads the binding's value, and user
    functions are a table from the function and its arguments to an outcome.
    The state of the evaluator is the number of calls of user code so far. *)

Module Example.

Definition undefined : Value := mkValue UndefinedValue 0.
Definition null : Value := mkValue NullValue 0.

Definition symbol (key : string) : Value :=
  mkValue SymbolValue
    (if decide (key = "react.element") then 1
     else if decide (key = "react.fragment") then 2
     else if decide (key = "react.context") then 3
     else if decide (key = "react.provider") then 4
     else 0)%nat.

Definition readProperty (r : Realm nat) (o : Value) (k : string) : Value :=
  match properties_get r o k with
  | Some binding =>
      match descriptor binding with
      | Some d => default undefined (d_value d)
      | None => undefined
      end
  | None => undefined
  end.

Definition pureHost {A} (a : A) : HostM nat A := fun r => (Ok a, r).

(** An enumerable data property. *)
Definition prop (k : string) (v : Value) : string * PropertyBinding :=
  (k, mkBinding (Some (mkDescriptor (Some v) true))).

(** One more call of user code. *)
Definition called (r : Realm nat) : Realm nat :=
  mkRealm (intrinsics_undefined r) (intrinsics_ObjectPrototype r)
    (fbLibraries_react r) (fbLibraries_reactRelay r) (fbLibraries_reactDom r)
    (react_optimizeNestedFunctions r) (react_verbose r)
    (react_classComponentMetadata r) (react_abstractHints r)
    (react_arrayHints r) (react_propsWithNoPartialKeyOrRef r) (generator r)
    (properties r) (BailOutReason r) (S (hostState r)).

(** The element that the sanitizer makes of [reactElement]: a new object. *)
Definition copyOf (reactElement : Value) : Value :=
  mkValue ObjectValue (1000 + vid reactElement).

(** [sanitizeReactElementForFirstRenderOnly]: the props must be an object;
    the result is a new element with the type, the key and the props of the
    one given, and a null ref. *)
Definition sanitizeElement (reactElement : Value) : HostM nat Value :=
  fun r =>
    let propsValue := readProperty r reactElement "props" in
    if instanceof propsValue ObjectValue then
      (Ok (copyOf reactElement),
       set_properties (fun objects =>
         <[copyOf reactElement :=
             [ prop "$$typeof" (readProperty r reactElement "$$typeof");
               prop "type" (readProperty r reactElement "type");
               prop "props" propsValue;
               prop "key" (readProperty r reactElement "key");
               prop "ref" null ]]> objects) r)
    else (Throw (InvariantViolation EmptyString), r).

(** The evaluator: [calls] is the user code, [optedOut] the components that
    carry the [__reactCompilerDoNotOptimize] flag. *)
Definition exampleHost (calls : Value -> list Value -> Res Value)
    (optedOut : Value -> bool) : Host nat :=
  {| getProperty := readProperty;
     getReactSymbol := fun _ key => symbol key;
     getComponentName := fun _ _ => "Component";
     getComponentTypeFromRootValue := fun _ v =>
       if instanceof v ECMAScriptSourceFunctionValue then Some v else None;
     getLocationFromValue := fun _ => EmptyString;
     doNotOptimizeComponent := fun _ v => optedOut v;
     isReactElement := fun r v =>
       bool_decide (readProperty r v "$$typeof" = symbol "react.element");
     valueIsClassComponent := fun _ _ => false;
     valueIsFactoryClassComponent := fun _ _ => false;
     valueIsKnownReactAbstraction := fun _ _ => false;
     valueIsLegacyCreateClassComponent := fun _ _ => false;
     createInternalReactElement := fun _ _ _ _ => pureHost undefined;
     flagPropsWithNoPartialKeyOrRef := fun _ => pureHost tt;
     flattenChildren := fun v => pureHost v;
     getValueFromFunctionCall := fun f _ args r => (calls f args, called r);
     sanitizeReactElementForFirstRenderOnly := sanitizeElement;
     kind := fun _ _ => None;
     args := fun _ _ => [];
     values_isTop := fun _ _ => true;
     values_getElements := fun _ _ => None;
     isFinal_defined := fun _ _ => true;
     intrinsicName := fun _ _ => None;
     expressionLocation := fun _ _ => None;
     isSimpleObject := fun _ _ => false;
     isPartialObject := fun _ _ => false;
     isIntrinsicAndHasWidenedNumericProperty := fun _ _ => false;
     arrayElements := fun _ _ => [];
     BoundThis := fun _ _ => undefined;
     BoundTargetFunction := fun _ v =>
       if instanceof v BoundFunctionValue then
         mkValue ECMAScriptSourceFunctionValue (vid v)
       else v;
     getLength := fun _ _ => Some 0;
     FormalParameters := fun _ _ => Some [];
     hasCall := fun _ _ => true;
     stringValue := fun _ _ => EmptyString;
     WithBaseObject := fun _ => undefined;
     Call := fun _ _ _ => pureHost tt;
     newObjectValue := fun _ => pureHost undefined;
     newArrayValue := fun _ => pureHost undefined;
     makeSimple := fun _ => pureHost tt;
     makePartial := fun _ => pureHost tt;
     makeFinal := fun _ => pureHost tt;
     createAbstractArgument := fun _ _ => pureHost undefined;
     createAbstractObject := fun _ => pureHost undefined;
     createTemporalFromBuildFunction := fun _ => pureHost undefined;
     Get := fun o k r => (Ok (readProperty r o k), r);
     Properties_Set := fun _ _ _ => pureHost tt;
     getValueWithBranchingLogicApplied := fun _ _ v => pureHost v;
     getInitialProps := fun _ => pureHost undefined;
     getInitialContext := fun _ => pureHost undefined;
     createClassInstance := fun _ _ _ _ => pureHost undefined;
     createSimpleClassInstance := fun _ _ _ => pureHost undefined;
     evaluateClassConstructor := fun _ _ _ => pureHost (mkMetadata ∅ ∅);
     createClassInstanceForFirstRenderOnly := fun _ _ _ _ => pureHost undefined;
     applyGetDerivedStateFromProps := fun _ _ _ => pureHost tt;
     handleError := fun _ _ => pureHost tt;
     enterGlobalEnv := fun r => r;
     leaveGlobalEnv := fun r => r;
     enterPure := fun r => r;
     leavePure := fun r => r;
     beginEffects := fun r => r;
     captureEffects := fun _ => pureHost 0%nat;
     abortEffects := fun r => r;
     joinConditional := fun _ _ _ => pureHost undefined;
     applyNestedEffects := fun _ r => r;
     undoNestedEffects := fun _ r => r |}.

Definition exampleRealm (optimizeNestedFunctions : bool)
    (objects : list (Value * list (string * PropertyBinding))) : Realm nat :=
  {| intrinsics_undefined := undefined;
     intrinsics_ObjectPrototype := mkValue ObjectValue 0;
     fbLibraries_react := None;
     fbLibraries_reactRelay := None;
     fbLibraries_reactDom := None;
     react_optimizeNestedFunctions := optimizeNestedFunctions;
     react_verbose := false;
     react_classComponentMetadata := ∅;
     react_abstractHints := ∅;
     react_arrayHints := ∅;
     react_propsWithNoPartialKeyOrRef := ∅;
     generator := true;
     properties := list_to_map objects;
     BailOutReason := ∅;
     hostState := 0%nat |}.

(** A reconciler as the constructor makes it, with one report node, the root
    node that the driver made, named "Root". *)
Definition exampleReconciler (r : Realm nat) (firstRender : bool)
    : Reconciler nat :=
  new_Reconciler r (mkConfig firstRender) (mkStatistics 0 0 0 0) None
    {[ 0%nat := mkNode 0%nat None "Root" NODE_NORMAL ]}
    {[ 0%nat := [] ]}.

(** The values of the folds below. *)
Definition Root : Value := mkValue ECMAScriptSourceFunctionValue 1.
Definition rootProps : Value := mkValue ObjectValue 2.
Definition rootContext : Value := mkValue ObjectValue 3.
Definition element : Value := mkValue ObjectValue 10.
Definition contextObject : Value := mkValue ObjectValue 12.
Definition elementProps : Value := mkValue ObjectValue 13.
Definition renderChild : Value := mkValue ECMAScriptSourceFunctionValue 14.
Definition previousValue : Value := mkValue NumberValue 100.
Definition providedValue : Value := mkValue NumberValue 101.

Definition numberChild : Value := mkValue NumberValue 42.

(** [<Provider value={providedValue}>{child}</Provider>], where the provider
    object [providerType] is [contextObject.Provider] and the context holds
    [previousValue]. *)
Definition providerObjects (providerType props child : Value)
    : list (Value * list (string * PropertyBinding)) :=
  [ (element, [ prop "$$typeof" (symbol "react.element");
                prop "type" providerType;
                prop "props" props;
                prop "key" null;
                prop "ref" null ]);
    (providerType, [ prop "$$typeof" (symbol "react.provider");
                     prop "context" contextObject ]);
    (contextObject, [ prop "$$typeof" (symbol "react.context");
                      prop "currentValue" previousValue ]);
    (props, [ prop "value" providedValue;
              prop "children" child ]) ].

(** The root component renders the element; every other function returns
    [undefined]. *)
Definition rootRenders (v : Value) (f : Value) (_ : list Value) : Res Value :=
  if decide (f = Root) then Ok v else Ok undefined.

Definition nobody (_ : Value) : bool := false.

End Example.

(** ** C1: the reference count when an error escapes a provider's children *)

Section C1.
Import Example.

(** The provider type is the concrete object [contextObject.Provider]. *)
Definition providerType : Value := mkValue ObjectValue 11.

(** The provider type as an abstract object, which the reconciler accepts as
    well (lines 417 and 828). *)
Definition abstractProviderType : Value := mkValue AbstractObjectValue 11.

(** The state before the fold: the context holds [previousValue] and no
    reference is counted. *)
Definition beforeFold (provider : Value) : Reconciler nat :=
  exampleReconciler
    (exampleRealm false (providerObjects provider elementProps renderChild))
    true.

(** The root component renders [<Provider value={providedValue}>{renderChild}
    </Provider>]: the child is a function, so resolving the children throws
    the expected bail-out "invalid return value from render". *)
Definition leakingFold : Res Effects * Reconciler nat :=
  resolveReactComponentTree (exampleHost (rootRenders element) nobody) 10
    Root (Some rootProps) (Some rootContext) 0%nat (beforeFold providerType).

(** The same element with the abstract provider type, resolved below a root. *)
Definition leakingElement : Res Value * Reconciler nat :=
  _resolveDeeply (exampleHost (rootRenders element) nobody) 10
    Root element rootContext NO_BRANCH 0%nat (beforeFold abstractProviderType).

(** C1 (the code at the failing input). Before the fold the context has no
    reference and holds [previousValue].  The bail-out that escapes the
    provider's children skips lines 440-441 (and 459-460):
    - with the concrete provider type, the failure handler breaks the
      invariant of [_queueNewComponentTree] and the fold ends with that
      error, the count still 1 and the context still holding
      [providedValue];
    - with the abstract provider type, the element (the copy of it that the
      sanitizer made) is recovered, the fold goes on, and the count is still
      1 and the context still holds [providedValue]: a consumer resolved
      next finds the context referenced. *)
Theorem provider_leaks_reference_when_children_throw :
  (references (beforeFold providerType) contextObject = 0
   /\ currentValue_binding (realm (beforeFold providerType)) contextObject
      = Some previousValue
   /\ fst leakingFold = Throw (InvariantViolation EmptyString)
   /\ references (snd leakingFold) contextObject = 1
   /\ currentValue_binding (realm (snd leakingFold)) contextObject
      = Some providedValue)
  /\ (references (beforeFold abstractProviderType) contextObject = 0
      /\ currentValue_binding (realm (beforeFold abstractProviderType))
           contextObject = Some previousValue
      /\ fst leakingElement = Ok (copyOf element)
      /\ references (snd leakingElement) contextObject = 1
      /\ currentValue_binding (realm (snd leakingElement)) contextObject
         = Some providedValue
      /\ fst (_hasReferenceForContextNode contextObject (snd leakingElement))
         = Ok true).
Proof. vm_compute. repeat split; reflexivity. Qed.

End C1.
(** ** The properties at concrete inputs *)

Section Concrete.
Import Example.

Definition host0 : Host nat := exampleHost (rootRenders element) nobody.

(** The evaluator in which [component] carries the opt-out flag. *)
Definition flagged (component : Value) : Host nat :=
  exampleHost (rootRenders element) (fun v => bool_decide (v = component)).

(** A reconciler after its construction, in first-render-only mode, the
    evaluator allowing nested functions to be optimized; the root renders
    [<Provider value={providedValue}>{numberChild}</Provider>]. *)
Definition start : Reconciler nat :=
  exampleReconciler
    (exampleRealm true (providerObjects providerType elementProps numberChild))
    true.

(** [<renderChild {...elementProps} />]: an element whose type is a
    function, which renders [undefined]. *)
Definition componentObjects : list (Value * list (string * PropertyBinding)) :=
  [ (element, [ prop "$$typeof" (symbol "react.element");
                prop "type" renderChild;
                prop "props" elementProps;
                prop "key" null;
                prop "ref" null ]);
    (elementProps, [ prop "title" previousValue ]) ].

Definition componentStart : Reconciler nat :=
  exampleReconciler (exampleRealm true componentObjects) false.


(** The root was folded with the report node 0; node 1 is a new report node
    for a second reference to the same root. *)
Definition memoized : Reconciler nat :=
  set_alreadyEvaluatedRootNodes (fun m => <[Root := 0%nat]> m)
    (snd (createReactEvaluatedNode NODE_NEW_TREE "Again" start)).

(** *** C2 *)

(** The function is already in the set of evaluated closures. *)
Definition queueingState : Reconciler nat :=
  set_alreadyEvaluatedNestedClosures (fun _ => {[ renderChild ]}) start.

(** C2, refuted as stated: with the flag set, queueing the same function
    twice appends two records, although the function is in
    [alreadyEvaluatedNestedClosures]. *)
Lemma queueOptimizedClosure_twice_queues_twice :
  let queue :=
    _queueOptimizedClosure (HostState:=nat) renderChild 0%nat (Some Root)
      (Some rootContext) in
  let record :=
    mkOptimizedClosure 0%nat renderChild [] (Some Root) (Some rootContext) in
  fst (hasEvaluatedNestedClosure renderChild queueingState) = Ok true
  /\ nestedOptimizedClosures queueingState = []
  /\ nestedOptimizedClosures (snd ((queue ;! queue) queueingState))
     = [record; record].
Proof. vm_compute. repeat split; reflexivity. Qed.

(** *** C3 *)







(** *** C4 *)

(** In a branch, a class component that was never folded is queued and the
    subtree aborted. *)
Lemma complex_class_absorbed_or_queued_witness :
  BRANCH <> ROOT
  /\ instanceof Root ECMAScriptSourceFunctionValue = true
  /\ exists s',
       _resolveComplexClassComponent host0 Root rootProps rootContext
         (mkMetadata ∅ ∅) BRANCH 0%nat start
       = (Throw (NewComponentTreeBranch 0%nat), s')
       /\ branchedComponentTrees s' = [mkBranch None 0%nat None Root]
       /\ status (node_at s' 0%nat) = NODE_NEW_TREE
       /\ deadEnds (componentTreeState s') = 1.
Proof.
  assert (H1 : BRANCH <> ROOT) by discriminate.
  assert (H2 : instanceof Root ECMAScriptSourceFunctionValue = true)
    by reflexivity.
  split; [exact H1|]. split; [exact H2|].
  destruct (complex_class_absorbed_or_queued host0 Root rootProps rootContext
              (mkMetadata ∅ ∅) BRANCH 0%nat start H1 H2) as [H _].
  change (absorbable start Root BRANCH) with false in H. cbv zeta in H.
  destruct H as (s' & Hrun & Hbranches & Hstatus & _ & _ & Hdead & _).
  exists s'. split; [exact Hrun|].
  split; [rewrite Hbranches; vm_compute; reflexivity|].
  split; [exact Hstatus|]. rewrite Hdead. reflexivity.
Defined.

(** The class component was folded as a root already, and is met again in a
    branch. *)
Definition memoizedClass : Res Value * Reconciler nat :=
  _resolveComplexClassComponent host0 Root rootProps rootContext
    (mkMetadata ∅ ∅) BRANCH 1%nat memoized.

(** C4, refuted as stated: a complex class component that is in
    [alreadyEvaluatedRootNodes] and is met in a branch is not absorbed, and
    it is not queued as a new root either: the subtree is aborted and a dead
    end counted, and [branchedComponentTrees] stays empty. *)
Lemma complex_class_memoized_is_not_queued :
  absorbable memoized Root BRANCH = false
  /\ fst memoizedClass = Throw (NewComponentTreeBranch 1%nat)
  /\ componentType (componentTreeState (snd memoizedClass)) = None
  /\ branchedComponentTrees memoized = []
  /\ branchedComponentTrees (snd memoizedClass) = []
  /\ deadEnds (componentTreeState (snd memoizedClass)) = 1
  /\ status (node_at (snd memoizedClass) 1%nat) = NODE_NEW_TREE.
Proof. vm_compute. repeat split; reflexivity. Qed.

(** *** C5 *)

(** The provider element as [_resolveReactElement] hands it over in
    first-render-only mode: the copy that the sanitizer made. *)
Definition sanitizedProvider : Res Value * Reconciler nat :=
  sanitized host0 element start.

(** The provider with concrete props and a number as its child. *)
Definition elidedProvider : Res Value * Reconciler nat :=
  _resolveContextProviderComponent host0 (_resolveDeeply host0 10) Root
    (copyOf element) rootContext NO_BRANCH 0%nat (snd sanitizedProvider).

Lemma provider_elided_iff_no_dead_ends_witness :
  fst sanitizedProvider = Ok (copyOf element)
  /\ firstRenderOnly (componentTreeConfig (snd sanitizedProvider)) = true
  /\ instanceof
       (getProperty host0 (realm (snd sanitizedProvider)) (copyOf element)
          "props") ObjectValue = true
  /\ _resolveContextProviderComponent host0 (_resolveDeeply host0 10) Root
       (copyOf element) rootContext NO_BRANCH 0%nat (snd sanitizedProvider)
     = (Ok numberChild, snd elidedProvider)
  /\ provider_first_render_outcome host0 (_resolveDeeply host0 10) Root
       (copyOf element) rootContext NO_BRANCH 0%nat (snd sanitizedProvider)
       numberChild (snd elidedProvider).
Proof.
  assert (H0 : fst sanitizedProvider = Ok (copyOf element))
    by (vm_compute; reflexivity).
  assert (H1 : firstRenderOnly (componentTreeConfig (snd sanitizedProvider))
               = true) by reflexivity.
  assert (H2 : instanceof
                 (getProperty host0 (realm (snd sanitizedProvider))
                    (copyOf element) "props") ObjectValue = true)
    by (vm_compute; reflexivity).
  assert (H3 : _resolveContextProviderComponent host0 (_resolveDeeply host0 10)
                 Root (copyOf element) rootContext NO_BRANCH 0%nat
                 (snd sanitizedProvider)
               = (Ok numberChild, snd elidedProvider))
    by (vm_compute; reflexivity).
  split; [exact H0|]. split; [exact H1|]. split; [exact H2|].
  split; [exact H3|].
  exact (provider_elided_iff_no_dead_ends host0 (_resolveDeeply host0 10) Root
           (copyOf element) rootContext NO_BRANCH 0%nat
           (snd sanitizedProvider) numberChild (snd elidedProvider) H1 H2 H3).
Defined.

(** Props that are not a concrete object do not reach the provider in this
    mode: the sanitizer breaks its invariant on them, and the resolution of
    the element ends with that error. *)
Definition abstractProps : Value := mkValue AbstractObjectValue 13.

Definition abstractPropsStart : Reconciler nat :=
  exampleReconciler
    (exampleRealm true (providerObjects providerType abstractProps numberChild))
    true.

Lemma provider_with_abstract_props_is_not_reached :
  firstRenderOnly (componentTreeConfig abstractPropsStart) = true
  /\ _resolveDeeply host0 10 Root element rootContext NO_BRANCH 0%nat
       abstractPropsStart
     = (Throw (InvariantViolation EmptyString), abstractPropsStart).
Proof. vm_compute. split; reflexivity. Qed.

(** *** C6 *)

(** The handler of an element whose type is the provider object: line 1276
    hands that object to [_queueNewComponentTree]. *)
Definition bailedOutProvider : Res Value * Reconciler nat :=
  _resolveComponentResolutionFailure host0 10
    (ExpectedBailOut "invalid return value from render") element 0%nat
    NO_BRANCH start.

(** C6, refuted as stated: a root value that is an object, and no symbol, is
    not counted as a dead end.  The call throws an Invariant Violation and
    leaves the state as it is; it is reached from the failure handler of an
    element whose type is an object, which then ends with that error. *)
Lemma queueNewComponentTree_rejects_object_type :
  instanceof providerType SymbolValue = false
  /\ _queueNewComponentTree host0 providerType 1%nat None None start
     = (Throw (InvariantViolation EmptyString), start)
  /\ getProperty host0 (realm start) element "type" = providerType
  /\ fst bailedOutProvider = Throw (InvariantViolation EmptyString)
  /\ deadEnds (componentTreeState (snd bailedOutProvider))
     = deadEnds (componentTreeState start)
  /\ branchedComponentTrees (snd bailedOutProvider) = [].
Proof. vm_compute. repeat split; reflexivity. Qed.

(** *** C7 *)

Lemma hasEvaluatedRootNode_memoized_witness :
  alreadyEvaluatedRootNodes memoized !! Root = Some 0%nat
  /\ (exists s',
        hasEvaluatedRootNode Root 1%nat memoized = (Ok true, s')
        /\ children (node_at s' 1%nat) = children (node_at memoized 0%nat)
        /\ status (node_at s' 1%nat) = NODE_NORMAL
        /\ name (node_at s' 1%nat) = "Root"
        /\ realm s' = realm memoized)
  /\ fst (resolveReactComponentTree host0 10 Root (Some rootProps)
            (Some rootContext) 1%nat memoized)
     = fst (resolveReactComponentTree host0 10 Root (Some rootProps)
              (Some rootContext) 1%nat
              (set_alreadyEvaluatedRootNodes (delete Root) memoized)).
Proof.
  assert (H1 : alreadyEvaluatedRootNodes memoized !! Root = Some 0%nat)
    by (vm_compute; reflexivity).
  split; [exact H1|].
  destruct (hasEvaluatedRootNode_memoized host0 10 Root 1%nat 0%nat
              (Some rootProps) (Some rootContext) 1%nat memoized H1)
    as [(s' & Hrun & Hc & Hs & Hn & _ & _ & _ & _ & Hr & _) [Hagain _]].
  split; [|exact Hagain].
  exists s'. split; [exact Hrun|]. split; [exact Hc|].
  split; [rewrite Hs; vm_compute; reflexivity|].
  split; [rewrite Hn; vm_compute; reflexivity|]. exact Hr.
Defined.

(** The root is folded, and then folded again with a new report node. *)
Definition firstFold : Res Effects * Reconciler nat :=
  resolveReactComponentTree host0 10 Root (Some rootProps) (Some rootContext)
    0%nat start.

Definition secondFold : Res Effects * Reconciler nat :=
  resolveReactComponentTree host0 10 Root (Some rootProps) (Some rootContext)
    1%nat (snd (createReactEvaluatedNode NODE_NORMAL "Root" (snd firstFold))).

(** C7, refuted as stated: after a first fold the root is in the table and
    [hasEvaluatedRootNode] answers true, and yet a second fold of the same
    root runs its user code again (the evaluator counts a second call) and
    replaces the memoized node by its own. *)
Lemma second_fold_runs_the_root_again :
  fst firstFold = Ok 0%nat
  /\ hostState (realm (snd firstFold)) = 1%nat
  /\ alreadyEvaluatedRootNodes (snd firstFold) !! Root = Some 0%nat
  /\ fst (hasEvaluatedRootNode Root 1%nat (snd firstFold)) = Ok true
  /\ fst secondFold = Ok 0%nat
  /\ hostState (realm (snd secondFold)) = 2%nat
  /\ alreadyEvaluatedRootNodes (snd secondFold) !! Root = Some 1%nat.
Proof. vm_compute. repeat split; reflexivity. Qed.

(** *** C10 *)






End Concrete.

(** ** The further properties at concrete inputs *)

Section ConcreteFurther.
Import Example.

(** *** X4 *)

Definition complexStart : Reconciler nat :=
  set_componentTreeState (set_treeStatus COMPLEX) start.

Lemma complex_tree_stays_complex_witness :
  treeStatus (componentTreeState complexStart) = COMPLEX
  /\ treeStatus
       (componentTreeState
          (finalState host0 10
             (call_resolveDeeply Root element rootContext NO_BRANCH 0%nat)
             complexStart)) = COMPLEX.
Proof.
  assert (H1 : treeStatus (componentTreeState complexStart) = COMPLEX)
    by reflexivity.
  split; [exact H1|].
  exact (complex_tree_stays_complex host0 10
           (call_resolveDeeply Root element rootContext NO_BRANCH 0%nat)
           complexStart H1).
Defined.

(** *** X6 *)

Definition bailedOut : Res Value * Reconciler nat :=
  _resolveComponentResolutionFailure host0 10 (ExpectedBailOut "not supported")
    element 0%nat NO_BRANCH componentStart.

Lemma resolveComponentResolutionFailure_returns_element_witness :
  bailedOut = (Ok element, snd bailedOut)
  /\ element = element
  /\ recoverable_at_element (ExpectedBailOut "not supported") = true.
Proof.
  assert (H1 : bailedOut = (Ok element, snd bailedOut))
    by (vm_compute; reflexivity).
  split; [exact H1|].
  exact (resolveComponentResolutionFailure_returns_element host0 10
           (ExpectedBailOut "not supported") element 0%nat NO_BRANCH
           componentStart element (snd bailedOut) H1).
Defined.

(** *** X9 *)

Definition metadataOnce : Res ClassComponentMetadata * Reconciler nat :=
  _getClassComponentMetadata host0 Root rootProps rootContext start.

Lemma getClassComponentMetadata_caches_witness :
  metadataOnce = (Ok (mkMetadata ∅ ∅), snd metadataOnce)
  /\ _getClassComponentMetadata host0 Root elementProps rootProps
       (snd metadataOnce)
     = (Ok (mkMetadata ∅ ∅), snd metadataOnce).
Proof.
  assert (H1 : metadataOnce = (Ok (mkMetadata ∅ ∅), snd metadataOnce))
    by (vm_compute; reflexivity).
  split; [exact H1|].
  exact (getClassComponentMetadata_caches host0 Root rootProps rootContext
           start (mkMetadata ∅ ∅) (snd metadataOnce) H1 elementProps
           rootProps).
Defined.

(** *** X12 *)

Lemma reference_counting_round_trip_witness :
  0 <= references start contextObject
  /\ fst (_hasReferenceForContextNode contextObject
            (snd (_incremementReferenceForContextNode contextObject start)))
     = Ok true.
Proof.
  assert (H1 : 0 <= references start contextObject)
    by (vm_compute; discriminate).
  split; [exact H1|].
  exact (proj1 (reference_counting_round_trip (HostState:=nat) contextObject
                  start H1)).
Defined.

(** *** X13 *)

(** [<Consumer>{renderChild}</Consumer>] with no provider above it. *)
Definition consumerObjects : list (Value * list (string * PropertyBinding)) :=
  [ (element, [ prop "$$typeof" (symbol "react.element");
                prop "type" contextObject;
                prop "props" elementProps;
                prop "key" null;
                prop "ref" null ]);
    (contextObject, [ prop "$$typeof" (symbol "react.context");
                      prop "currentValue" previousValue ]);
    (elementProps, [ prop "children" renderChild ]) ].

Definition consumerStart : Reconciler nat :=
  exampleReconciler (exampleRealm true consumerObjects) true.

Lemma consumer_without_reference_is_not_inlined_witness :
  (firstRenderOnly (componentTreeConfig consumerStart) = false
   \/ references consumerStart
        (getProperty host0 (realm consumerStart) element "type") <= 0)
  /\ let '(r, s') :=
       _resolveContextConsumerComponent host0 10 Root element rootContext
         0%nat consumerStart in
     realm s' = realm consumerStart
     /\ statistics s' = statistics consumerStart
     /\ status (node_at s' (fresh (dom (nodes consumerStart))))
        = NODE_RENDER_PROPS
     /\ forall v, r <> Ok (Some v).
Proof.
  assert (H1 : firstRenderOnly (componentTreeConfig consumerStart) = false
               \/ references consumerStart
                    (getProperty host0 (realm consumerStart) element "type")
                  <= 0)
    by (right; vm_compute; discriminate).
  split; [exact H1|].
  exact (consumer_without_reference_is_not_inlined host0 10 Root element
           rootContext 0%nat consumerStart H1).
Defined.

(** *** X14 *)

Definition rootRendered : Res (Value * Value) * Reconciler nat :=
  _resolveComponent host0 10 Root rootProps rootContext ROOT 0%nat start.

Lemma resolveComponent_keeps_context_witness :
  rootRendered = (Ok (numberChild, rootContext), snd rootRendered)
  /\ snd (numberChild, rootContext) = rootContext.
Proof.
  assert (H1 : rootRendered
               = (Ok (numberChild, rootContext), snd rootRendered))
    by (vm_compute; reflexivity).
  split; [exact H1|].
  exact (resolveComponent_keeps_context host0 10 Root rootProps rootContext
           ROOT 0%nat start (numberChild, rootContext) (snd rootRendered) H1).
Defined.

(** *** X15 *)

(** [renderChild.bind(...)]: a bound function whose target is
    [renderChild]. *)
Definition boundChild : Value := mkValue BoundFunctionValue 14.

Definition closureResolved : Res Effects * Reconciler nat :=
  resolveNestedOptimizedClosure host0 10 boundChild [] (Some Root)
    (Some rootContext) 0%nat start.

Lemma resolveNestedOptimizedClosure_records_target_witness :
  resolveNestedOptimizedClosure host0 10 boundChild [] (Some Root)
    (Some rootContext) 0%nat start = (Ok 0%nat, snd closureResolved)
  /\ BoundTargetFunction host0 (realm start) boundChild = renderChild
  /\ alreadyEvaluatedNestedClosures (snd closureResolved)
     = alreadyEvaluatedNestedClosures start ∪ {[renderChild]}
  /\ instanceof renderChild ECMAScriptSourceFunctionValue = true
  /\ fst (hasEvaluatedNestedClosure renderChild (snd closureResolved))
     = Ok true.
Proof.
  assert (H1 : resolveNestedOptimizedClosure host0 10 boundChild []
                 (Some Root) (Some rootContext) 0%nat start
               = (Ok 0%nat, snd closureResolved))
    by (vm_compute; reflexivity).
  split; [exact H1|]. split; [reflexivity|].
  exact (resolveNestedOptimizedClosure_records_target host0 10 boundChild []
           (Some Root) (Some rootContext) 0%nat start 0%nat
           (snd closureResolved) H1).
Defined.

(** *** X16 *)

Definition divType : Value := mkValue StringValue 20.

(** [<div title={previousValue} />] *)
Definition hostObjects : list (Value * list (string * PropertyBinding)) :=
  [ (element, [ prop "$$typeof" (symbol "react.element");
                prop "type" divType;
                prop "props" elementProps;
                prop "key" null;
                prop "ref" null ]);
    (elementProps, [ prop "title" previousValue ]) ].

Definition hostStart : Reconciler nat :=
  exampleReconciler (exampleRealm true hostObjects) false.

Lemma host_element_without_children_is_a_leaf_witness :
  _resolveDeeply host0 1 Root element rootContext NO_BRANCH 0%nat hostStart
  = (Ok element, hostStart).
Proof.
  apply (host_element_without_children_is_a_leaf host0 0 Root element
           rootContext NO_BRANCH 0%nat hostStart);
    vm_compute; reflexivity.
Defined.

(** *** X17 *)

Lemma memoized_root_shares_children_witness :
  alreadyEvaluatedRootNodes memoized !! Root = Some 0%nat
  /\ children_of
       (snd (children_push 1%nat 7%nat
               (snd (hasEvaluatedRootNode Root 1%nat memoized)))) 0%nat
     = children_of memoized 0%nat ++ [7%nat].
Proof.
  assert (H1 : alreadyEvaluatedRootNodes memoized !! Root = Some 0%nat)
    by (vm_compute; reflexivity).
  split; [exact H1|].
  exact (proj1 (memoized_root_shares_children (HostState:=nat) Root 1%nat
                  0%nat 7%nat memoized H1)).
Defined.

(** *** X18 *)

Lemma references_never_negative_witness :
  references_nonnegative start
  /\ references_nonnegative
       (finalState host0 10
          (call_resolveDeeply Root element rootContext NO_BRANCH 0%nat)
          start).
Proof.
  assert (H1 : references_nonnegative start)
    by apply references_nonnegative_initially.
  split; [exact H1|].
  exact (references_never_negative host0 10
           (call_resolveDeeply Root element rootContext NO_BRANCH 0%nat)
           start H1).
Defined.

(** *** X19 *)

Lemma provider_pairs_on_return_witness :
  _resolveContextProviderComponent host0 (_resolveDeeply host0 10) Root
    (copyOf element) rootContext NO_BRANCH 0%nat (snd sanitizedProvider)
  = (Ok numberChild, snd elidedProvider)
  /\ provider_pairing host0 (_resolveDeeply host0 10) Root (copyOf element)
       rootContext NO_BRANCH (snd sanitizedProvider) (snd elidedProvider).
Proof.
  assert (H1 : _resolveContextProviderComponent host0 (_resolveDeeply host0 10)
                 Root (copyOf element) rootContext NO_BRANCH 0%nat
                 (snd sanitizedProvider)
               = (Ok numberChild, snd elidedProvider))
    by (vm_compute; reflexivity).
  split; [exact H1|].
  exact (provider_pairs_on_return host0 (_resolveDeeply host0 10) Root
           (copyOf element) rootContext NO_BRANCH 0%nat
           (snd sanitizedProvider) numberChild (snd elidedProvider) H1).
Defined.

(** *** X20 *)

Definition rootFolded : Res Effects * Reconciler nat :=
  resolveReactComponentTree host0 10 Root (Some rootProps) (Some rootContext)
    0%nat start.

Lemma folded_root_is_memoized_witness :
  resolveReactComponentTree host0 10 Root (Some rootProps) (Some rootContext)
    0%nat start = (Ok 0%nat, snd rootFolded)
  /\ alreadyEvaluatedRootNodes (snd rootFolded)
     = <[Root := 0%nat]> (alreadyEvaluatedRootNodes start)
  /\ forall evaluateNode,
       fst (hasEvaluatedRootNode Root evaluateNode (snd rootFolded)) = Ok true.
Proof.
  assert (H1 : resolveReactComponentTree host0 10 Root (Some rootProps)
                 (Some rootContext) 0%nat start = (Ok 0%nat, snd rootFolded))
    by (vm_compute; reflexivity).
  split; [exact H1|].
  exact (folded_root_is_memoized host0 10 Root (Some rootProps)
           (Some rootContext) 0%nat start 0%nat (snd rootFolded) H1).
Defined.

(** *** X21 *)

Definition unknownValue : Value := mkValue AbstractValue 30.

Lemma unknown_abstract_value_is_a_dead_end_witness :
  _resolveDeeply host0 1 Root unknownValue rootContext NO_BRANCH 0%nat start
  = (Ok unknownValue,
     set_componentTreeState (set_deadEnds (fun n => n + 1)) start)
  /\ deadEnds
       (componentTreeState
          (snd (_resolveDeeply host0 1 Root unknownValue rootContext NO_BRANCH
                  0%nat start))) = 1.
Proof.
  assert (H1 : instanceof unknownValue AbstractValue = true) by reflexivity.
  assert (H2 : generator (realm start) = true) by reflexivity.
  assert (H3 : kind host0 (realm start) unknownValue <> Some "conditional")
    by discriminate.
  assert (H4 : react_abstractHints (realm start) !! unknownValue = None)
    by (vm_compute; reflexivity).
  pose proof (unknown_abstract_value_is_a_dead_end host0 0 Root unknownValue
                rootContext NO_BRANCH 0%nat start H1 H2 H3 H4) as H.
  split; [exact H|]. rewrite H. reflexivity.
Defined.

(** *** X23 *)

Lemma bailOut_reasons_are_joined_in_order_witness :
  BailOutReason (realm start) !! element = None
  /\ BailOutReason
       (realm
          (snd (forEach ["first"; "second"; "third"]
                  (_assignBailOutMessage element) start)))
     !! element
     = Some "Bail-out: first, Bail-out: second, Bail-out: third".
Proof.
  assert (H1 : BailOutReason (realm start) !! element = None)
    by (vm_compute; reflexivity).
  split; [exact H1|].
  exact (bailOut_reasons_are_joined_in_order (HostState:=nat) element
           "first" ["second"; "third"] start H1).
Defined.

End ConcreteFurther.
